(** * TCP latency measurement tool: server, handler, client and statistics

    A shallow embedding of [tcp_latency_measurement.py], of
    [simple_tcp_client.py] and of the search loop of
    [monte_carlo_simulator_catching.py].

    Conventions of the embedding.
    - A Python float is an IEEE 754 binary64 number: the type [spec_float] of
      the standard library with precision 53 and [emax = 1024].  [+], [-],
      [*], [/] and the comparisons are its operations, so rounding, overflow
      to [inf], NaN and the signed zeros are those of Python.
    - A Python [int] is a [Z]; a counter that only grows from 0 is a [nat].
      The two entries of [self.stats] that start as the int [0] and are only
      ever added or compared to floats are floats that start as [0.0].
    - [time.time()], [datetime.now()], [time.sleep], the sockets and the
      other threads are the environment: every call of the program into them
      takes its outcome from an explicit record ([exchange], [ping_env],
      [start_env], a schedule), so every function below is a total,
      executable function.
    - The standard-library modules [json] and [statistics] are not code of
      the repository.  [json.loads] is represented by its outcome
      ([payload]).  What [statistics.mean], [median] and [stdev] return, and
      whether they raise, depends on the version of Python: they are the
      three functions of a [library], which is part of the environment. *)

From Stdlib Require Import String Ascii.
From Stdlib Require Import ZArith NArith List Bool Arith Lia Permutation.
From Stdlib Require Import SpecFloat.
Import ListNotations.

Set Warnings "-register-all".

(** ** Numbers *)

(** Python's [float]. *)
Definition float : Type := spec_float.
Definition prec : Z := 53.
Definition emax : Z := 1024.

Definition fadd : float -> float -> float := SFadd prec emax.
Definition fsub : float -> float -> float := SFsub prec emax.
Definition fmul : float -> float -> float := SFmul prec emax.
Definition fdiv : float -> float -> float := SFdiv prec emax.
Definition fltb : float -> float -> bool := SFltb.
Definition fleb : float -> float -> bool := SFleb.

Declare Scope float_scope.
Delimit Scope float_scope with float.
Infix "+" := fadd : float_scope.
Infix "-" := fsub : float_scope.
Infix "*" := fmul : float_scope.
Infix "/" := fdiv : float_scope.
Infix "<?" := fltb : float_scope.
Infix "<=?" := fleb : float_scope.

(** [float('inf')] and [float('nan')]. *)
Definition Inf : float := S754_infinity false.
Definition NaN : float := S754_nan.

Definition is_nan (x : float) : bool :=
  match x with
  | S754_nan => true
  | _ => false
  end.

(** The float nearest to an integer (ties to even): the value of a float
    literal such as [1000.0], and of an int that Python converts. *)
Definition F (z : Z) : float := binary_normalize prec emax z 0 false.

(** The conversion of an [int] operand to [float]; [None] is Python's
    [OverflowError: int too large to convert to float]. *)
Definition float_of_int (z : Z) : option float :=
  match F z with
  | S754_infinity _ => None
  | f => Some f
  end.

(** The exceptions that the program meets. *)
Inductive exn : Type :=
| UnicodeDecodeError
| JSONDecodeError
| RecursionError
| AttributeError
| TypeError
| ValueError
| OverflowError
| ZeroDivisionError
| AssertionError
| socket_error
| KeyboardInterrupt.

(** [isinstance(e, Exception)]: [KeyboardInterrupt] derives from
    [BaseException] only, so [except Exception] lets it through. *)
Definition is_Exception (e : exn) : bool :=
  match e with
  | KeyboardInterrupt => false
  | _ => true
  end.

(** The outcome of a call that returns a value or raises. *)
Inductive answer (A : Type) : Type :=
| Gives (a : A)
| Throws (e : exn).
Arguments Gives {A} a.
Arguments Throws {A} e.

(** ** Decoded messages

    The value that [json.loads] returns.  [JInt] is a Python [int], [JNum] a
    Python [float]; [json.loads] returns the floats [nan], [inf] and [-inf]
    for the texts [NaN], [Infinity] and [-Infinity].  A JSON object is the
    list of the items of the [dict] it decodes to; the keys of a dict are
    distinct, and [dict_get] reads the first item of a key. *)

Inductive json : Type :=
| JNull
| JBool (b : bool)
| JInt (z : Z)
| JNum (f : float)
| JStr (s : string)
| JArr (elements : list json)
| JObj (items : list (string * json)).

(** [d.get(key, default)] on the items of a dict. *)
Fixpoint dict_get (d : list (string * json)) (key : string) (default : json)
  : json :=
  match d with
  | [] => default
  | (k, v) :: rest => if String.eqb k key then v else dict_get rest key default
  end.

(** [key in d]. *)
Definition has_key (d : list (string * json)) (key : string) : bool :=
  existsb (fun kv => String.eqb (fst kv) key) d.

(** [v == text] for a value [v] and a string literal [text]. *)
Definition is_str (v : json) (text : string) : bool :=
  match v with
  | JStr s => String.eqb s text
  | _ => false
  end.

(** A Python number: an [int] or a [float]. *)
Inductive number : Type :=
| Int (z : Z)
| Float (f : float).

(** The number that arithmetic sees in a value: an int or a float, and a
    bool, which Python counts as 1 or 0.  Any other value makes [-] and the
    functions of [statistics] raise [TypeError]. *)
Definition as_number (v : json) : option number :=
  match v with
  | JInt z => Some (Int z)
  | JNum f => Some (Float f)
  | JBool b => Some (Int (if b then 1 else 0))
  | _ => None
  end.

(** The float operand that a number is in an operation with a float;
    [None] is the [OverflowError] of an int that is too large. *)
Definition to_float (n : number) : option float :=
  match n with
  | Int z => float_of_int z
  | Float f => Some f
  end.

Definition is_number (v : json) : bool :=
  match as_number v with
  | Some _ => true
  | None => false
  end.

(** Are all the values numbers? *)
Definition all_numbers (values : list json) : bool := forallb is_number values.

(** [z ? f], exactly, for an int and a float that is not NaN. *)
Definition compare_int_float (z : Z) (f : float) : option comparison :=
  match f with
  | S754_nan => None
  | S754_infinity negative => Some (if negative then Gt else Lt)
  | S754_zero _ => Some (z ?= 0)%Z
  | S754_finite negative m e =>
      let mantissa := if negative then Zneg m else Zpos m in
      if (0 <=? e)%Z
      then Some (z ?= mantissa * 2 ^ e)%Z
      else Some (z * 2 ^ (- e) ?= mantissa)%Z
  end.

(** [a < b] on numbers; Python compares an int and a float by value. *)
Definition number_ltb (a b : number) : bool :=
  match a, b with
  | Int x, Int y => (x <? y)%Z
  | Float x, Float y => fltb x y
  | Int x, Float y =>
      match compare_int_float x y with
      | Some Lt => true
      | _ => false
      end
  | Float x, Int y =>
      match compare_int_float y x with
      | Some Gt => true
      | _ => false
      end
  end.

(** [v < w] on values that are numbers. *)
Definition value_ltb (v w : json) : bool :=
  match as_number v, as_number w with
  | Some a, Some b => number_ltb a b
  | _, _ => false
  end.

(** The exception that the format [f"{v:.2f}"] raises, if any: an int is
    converted to float, a string has no format code [f], and [None], lists
    and dicts take no format string. *)
Definition formats (v : json) : option exn :=
  match v with
  | JNum _ | JBool _ => None
  | JInt z =>
      match float_of_int z with
      | Some _ => None
      | None => Some OverflowError
      end
  | JStr _ => Some ValueError
  | JNull | JArr _ | JObj _ => Some TypeError
  end.

(** What [json.loads(data.decode('utf-8'))] makes of the bytes that one
    [recv(1024)] returned. *)
Inductive payload : Type :=
| Empty                    (* b'': the peer has closed the connection *)
| InvalidUtf8              (* data.decode raises UnicodeDecodeError *)
| InvalidJson              (* json.loads raises json.JSONDecodeError *)
| TooDeep                  (* json.loads raises RecursionError *)
| Text (v : json).         (* the bytes decode to the value v *)

(** The outcome of a call on a socket that may raise [socket.error]. *)
Inductive io (A : Type) : Type :=
| Done (a : A)
| Failed.
Arguments Done {A} a.
Arguments Failed {A}.

(** ** The [statistics] module of Python's standard library

    The outcome of a call of [mean], [median] or [stdev] on data of more
    than one element is the library's: [stdev], for one, raises
    [OverflowError] on floats whose variance leaves the float range, and
    what it does with NaN differs between versions of Python.  On one
    number the outcome is fixed: the median is the element itself, and the
    mean is the number, computed as an exact fraction and converted back to
    its type, which makes an int of a bool and [0.0] of [-0.0].  The
    library is any three functions that raise nothing but errors of
    arithmetic and conversion. *)

(** What a function of [statistics] may raise on numbers: the errors of
    arithmetic and of conversion ([StatisticsError] is a [ValueError]). *)
Definition raised_by_statistics (e : exn) : bool :=
  match e with
  | TypeError | ValueError | OverflowError | ZeroDivisionError
  | AttributeError => true
  | _ => false
  end.

Class library : Type := mkLibrary {
  lib_mean : list json -> answer json;
  lib_median : list json -> answer json;
  lib_stdev : list json -> answer json;
  lib_raises :
    forall data e,
      lib_mean data = Throws e \/ lib_median data = Throws e
      \/ lib_stdev data = Throws e ->
      raised_by_statistics e = true
}.

Module statistics.

Definition mean {lib : library} (data : list json) : answer json :=
  match data with
  | [x] =>
      match as_number x with
      | Some (Int z) => Gives (JInt z)
      | Some (Float f) =>
          Gives (JNum match f with
                      | S754_zero _ => S754_zero false
                      | _ => f
                      end)
      | None => Throws TypeError
      end
  | _ => lib_mean data
  end.

Definition median {lib : library} (data : list json) : answer json :=
  match data with
  | [x] => Gives x
  | _ => lib_median data
  end.

Definition stdev {lib : library} (data : list json) : answer json :=
  lib_stdev data.

End statistics.

(** ** Control flow: state, output and exceptions

    A method is a function from the object it runs on to its outcome, the
    object afterwards and what it printed and sent meanwhile.  The outcome
    [Pending] is that of a thread which is blocked in a call to the
    environment when the given part of the environment's behaviour ends:
    the method has neither returned nor raised yet. *)

Inductive result (A : Type) : Type :=
| Ok (a : A)
| Raise (e : exn)
| Pending.
Arguments Ok {A} a.
Arguments Raise {A} e.
Arguments Pending {A}.

Section Method.

Variables (Self Effect : Type).

Definition M (A : Type) : Type := Self -> result A * Self * list Effect.

Definition ret {A} (a : A) : M A := fun self => (Ok a, self, []).

Definition bind {A B} (m : M A) (k : A -> M B) : M B :=
  fun self =>
    match m self with
    | (Ok a, self1, out1) =>
        match k a self1 with
        | (r, self2, out2) => (r, self2, out1 ++ out2)
        end
    | (Raise e, self1, out1) => (Raise e, self1, out1)
    | (Pending, self1, out1) => (Pending, self1, out1)
    end.

Definition raise {A} (e : exn) : M A := fun self => (Raise e, self, []).

Definition pending {A} : M A := fun self => (Pending, self, []).

Definition read : M Self := fun self => (Ok self, self, []).

Definition modify (f : Self -> Self) : M unit :=
  fun self => (Ok tt, f self, []).

Definition emit (e : Effect) : M unit := fun self => (Ok tt, self, [e]).

(** [try: m  except <the exceptions that handles accepts> as e: h e]. *)
Definition try_except {A} (m : M A) (handles : exn -> bool)
           (h : exn -> M A) : M A :=
  fun self =>
    match m self with
    | (Raise e, self1, out1) =>
        if handles e
        then match h e self1 with
             | (r, self2, out2) => (r, self2, out1 ++ out2)
             end
        else (Raise e, self1, out1)
    | other => other
    end.

(** [try: m  finally: f]. *)
Definition try_finally {A} (m : M A) (f : M unit) : M A :=
  fun self =>
    match m self with
    | (Pending, self1, out1) => (Pending, self1, out1)
    | (r, self1, out1) =>
        match f self1 with
        | (Ok _, self2, out2) => (r, self2, out1 ++ out2)
        | (Raise e, self2, out2) => (Raise e, self2, out1 ++ out2)
        | (Pending, self2, out2) => (Pending, self2, out1 ++ out2)
        end
    end.

(** A call on a socket, its outcome taken from the environment. *)
Definition call {A} (outcome : io A) : M A :=
  match outcome with
  | Done a => ret a
  | Failed => raise socket_error
  end.

(** A call that returns or raises. *)
Definition lift {A} (outcome : answer A) : M A :=
  match outcome with
  | Gives a => ret a
  | Throws e => raise e
  end.

End Method.

Arguments ret {Self Effect A} a.
Arguments bind {Self Effect A B} m k.
Arguments raise {Self Effect A} e.
Arguments pending {Self Effect A}.
Arguments read {Self Effect}.
Arguments modify {Self Effect} f.
Arguments emit {Self Effect} e.
Arguments try_except {Self Effect A} m handles h.
Arguments try_finally {Self Effect A} m f.
Arguments call {Self Effect A} outcome.
Arguments lift {Self Effect A} outcome.

Notation "x <- m ;; k" := (bind m (fun x => k))
  (at level 100, m at next level, right associativity).
Notation "m ;; k" := (bind m (fun _ => k))
  (at level 100, right associativity).

(** Decoding, for the server and for the client alike. *)
Section Decoding.

Variables (Self Effect : Type).

(** [json.loads(data.decode('utf-8'))]. *)
Definition loads (data : payload) : M Self Effect json :=
  match data with
  | Empty => raise JSONDecodeError
  | InvalidUtf8 => raise UnicodeDecodeError
  | InvalidJson => raise JSONDecodeError
  | TooDeep => raise RecursionError
  | Text v => ret v
  end.

(** [request.get(key, default)]: only a dict has the method. *)
Definition get (request : json) (key : string) (default : json)
  : M Self Effect json :=
  match request with
  | JObj d => ret (dict_get d key default)
  | _ => raise AttributeError
  end.

End Decoding.

Arguments loads {Self Effect} data.
Arguments get {Self Effect} request key default.

(** ** class TCPServer *)

Module TCPServer.

(** The statistics dictionary [self.stats]. *)

Record Stats : Type := mkStats {
  total_requests : nat;
  total_latency : float;
  min_latency : float;
  max_latency : float;
  latencies : list float
}.

(** [self.stats] as [TCPServer.__init__] builds it. *)
Definition initial_stats : Stats :=
  {| total_requests := 0;
     total_latency := F 0;
     min_latency := Inf;
     max_latency := F 0;
     latencies := [] |}.

(** The item assignments [self.stats[key] = v]. *)
Definition set_total_requests (v : nat) (s : Stats) : Stats :=
  mkStats v (total_latency s) (min_latency s) (max_latency s) (latencies s).
Definition set_total_latency (v : float) (s : Stats) : Stats :=
  mkStats (total_requests s) v (min_latency s) (max_latency s) (latencies s).
Definition set_min_latency (v : float) (s : Stats) : Stats :=
  mkStats (total_requests s) (total_latency s) v (max_latency s) (latencies s).
Definition set_max_latency (v : float) (s : Stats) : Stats :=
  mkStats (total_requests s) (total_latency s) (min_latency s) v (latencies s).
(** [self.stats['latencies'].append(v)]. *)
Definition append_latency (v : float) (s : Stats) : Stats :=
  mkStats (total_requests s) (total_latency s) (min_latency s) (max_latency s)
          (latencies s ++ [v]).

(** [TCPServer.update_stats], run without interruption.  A comparison with
    NaN is false, so a NaN sample passes neither test. *)
Definition update_stats (s : Stats) (latency : float) : Stats :=
  let s := set_total_requests (total_requests s + 1) s in
  let s := set_total_latency (total_latency s + latency)%float s in
  let s := append_latency latency s in
  let s := if (latency <? min_latency s)%float
           then set_min_latency latency s else s in
  let s := if (max_latency s <? latency)%float
           then set_max_latency latency s else s in
  s.

(** What [TCPServer.get_stats] returns: the entries of [self.stats.copy()]
    and the three keys it adds.  The copy is shallow: its ['latencies'] is
    the list object of [self.stats] itself.  A [Report] is the content of
    the dict when [get_stats] returns it, which is what its one caller,
    [handle_client], serialises at once with [json.dumps]. *)
Record Report : Type := mkReport {
  copied : Stats;
  avg_latency : json;
  median_latency : json;
  std_latency : json
}.

(** [TCPServer.get_stats]; it raises what the library raises. *)
Definition get_stats {lib : library} (s : Stats) : answer Report :=
  let stats := s in
  match latencies stats with
  | _ :: _ =>
      let data := map JNum (latencies stats) in
      match statistics.mean data with
      | Throws e => Throws e
      | Gives avg =>
          match statistics.median data with
          | Throws e => Throws e
          | Gives med =>
              match (if (1 <? length data)%nat
                     then statistics.stdev data
                     else Gives (JInt 0)) with
              | Throws e => Throws e
              | Gives std =>
                  Gives {| copied := stats;
                           avg_latency := avg;
                           median_latency := med;
                           std_latency := std |}
              end
          end
      end
  | [] =>
      Gives {| copied := stats;
               avg_latency := JInt 0;
               median_latency := JInt 0;
               std_latency := JInt 0 |}
  end.

(** A sequence of [update_stats] calls, one after the other. *)
Definition record_all (s : Stats) (L : list float) : Stats :=
  fold_left update_stats L s.

(** The listening socket, as far as the program changes it. *)
Record socket : Type := mkSocket {
  bound : bool;
  listening : bool;
  closed : bool
}.

(** The attributes of a [TCPServer] object. *)
Record server : Type := mkServer {
  host : string;
  port : N;
  server_socket : option socket;
  running : bool;
  stats : Stats
}.

(** [TCPServer.__init__]. *)
Definition init (host : string) (port : N) : server :=
  {| host := host;
     port := port;
     server_socket := None;
     running := false;
     stats := initial_stats |}.

Definition set_server_socket (v : option socket) (self : server) : server :=
  mkServer (host self) (port self) v (running self) (stats self).
Definition set_running (v : bool) (self : server) : server :=
  mkServer (host self) (port self) (server_socket self) v (stats self).
Definition set_stats (v : Stats) (self : server) : server :=
  mkServer (host self) (port self) (server_socket self) (running self) v.

(** The responses of the server, as [json.dumps] serialises them. *)
Inductive response : Type :=
| Pong (timestamp latency : float) (server_time : string)
| StatsResponse (stats : Report).

(** The lines that the server prints. *)
Inductive line : Type :=
| server_started
| listening_on (host : string) (port : N)
| waiting_for_clients
| client_connected (client_address : nat)
| accept_error (e : exn)
| start_failed (e : exn)
| request_done (latency : float)
| invalid_json
| handler_error (e : exn)
| client_disconnected (client_address : nat)
| interrupted
| server_stopped.

(** What the server does to the world outside the object. *)
Inductive effect : Type :=
| Log (l : line)
| Send (client_address : nat) (r : response)
| CloseClient (client_address : nat)
| Spawn (client_address : nat).   (* a thread running handle_client *)

Definition method : Type -> Type := M server effect.

(** [TCPServer.stop]. *)
Definition stop : method unit :=
  modify (set_running false) ;;
  self <- read ;;
  match server_socket self with
  | Some sock =>
      modify (set_server_socket
                (Some (mkSocket (bound sock) (listening sock) true)))
  | None => ret tt
  end ;;
  emit (Log server_stopped).

(** *** [TCPServer.handle_client] *)

(** What the environment does during one turn of the handler's loop. *)
Record exchange : Type := mkExchange {
  received : io payload;   (* client_socket.recv(1024) *)
  time_default : float;    (* time.time(), the default of request.get *)
  time_current : float;    (* time.time(), current_time *)
  server_time : string;    (* datetime.now().isoformat() *)
  sent : io unit           (* client_socket.send *)
}.

(** The behaviour of the environment of one handler: the turns of its loop,
    and the calls of [stop] that another thread makes between them. *)
Inductive event : Type :=
| Stop
| Round (e : exchange).

(** [current_time - timestamp]: a number that is an int is converted to
    float, which raises [OverflowError] when it is too large. *)
Definition minus (current_time : float) (timestamp : json) : method float :=
  match as_number timestamp with
  | Some n =>
      match to_float n with
      | Some t => ret (current_time - t)%float
      | None => raise OverflowError
      end
  | None => raise TypeError
  end.

(** The body of the inner [try]. *)
Definition process {lib : library} (client_address : nat) (e : exchange)
           (data : payload) : method unit :=
  request <- loads data ;;
  request_type <- get request "type" (JStr "ping") ;;
  timestamp <- get request "timestamp" (JNum (time_default e)) ;;
  if is_str request_type "ping" then
    let current_time := time_current e in
    difference <- minus current_time timestamp ;;
    let latency := (difference * F 1000)%float in
    modify (fun self => set_stats (update_stats (stats self) latency) self) ;;
    call (sent e) ;;
    emit (Send client_address (Pong current_time latency (server_time e))) ;;
    emit (Log (request_done latency))
  else if is_str request_type "stats" then
    self <- read ;;
    report <- lift (get_stats (stats self)) ;;
    call (sent e) ;;
    emit (Send client_address (StatsResponse report))
  else
    ret tt.

(** One turn of the loop; [false] is the [break]. *)
Definition turn {lib : library} (client_address : nat) (e : exchange)
  : method bool :=
  data <- call (received e) ;;
  match data with
  | Empty => ret false
  | _ =>
      try_except (process client_address e data)
                 (fun x => match x with JSONDecodeError => true | _ => false end)
                 (fun _ => emit (Log invalid_json)) ;;
      ret true
  end.

(** [while self.running: ...]. *)
Fixpoint serve {lib : library} (client_address : nat) (events : list event)
  : method unit :=
  match events with
  | Stop :: rest => stop ;; serve client_address rest
  | Round e :: rest =>
      self <- read ;;
      if running self then
        again <- turn client_address e ;;
        if again then serve client_address rest else ret tt
      else ret tt
  | [] =>
      self <- read ;;
      if running self then pending else ret tt
  end.

(** [TCPServer.handle_client]. *)
Definition handle_client {lib : library} (client_address : nat)
           (events : list event) : method unit :=
  try_finally
    (try_except (serve client_address events)
                is_Exception
                (fun e => emit (Log (handler_error e))))
    (emit (CloseClient client_address) ;;
     emit (Log (client_disconnected client_address))).

(** *** [TCPServer.start] *)

(** The calls that set the listening socket up, each of which may raise. *)
Inductive setup_call : Type :=
| socket_call
| setsockopt_call
| bind_call
| listen_call.

Definition setup_call_eqb (a b : setup_call) : bool :=
  match a, b with
  | socket_call, socket_call
  | setsockopt_call, setsockopt_call
  | bind_call, bind_call
  | listen_call, listen_call => true
  | _, _ => false
  end.

(** What one call of [accept] comes to. *)
Inductive accept_outcome : Type :=
| Connection (client_address : nat)
| AcceptFails               (* socket.error *)
| Interrupt.                (* KeyboardInterrupt, delivered to the main thread *)

(** One turn of the accept loop: whether another thread called [stop] while
    [accept] was blocked, and what [accept] came to. *)
Record accept_event : Type := mkAccept {
  stop_called : bool;
  accepted : accept_outcome
}.

(** The behaviour of the environment of [start]. *)
Record start_env : Type := mkStartEnv {
  setup_failure : option setup_call;   (* the setup call that raises, if any *)
  accepts : list accept_event
}.

(** One setup call: it raises when the environment says so, and changes the
    object otherwise. *)
Definition setup (env : start_env) (c : setup_call)
           (change : server -> server) : method unit :=
  match setup_failure env with
  | Some failing =>
      if setup_call_eqb failing c then raise socket_error else modify change
  | None => modify change
  end.

Definition on_socket (f : socket -> socket) (self : server) : server :=
  match server_socket self with
  | Some sock => set_server_socket (Some (f sock)) self
  | None => self
  end.

(** [while self.running: ... accept ...]. *)
Fixpoint accept_loop (events : list accept_event) : method unit :=
  self <- read ;;
  if running self then
    match events with
    | [] => pending
    | ev :: rest =>
        (if stop_called ev then stop else ret tt) ;;
        try_except
          (match accepted ev with
           | Connection client_address =>
               emit (Log (client_connected client_address)) ;;
               emit (Spawn client_address)
           | AcceptFails => raise socket_error
           | Interrupt => raise KeyboardInterrupt
           end)
          (fun e => match e with socket_error => true | _ => false end)
          (fun e =>
             self <- read ;;
             if running self then emit (Log (accept_error e)) else ret tt) ;;
        accept_loop rest
    end
  else ret tt.

(** [TCPServer.start].  The outcome [Ok tt] is the normal return of the
    method; [Raise e] is an exception that reaches the caller. *)
Definition start (env : start_env) : method unit :=
  try_finally
    (try_except
       (setup env socket_call
              (set_server_socket (Some (mkSocket false false false))) ;;
        setup env setsockopt_call (fun self => self) ;;
        setup env bind_call
              (on_socket (fun s => mkSocket true (listening s) (closed s))) ;;
        setup env listen_call
              (on_socket (fun s => mkSocket (bound s) true (closed s))) ;;
        modify (set_running true) ;;
        emit (Log server_started) ;;
        self <- read ;;
        emit (Log (listening_on (host self) (port self))) ;;
        emit (Log waiting_for_clients) ;;
        accept_loop (accepts env))
       is_Exception
       (fun e => emit (Log (start_failed e))))
    stop.

(** [run_server]: the caller of [start]. *)
Definition run_server (host : string) (port : N) (env : start_env)
  : result unit * server * list effect :=
  try_except (start env)
             (fun e => match e with KeyboardInterrupt => true | _ => false end)
             (fun _ => emit (Log interrupted) ;; stop)
             (init host port).

(** *** Handler threads on the shared [self.stats]

    Every connection has a thread of its own, and all of them call
    [update_stats] and [get_stats] on the one [self.stats] without a lock.
    Python may switch threads between any two statements, and inside an
    augmented assignment [d[k] += v] between the read of [d[k]] and the write
    of the sum.  The steps below are the statements of [update_stats] cut at
    these points; [list.append] is one step. *)

Inductive pc : Type :=
| ReadRequests                 (* read stats['total_requests'] *)
| WriteRequests (seen : nat)   (* write seen + 1 *)
| ReadLatency                  (* read stats['total_latency'] *)
| WriteLatency (seen : float)  (* write seen + latency *)
| Append                       (* stats['latencies'].append(latency) *)
| CompareMin                   (* if latency < stats['min_latency'] *)
| WriteMin                     (* stats['min_latency'] = latency *)
| CompareMax                   (* if latency > stats['max_latency'] *)
| WriteMax                     (* stats['max_latency'] = latency *)
| Returned.

(** A thread inside [update_stats latency]. *)
Record thread : Type := mkThread {
  latency : float;
  at_pc : pc
}.

(** A call of [update_stats latency] that has not started. *)
Definition calling (latency : float) : thread := mkThread latency ReadRequests.

(** One step of a thread. *)
Definition step (s : Stats) (t : thread) : Stats * thread :=
  let goto := mkThread (latency t) in
  match at_pc t with
  | ReadRequests => (s, goto (WriteRequests (total_requests s)))
  | WriteRequests seen => (set_total_requests (seen + 1) s, goto ReadLatency)
  | ReadLatency => (s, goto (WriteLatency (total_latency s)))
  | WriteLatency seen =>
      (set_total_latency (seen + latency t)%float s, goto Append)
  | Append => (append_latency (latency t) s, goto CompareMin)
  | CompareMin =>
      (s, goto (if (latency t <? min_latency s)%float
                then WriteMin else CompareMax))
  | WriteMin => (set_min_latency (latency t) s, goto CompareMax)
  | CompareMax =>
      (s, goto (if (max_latency s <? latency t)%float
                then WriteMax else Returned))
  | WriteMax => (set_max_latency (latency t) s, goto Returned)
  | Returned => (s, t)
  end.

(** What the scheduler does next: it lets thread [i] take one step, or it
    lets a handler that answers a stats request run [get_stats] and
    serialise what it returns. *)
Inductive action : Type :=
| Run (i : nat)
| Snapshot.

(** The shared dictionary, the threads, and the outcomes of the [get_stats]
    calls so far: the report as it was serialised, or the exception. *)
Record system : Type := mkSystem {
  shared : Stats;
  threads : list thread;
  reports : list (answer Report)
}.

(** Thread [i] of [ts] takes a step on [s]. *)
Fixpoint step_thread (i : nat) (s : Stats) (ts : list thread)
  : Stats * list thread :=
  match ts, i with
  | [], _ => (s, [])
  | t :: rest, O => let (s', t') := step s t in (s', t' :: rest)
  | t :: rest, S j =>
      let (s', rest') := step_thread j s rest in (s', t :: rest')
  end.

Definition act {lib : library} (sys : system) (a : action) : system :=
  match a with
  | Run i =>
      let (s', ts') := step_thread i (shared sys) (threads sys) in
      mkSystem s' ts' (reports sys)
  | Snapshot =>
      mkSystem (shared sys) (threads sys)
               (reports sys ++ [get_stats (shared sys)])
  end.

(** A schedule, run from the left. *)
Definition run {lib : library} (sys : system) (schedule : list action)
  : system :=
  fold_left act schedule sys.

(** The calls [update_stats l] for [l] in [L], none of them started. *)
Definition concurrent_calls (s : Stats) (L : list float) : system :=
  mkSystem s (map calling L) [].

(** The longest path through [update_stats] has nine steps. *)
Definition whole_call (i : nat) : list action := repeat (Run i) 9.

(** The schedule that lets threads [first], [first + 1], ... run one after
    the other, each to its end. *)
Definition serial (first count : nat) : list action :=
  flat_map whole_call (seq first count).

End TCPServer.

(** ** class TCPClient *)

Module TCPClient.

(** The client's socket, as far as the program changes it. *)
Record socket : Type := mkSocket {
  connected : bool;
  closed : bool
}.

(** The attributes of a [TCPClient] object.  [latencies] holds whatever
    [send_ping] appended: values taken from decoded responses. *)
Record client : Type := mkClient {
  host : string;
  port : N;
  client_socket : option socket;
  latencies : list json
}.

(** [TCPClient.__init__]. *)
Definition init (host : string) (port : N) : client :=
  {| host := host; port := port; client_socket := None; latencies := [] |}.

Definition set_client_socket (v : option socket) (self : client) : client :=
  mkClient (host self) (port self) v (latencies self).
(** [self.latencies.append(v)]. *)
Definition append_latency (v : json) (self : client) : client :=
  mkClient (host self) (port self) (client_socket self) (latencies self ++ [v]).

(** The lines that the client prints. *)
Inductive line : Type :=
| connected_to (host : string) (port : N)
| connect_failed (e : exn)
| not_connected
| ping_failed (e : exn)
| connection_closed.

Inductive effect : Type :=
| Log (l : line)
| Send (request : json).

Definition method : Type -> Type := M client effect.

(** [TCPClient.connect]; the environment says how the creation of the
    socket and the [connect] call on it go. *)
Definition connect (created connecting : io unit) : method bool :=
  try_except
    (call created ;;
     modify (set_client_socket (Some (mkSocket false false))) ;;
     call connecting ;;
     modify (set_client_socket (Some (mkSocket true false))) ;;
     self <- read ;;
     emit (Log (connected_to (host self) (port self))) ;;
     ret true)
    is_Exception
    (fun e => emit (Log (connect_failed e)) ;; ret false).

(** What the environment does during one call of [send_ping].  The socket
    has no timeout: when the peer stays silent, [recv] does not return,
    which is [received = None]. *)
Record ping_env : Type := mkPing {
  time_request : float;            (* time.time(), the timestamp of the request *)
  time_start : float;              (* time.time(), start_time *)
  sent : io unit;                  (* client_socket.send *)
  received : option (io payload);  (* client_socket.recv(1024) *)
  time_end : float                 (* time.time(), end_time *)
}.

(** [TCPClient.send_ping].  The value returned is a Python value; [JNull] is
    [None]. *)
Definition send_ping (env : ping_env) : method json :=
  self <- read ;;
  match client_socket self with
  | None => emit (Log not_connected) ;; ret JNull
  | Some _ =>
      try_except
        (let request :=
           JObj [("type"%string, JStr "ping");
                 ("timestamp"%string, JNum (time_request env))] in
         let start_time := time_start env in
         call (sent env) ;;
         emit (Send request) ;;
         response <- match received env with
                     | Some outcome => call outcome
                     | None => pending
                     end ;;
         let end_time := time_end env in
         match response with
         | Empty => ret JNull
         | _ =>
             response_data <- loads response ;;
             latency <- get response_data "latency"
                            (JNum ((end_time - start_time) * F 1000)%float) ;;
             modify (append_latency latency) ;;
             ret latency
         end)
        is_Exception
        (fun e => emit (Log (ping_failed e)) ;; ret JNull)
  end.

(** [min] and [max] of a non-empty list of numbers: [min] keeps the first
    element unless a later one is smaller, [max] unless a later one is
    greater; a comparison with NaN is false. *)
Definition min_of (first : json) (rest : list json) : json :=
  fold_left (fun least x => if value_ltb x least then x else least) rest first.
Definition max_of (first : json) (rest : list json) : json :=
  fold_left (fun greatest x => if value_ltb greatest x then x else greatest)
            rest first.

(** The dict that [TCPClient.get_stats] returns. *)
Record summary : Type := mkSummary {
  count : nat;
  min : json;
  max : json;
  avg : json;
  median : json;
  std : json
}.

(** [TCPClient.get_stats]; [None] is Python's [None].  A value that is not
    a number makes [min], [max] or [statistics.mean] raise [TypeError]; on
    numbers, [min] and [max] do not raise and the three functions of
    [statistics] do what the library does. *)
Definition get_stats {lib : library} : method (option summary) :=
  self <- read ;;
  match latencies self with
  | [] => ret None
  | first :: rest =>
      let data := first :: rest in
      if all_numbers data then
        average <- lift (statistics.mean data) ;;
        middle <- lift (statistics.median data) ;;
        deviation <- (if (1 <? length data)%nat
                      then lift (statistics.stdev data)
                      else ret (JInt 0)) ;;
        ret (Some {| count := length data;
                     min := min_of first rest;
                     max := max_of first rest;
                     avg := average;
                     median := middle;
                     std := deviation |})
      else raise TypeError
  end.

(** [TCPClient.close]. *)
Definition close : method unit :=
  self <- read ;;
  match client_socket self with
  | Some sock =>
      modify (set_client_socket (Some (mkSocket (connected sock) true)))
  | None => ret tt
  end ;;
  emit (Log connection_closed).

End TCPClient.

(** ** [run_client] *)

(** The lines that [run_client] prints itself. *)
Inductive report_line : Type :=
| test_started (host : string) (port : N)
| test_parameters (count : nat) (interval : float)
| separator
| test_result (number : nat) (latency : json)
| test_failed (number : nat)
| summary_header
| summary_count (n : nat)
| summary_min (v : json)
| summary_max (v : json)
| summary_avg (v : json)
| summary_median (v : json)
| summary_std (v : json)
| test_interrupted.

(** What a run of the client does: what the [TCPClient] object does, what
    [run_client] prints and the pauses between the pings. *)
Inductive run_effect : Type :=
| Client (e : TCPClient.effect)
| Say (l : report_line)
| Sleep (interval : float).

(** What the environment does in one turn of the loop of [run_client]: the
    exchange of a ping and how the pause of the [time.sleep] that follows
    it ends (it is not called after the last turn), or a
    [KeyboardInterrupt] that arrives before the ping is sent. *)
Inductive round : Type :=
| Exchange (env : TCPClient.ping_env) (pause : answer unit)
| Interrupted.

(** How a run ends: it returns, or an exception leaves [run_client].
    [Blocked] stands for a method of the client that has not come back. *)
Inductive ending : Type :=
| Returns
| Raises (e : exn)
| Blocked.

(** [print(f"... {latency:8.2f}ms")] if [latency is not None], else the
    line of a failed test. *)
Definition print_latency (number : nat) (latency : json)
  : answer report_line :=
  match latency with
  | JNull => Gives (test_failed number)
  | _ =>
      match formats latency with
      | None => Gives (test_result number latency)
      | Some e => Throws e
      end
  end.

(** The exception that [time.sleep(interval)] raises before it sleeps, if
    any.  The interval is converted to nanoseconds on 64 bits: NaN raises
    [ValueError], a product [interval * 1e9] outside [-2**63, 2**63] raises
    [OverflowError], and what is still negative raises [ValueError]. *)
Definition sleep_error (interval : float) : option exn :=
  if is_nan interval then Some ValueError
  else
    let nanoseconds := (interval * F (10 ^ 9))%float in
    if (nanoseconds <? F (- 2 ^ 63))%float || (F (2 ^ 63) <? nanoseconds)%float
    then Some OverflowError
    else if (interval <? F 0)%float then Some ValueError
    else None.

(** [time.sleep(interval)]: when the interval is taken, the environment says
    whether the pause comes to its end or is interrupted. *)
Definition sleep (interval : float) (pause : answer unit) : answer unit :=
  match sleep_error interval with
  | Some e => Throws e
  | None => pause
  end.

(** [for i in range(count)], from turn [i] on, with the turns that are
    left; [None] is the normal end of the loop. *)
Fixpoint ping_loop (i : nat) (interval : float) (rounds : list round)
         (self : TCPClient.client)
  : option ending * TCPClient.client * list run_effect :=
  match rounds with
  | [] => (None, self, [])
  | Interrupted :: _ => (Some (Raises KeyboardInterrupt), self, [])
  | Exchange env pause :: rest =>
      match TCPClient.send_ping env self with
      | (Ok latency, self1, out1) =>
          match print_latency (i + 1) latency with
          | Gives l =>
              match rest with
              | [] => (None, self1, map Client out1 ++ [Say l])
              | _ :: _ =>
                  match sleep interval pause with
                  | Gives _ =>
                      match ping_loop (i + 1) interval rest self1 with
                      | (e, self2, out2) =>
                          (e, self2,
                           map Client out1 ++ [Say l; Sleep interval] ++ out2)
                      end
                  | Throws e =>
                      (Some (Raises e), self1, map Client out1 ++ [Say l])
                  end
              end
          | Throws e => (Some (Raises e), self1, map Client out1)
          end
      | (Raise e, self1, out1) => (Some (Raises e), self1, map Client out1)
      | (Pending, self1, out1) => (Some Blocked, self1, map Client out1)
      end
  end.

(** The five values of the statistics that are printed with [.2f], each
    with its line. *)
Definition summary_lines (s : TCPClient.summary) : list (json * report_line) :=
  [(TCPClient.min s, summary_min (TCPClient.min s));
   (TCPClient.max s, summary_max (TCPClient.max s));
   (TCPClient.avg s, summary_avg (TCPClient.avg s));
   (TCPClient.median s, summary_median (TCPClient.median s));
   (TCPClient.std s, summary_std (TCPClient.std s))].

(** The lines are printed one after the other, up to the first value whose
    format raises. *)
Fixpoint print_formatted (lines : list (json * report_line))
  : list report_line * option exn :=
  match lines with
  | [] => ([], None)
  | (v, l) :: rest =>
      match formats v with
      | Some e => ([], Some e)
      | None =>
          let (printed, raised) := print_formatted rest in
          (l :: printed, raised)
      end
  end.

Definition print_summary (s : TCPClient.summary)
  : list report_line * option exn :=
  let (printed, raised) := print_formatted (summary_lines s) in
  (summary_header :: summary_count (TCPClient.count s) :: printed, raised).

(** The body of the [try] of [run_client]. *)
Definition measure {lib : library} (interval : float) (rounds : list round)
           (self : TCPClient.client)
  : ending * TCPClient.client * list run_effect :=
  match ping_loop 0 interval rounds self with
  | (None, self1, out1) =>
      match TCPClient.get_stats self1 with
      | (Ok (Some s), self2, out2) =>
          let (printed, raised) := print_summary s in
          (match raised with
           | Some e => Raises e
           | None => Returns
           end,
           self2,
           out1 ++ [Say separator] ++ map Client out2 ++ map Say printed)
      | (Ok None, self2, out2) =>
          (Returns, self2, out1 ++ [Say separator] ++ map Client out2)
      | (Raise e, self2, out2) =>
          (Raises e, self2, out1 ++ [Say separator] ++ map Client out2)
      | (Pending, self2, out2) =>
          (Blocked, self2, out1 ++ [Say separator] ++ map Client out2)
      end
  | (Some e, self1, out1) => (e, self1, out1)
  end.

(** [run_client]; [count] is the number of turns that the environment
    describes. *)
Definition run_client {lib : library} (host : string) (port : N)
           (created connecting : io unit)
           (rounds : list round) (interval : float)
  : ending * TCPClient.client * list run_effect :=
  match TCPClient.connect created connecting (TCPClient.init host port) with
  | (Ok true, client, out0) =>
      match measure interval rounds client with
      | (Blocked, client1, out1) =>
          (Blocked, client1,
           map Client out0
             ++ [Say (test_started host port);
                 Say (test_parameters (length rounds) interval);
                 Say separator]
             ++ out1)
      | (ended, client1, out1) =>
          let caught :=
            match ended with
            | Raises KeyboardInterrupt => (Returns, [Say test_interrupted])
            | _ => (ended, [])
            end in
          match TCPClient.close client1 with
          | (_, client2, out2) =>
              (fst caught, client2,
               map Client out0
                 ++ [Say (test_started host port);
                     Say (test_parameters (length rounds) interval);
                     Say separator]
                 ++ out1 ++ snd caught ++ map Client out2)
          end
      end
  | (Ok false, client, out0) => (Returns, client, map Client out0)
  | (Raise e, client, out0) => (Raises e, client, map Client out0)
  | (Pending, client, out0) => (Blocked, client, map Client out0)
  end.

(** ** [monte_carlo_simulator_catching.py]: the search for the best point *)

Module monte_carlo.

(** [class AnchorPoint]. *)
Record AnchorPoint : Type := mkAnchor {
  x : float;
  y : float;
  signal : float
}.

(** The best point so far in [monte_carlo_search]: [best_x], [best_y] and
    [best_k], which are [None] together, and [best_error]. *)
Record best : Type := mkBest {
  best_point : option (float * float * float);
  best_error : float
}.

Section Search.

(** What [compute_best_scale_and_error] comes to for a candidate point: the
    scale and the error, or the exception that leaves it ([** 2] raises
    [OverflowError] when its result leaves the float range).  Its value
    rests on [math.hypot] and on the builtin [sum], whose rounding differs
    between versions of Python; the loop below uses nothing of it but the
    pair returned, so it is a parameter here.  The error is a float (for an
    empty list of anchors it is the int [0], which compares as [0.0]). *)
Variable compute_best_scale_and_error :
  float -> float -> list AnchorPoint -> answer (float * float).

(** One turn of the loop of [monte_carlo_search], for the point [(x, y)]
    that the random generator has drawn. *)
Definition try_point (anchors : list AnchorPoint) (b : best)
           (xy : float * float) : answer best :=
  match compute_best_scale_and_error (fst xy) (snd xy) anchors with
  | Gives (k, err) =>
      Gives (if (err <? best_error b)%float
             then mkBest (Some (fst xy, snd xy, k)) err
             else b)
  | Throws e => Throws e
  end.

(** [for _ in range(num_samples)], on the points that are left to draw. *)
Fixpoint search_loop (anchors : list AnchorPoint)
         (drawn : list (float * float)) (b : best) : answer best :=
  match drawn with
  | [] => Gives b
  | xy :: rest =>
      match try_point anchors b xy with
      | Gives b' => search_loop anchors rest b'
      | Throws e => Throws e
      end
  end.

(** [monte_carlo_search], on the points that the random generator draws,
    one for each of the [num_samples] turns.  The final [assert] is
    executed, as it is unless Python runs with [-O]. *)
Definition monte_carlo_search (anchors : list AnchorPoint)
           (drawn : list (float * float))
  : answer (float * float * float * float) :=
  match search_loop anchors drawn (mkBest None Inf) with
  | Gives b =>
      match best_point b with
      | Some (best_x, best_y, best_k) =>
          Gives (best_x, best_y, best_k, best_error b)
      | None => Throws AssertionError
      end
  | Throws e => Throws e
  end.

End Search.

End monte_carlo.

(** ** [simple_tcp_client.py]: one connection for each ping *)

Module simple_tcp_client.

(** The outcome of a call on a socket with a timeout: it returns, or raises
    [socket.timeout], another [Exception], or [KeyboardInterrupt]. *)
Inductive attempt (A : Type) : Type :=
| Got (a : A)
| TimedOut
| Errored
| Interrupt.
Arguments Got {A} a.
Arguments TimedOut {A}.
Arguments Errored {A}.
Arguments Interrupt {A}.

(** What the environment does in one turn of the loop. *)
Record turn_env : Type := mkTurn {
  created : io unit;             (* socket.socket(...) *)
  time_start : float;            (* time.time(), start_time *)
  connected : attempt unit;      (* sock.connect *)
  time_request : float;          (* time.time(), the timestamp sent *)
  sent : attempt unit;           (* sock.send *)
  received : attempt payload;    (* sock.recv(1024) *)
  time_end : float               (* time.time(), end_time *)
}.

(** The lines printed. *)
Inductive line : Type :=
| test_started (host : string) (port : N) (count : nat)
| separator
| test_result (number : nat) (latency : json)
| no_response (number : nat)
| timed_out (number : nat)
| test_error (number : nat)
| results_header
| success_count (n : nat)
| minimum (v : json)
| maximum (v : json)
| average (v : float)
| all_failed
| interrupted.

Inductive effect : Type :=
| Open                     (* a socket is created *)
| Close                    (* sock.close() *)
| Send (request : json)
| Say (l : line)
| Sleep.                   (* time.sleep(0.5) *)

(** How the inner [try] ends. *)
Inductive inner : Type :=
| Goes_on                  (* the turn is over *)
| Interrupted_.            (* KeyboardInterrupt passes the inner handlers *)

(** The step of the inner [try] that comes after a call on the socket. *)
Definition after {A : Type} (number : nat) (call : attempt A)
           (latencies : list json)
           (next : A -> inner * list json * list effect)
  : inner * list json * list effect :=
  match call with
  | Got a => next a
  | TimedOut => (Goes_on, latencies, [Say (timed_out number)])
  | Errored => (Goes_on, latencies, [Say (test_error number)])
  | Interrupt => (Interrupted_, latencies, [])
  end.

(** What is done with the bytes received.  The latency is appended before
    it is printed; a latency whose format raises is printed as an error and
    stays in the list. *)
Definition record_response (number : nat) (env : turn_env)
           (latencies : list json) (response : payload)
  : inner * list json * list effect :=
  match response with
  | Empty => (Goes_on, latencies, [Say (no_response number)])
  | InvalidUtf8 | InvalidJson | TooDeep =>
      (Goes_on, latencies, [Say (test_error number)])
  | Text (JObj d) =>
      let latency :=
        dict_get d "latency"
                 (JNum ((time_end env - time_start env) * F 1000)%float) in
      let latencies := latencies ++ [latency] in
      match formats latency with
      | None => (Goes_on, latencies, [Say (test_result number latency)])
      | Some _ => (Goes_on, latencies, [Say (test_error number)])
      end
  | Text _ => (Goes_on, latencies, [Say (test_error number)])
  end.

(** The inner [try] of turn [i], without its [finally]. *)
Definition exchange (i : nat) (env : turn_env) (latencies : list json)
  : inner * list json * list effect :=
  let number := (i + 1)%nat in
  after number (connected env) latencies (fun _ =>
    let request :=
      JObj [("type"%string, JStr "ping");
            ("timestamp"%string, JNum (time_request env))] in
    after number (sent env) latencies (fun _ =>
      match after number (received env) latencies
                  (record_response number env latencies) with
      | (end_, latencies, out) => (end_, latencies, Send request :: out)
      end)).

(** How the function ends: it returns, or an exception leaves it. *)
Inductive ending : Type :=
| Returns
| Raises.

(** An int as the float operation sees it before rounding: a mantissa with
    exponent 0. *)
Definition exact (z : Z) : float :=
  match z with
  | Z0 => S754_zero false
  | Zpos p => S754_finite false p 0
  | Zneg p => S754_finite true p 0
  end.

(** [a + b] as the builtin [sum] computes it up to Python 3.11: ints add
    exactly, and an int that meets a float is converted.  (From 3.12 on
    [sum] compensates the rounding of float additions, which can change the
    last bits of the average, not whether it raises.) *)
Definition add (a b : number) : answer number :=
  match a, b with
  | Int x, Int y => Gives (Int (x + y))
  | _, _ =>
      match to_float a, to_float b with
      | Some x, Some y => Gives (Float (x + y)%float)
      | _, _ => Throws OverflowError
      end
  end.

(** [sum(latencies)]: from the int 0, left to right. *)
Fixpoint sum_from (total : number) (values : list json) : answer number :=
  match values with
  | [] => Gives total
  | v :: rest =>
      match as_number v with
      | Some n =>
          match add total n with
          | Gives total' => sum_from total' rest
          | Throws e => Throws e
          end
      | None => Throws TypeError
      end
  end.

(** [total / len(latencies)]: the true division of two ints is rounded
    once, and raises [OverflowError] when the quotient leaves the float
    range. *)
Definition divide (total : number) (n : nat) : answer float :=
  match total with
  | Float f => Gives (f / F (Z.of_nat n))%float
  | Int z =>
      match (exact z / exact (Z.of_nat n))%float with
      | S754_infinity _ => Throws OverflowError
      | q => Gives q
      end
  end.

(** [sum(latencies) / len(latencies)]. *)
Definition mean_of (latencies : list json) : answer float :=
  match sum_from (Int 0) latencies with
  | Gives total => divide total (length latencies)
  | Throws e => Throws e
  end.

(** The statistics printed after the loop.  Each line is printed when its
    value has been computed and formatted; the first exception ends the
    function.  On a list that holds a value that is not a number, [min]
    raises [TypeError] or returns such a value, whose format raises: in
    both cases at the first of the three lines. *)
Definition report (latencies : list json) : ending * list effect :=
  match latencies with
  | [] => (Returns, [Say all_failed])
  | first :: rest =>
      let said := [Say results_header; Say (success_count (length latencies))]
      in
      if all_numbers latencies then
        let least := TCPClient.min_of first rest in
        match formats least with
        | Some _ => (Raises, said)
        | None =>
            let greatest := TCPClient.max_of first rest in
            match formats greatest with
            | Some _ => (Raises, said ++ [Say (minimum least)])
            | None =>
                match mean_of latencies with
                | Gives a =>
                    (Returns,
                     said ++ [Say (minimum least); Say (maximum greatest);
                              Say (average a)])
                | Throws _ =>
                    (Raises,
                     said ++ [Say (minimum least); Say (maximum greatest)])
                end
            end
        end
      else (Raises, said)
  end.

(** [for i in range(count)], from turn [i] on, and what follows the loop
    inside the outer [try]. *)
Fixpoint turns (i : nat) (envs : list turn_env) (latencies : list json)
  : ending * list json * list effect :=
  match envs with
  | [] =>
      let (ended, out) := report latencies in
      (ended, latencies, Say separator :: out)
  | env :: rest =>
      match created env with
      | Failed => (Raises, latencies, [])
      | Done _ =>
          match exchange i env latencies with
          | (Interrupted_, latencies, out) =>
              (Returns, latencies, Open :: out ++ [Close; Say interrupted])
          | (Goes_on, latencies, out) =>
              let pause :=
                match rest with
                | [] => []
                | _ :: _ => [Sleep]
                end in
              match turns (i + 1) rest latencies with
              | (ended, latencies, out') =>
                  (ended, latencies, Open :: out ++ [Close] ++ pause ++ out')
              end
          end
      end
  end.

(** [test_tcp_latency]; [count] is the number of turns that the
    environment describes. *)
Definition test_tcp_latency (host : string) (port : N)
           (envs : list turn_env) : ending * list json * list effect :=
  match turns 0 envs [] with
  | (ended, latencies, out) =>
      (ended, latencies,
       Say (test_started host port (length envs)) :: Say separator :: out)
  end.

(** The number of sockets created, of sockets closed, and of results
    printed in an output. *)
Definition opened (out : list effect) : nat :=
  length (filter (fun eff => match eff with Open => true | _ => false end)
                 out).
Definition closed (out : list effect) : nat :=
  length (filter (fun eff => match eff with Close => true | _ => false end)
                 out).
Definition printed_results (out : list effect) : nat :=
  length (filter (fun eff =>
                    match eff with
                    | Say (test_result _ _) => true
                    | _ => false
                    end)
                 out).

(** What can be in the output of the inner [try]. *)
Definition in_a_turn (eff : effect) : Prop :=
  match eff with
  | Send _
  | Say (test_result _ _)
  | Say (no_response _)
  | Say (timed_out _)
  | Say (test_error _) => True
  | _ => False
  end.

(** The pauses in an output. *)
Definition sleeps (out : list effect) : nat :=
  length (filter (fun eff => match eff with Sleep => true | _ => false end)
                 out).

(** A turn in which the socket can be created and no [KeyboardInterrupt]
    arrives. *)
Definition calm (env : turn_env) : bool :=
  match created env with
  | Done _ =>
      match connected env with
      | Interrupt => false
      | Got _ =>
          match sent env with
          | Interrupt => false
          | Got _ =>
              match received env with
              | Interrupt => false
              | _ => true
              end
          | _ => true
          end
      | _ => true
      end
  | Failed => false
  end.

(** Is the value a float? *)
Definition is_float (v : json) : bool :=
  match v with
  | JNum _ => true
  | _ => false
  end.

End simple_tcp_client.

(** ** The order of the floats

    The comparison of two floats that are not NaN is the lexicographic
    comparison of their ranks: sign and class first, then exponent, then
    mantissa. *)

Definition rank (x : float) : Z * Z * Z :=
  match x with
  | S754_infinity true => (-2, 0, 0)
  | S754_finite true m e => (-1, - e, Zneg m)
  | S754_zero _ => (0, 0, 0)
  | S754_nan => (0, 0, 0)
  | S754_finite false m e => (1, e, Zpos m)
  | S754_infinity false => (2, 0, 0)
  end%Z.

Definition lex (a b : Z * Z * Z) : comparison :=
  let '(a1, a2, a3) := a in
  let '(b1, b2, b3) := b in
  match (a1 ?= b1)%Z with
  | Eq => match (a2 ?= b2)%Z with
          | Eq => (a3 ?= b3)%Z
          | c => c
          end
  | c => c
  end.

Definition lex_le (a b : Z * Z * Z) : Prop :=
  let '(a1, a2, a3) := a in
  let '(b1, b2, b3) := b in
  (a1 < b1 \/ (a1 = b1 /\ (a2 < b2 \/ (a2 = b2 /\ a3 <= b3))))%Z.

(** ** Notions used in the statements *)

Import TCPServer.

(** A library for the examples: it answers every call on data of more
    than one element with the same three values. *)
Definition answering (avg med std : json) : library.
Proof.
  refine (mkLibrary (fun _ => Gives avg) (fun _ => Gives med)
                    (fun _ => Gives std) _).
  intros data e [H|[H|H]]; discriminate H.
Defined.

(** A library for the examples in which [statistics] is not called on more
    than one sample. *)
Definition unasked : library.
Proof.
  refine (mkLibrary (fun _ => Throws ValueError) (fun _ => Throws ValueError)
                    (fun _ => Throws ValueError) _).
  intros data e [H|[H|H]]; injection H as <-; reflexivity.
Defined.

(** A library whose [stdev] raises [OverflowError], as Python's does on
    floats whose variance leaves the float range. *)
Definition overflowing (avg med : json) : library.
Proof.
  refine (mkLibrary (fun _ => Gives avg) (fun _ => Gives med)
                    (fun _ => Throws OverflowError) _).
  intros data e [H|[H|H]]; try discriminate H.
  injection H as <-. reflexivity.
Defined.

(** The outcome, the object afterwards and the output of a method call. *)
Definition outcome {Self Effect A} (res : result A * Self * list Effect)
  : result A := fst (fst res).
Definition object_after {Self Effect A} (res : result A * Self * list Effect)
  : Self := snd (fst res).
Definition output {Self Effect A} (res : result A * Self * list Effect)
  : list Effect := snd res.

(** [min_latency <= sample <= max_latency] for a sample. *)
Definition between (s : Stats) (sample : float) : Prop :=
  (min_latency s <=? sample)%float = true
  /\ (sample <=? max_latency s)%float = true.

(** The bounds that [min_latency] and [max_latency] give on the samples:
    neither is NaN, and every sample that is not NaN lies between them. *)
Definition bounded (s : Stats) : Prop :=
  is_nan (min_latency s) = false
  /\ is_nan (max_latency s) = false
  /\ Forall (fun sample => is_nan sample = false -> between s sample)
            (latencies s).

(** [n] steps of one thread, the others standing still. *)
Fixpoint steps (n : nat) (s : Stats) (t : thread) : Stats * thread :=
  match n with
  | O => (s, t)
  | S m => let (s', t') := step s t in steps m s' t'
  end.

(** A thread that has returned from [update_stats x]. *)
Definition returned (x : float) : thread := mkThread x Returned.

(** The object after a ping whose latency is [latency]. *)
Definition recorded (self : server) (latency : float) : server :=
  set_stats (update_stats (stats self) latency) self.

(** The turn [e] with the request [v] in place of the one received. *)
Definition with_request (e : exchange) (v : json) : exchange :=
  mkExchange (Done (Text v)) (time_default e) (time_current e)
             (server_time e) (sent e).

(** The report of a server that has recorded nothing. *)
Definition empty_report : Report :=
  {| copied := initial_stats;
     avg_latency := JInt 0;
     median_latency := JInt 0;
     std_latency := JInt 0 |}.

(** The object after [stop]. *)
Definition stopped (self : server) : server := snd (fst (stop self)).

(** The object that [start] leaves when [bind] has failed: the socket was
    created, never bound, and [stop] has closed it. *)
Definition after_bind_failure (self : server) : server :=
  mkServer (host self) (port self) (Some (mkSocket false false true)) false
           (stats self).

(** The request that [send_ping] builds. *)
Definition ping_request (env : TCPClient.ping_env) : json :=
  JObj [("type"%string, JStr "ping");
        ("timestamp"%string, JNum (TCPClient.time_request env))].

(** The round trip that [send_ping] measures itself: from [start_time],
    which is read after the timestamp of the request. *)
Definition round_trip (env : TCPClient.ping_env) : json :=
  JNum ((TCPClient.time_end env - TCPClient.time_start env) * F 1000)%float.

(** The client [self] with [added] appended to its samples. *)
Definition with_samples (self : TCPClient.client) (added : list json)
  : TCPClient.client :=
  TCPClient.mkClient (TCPClient.host self) (TCPClient.port self)
                     (TCPClient.client_socket self)
                     (TCPClient.latencies self ++ added).

(** Unfolding of the methods down to functions on the object. *)
Ltac run_method :=
  unfold turn, process, get, loads, minus, call, lift, stop,
    try_except, try_finally, bind, ret, raise, pending, read, modify, emit.

(** The four paths through the two tests of [update_stats]. *)
Ltac by_cases_of_update :=
  unfold update_stats, set_total_requests, set_total_latency, append_latency,
    set_min_latency, set_max_latency;
  cbn [total_requests total_latency min_latency max_latency latencies];
  match goal with
  | |- context [fltb ?x (min_latency ?s)] =>
      destruct (fltb x (min_latency s));
      cbn [total_requests total_latency min_latency max_latency latencies]
  end;
  match goal with
  | |- context [fltb (max_latency ?s) ?x] =>
      destruct (fltb (max_latency s) x); reflexivity
  end.

Ltac run_client_method :=
  unfold TCPClient.send_ping, TCPClient.get_stats, get, loads, call, lift,
    try_except, bind, ret, raise, pending, read, modify, emit.

(** ** Notions used in the further properties *)

(** Has the thread executed its [append]? *)
Definition appended (t : thread) : bool :=
  match at_pc t with
  | ReadRequests | WriteRequests _ | ReadLatency | WriteLatency _ | Append =>
      false
  | CompareMin | WriteMin | CompareMax | WriteMax | Returned => true
  end.

(** Has the thread written [total_requests]? *)
Definition counted (t : thread) : bool :=
  match at_pc t with
  | ReadRequests | WriteRequests _ => false
  | _ => true
  end.

(** Has the thread returned from [update_stats]? *)
Definition has_returned (t : thread) : bool :=
  match at_pc t with
  | Returned => true
  | _ => false
  end.

(** The samples of the threads that have executed their [append]. *)
Definition samples_appended (ts : list thread) : list float :=
  map latency (filter appended ts).

(** The number of threads that have written [total_requests]. *)
Definition writers (ts : list thread) : nat := length (filter counted ts).

(** A thread that has read [total_requests] and not yet written it has seen
    at most [n]. *)
Definition has_seen_at_most (n : nat) (t : thread) : Prop :=
  forall seen, at_pc t = WriteRequests seen -> (seen <= n)%nat.

(** What every schedule keeps of the counter. *)
Definition counter_bounded (sys : system) : Prop :=
  (total_requests (shared sys) <= writers (threads sys))%nat
  /\ ((0 < writers (threads sys))%nat ->
      (1 <= total_requests (shared sys))%nat)
  /\ Forall (has_seen_at_most (writers (threads sys))) (threads sys).

(** Where [min_latency] and [max_latency] come from: each is a sample or
    the value it started with, and [max_latency] has not gone down. *)
Definition extremes_from (first : Stats) (s : Stats) (L : list float)
  : Prop :=
  (max_latency s = max_latency first \/ In (max_latency s) L)
  /\ (max_latency first <=? max_latency s)%float = true
  /\ (min_latency s = min_latency first \/ In (min_latency s) L).

(** What every schedule keeps of the samples. *)
Definition samples_kept (L : list float) (sys : system) : Prop :=
  map latency (threads sys) = L
  /\ Permutation (latencies (shared sys)) (samples_appended (threads sys)).

(** What the loop of a handler prints and sends: it neither closes the
    connection nor starts a thread. *)
Definition in_the_loop (eff : effect) : Prop :=
  match eff with
  | Log _ | Send _ _ => True
  | CloseClient _ | Spawn _ => False
  end.

(** How a method that does not let [KeyboardInterrupt] arise can end. *)
Definition no_interrupt {A} (r : result A) : Prop :=
  match r with
  | Ok _ | Pending => True
  | Raise e => is_Exception e = true
  end.

(** The objects that differ at most in [running], in the state of the
    listening socket and in the samples recorded. *)
Definition same_stats_but (added : list float) (before after : server)
  : Prop :=
  stats after = record_all (stats before) added
  /\ host after = host before
  /\ port after = port before.

(** Is the value a dict? *)
Definition is_dict (v : json) : bool :=
  match v with
  | JObj _ => true
  | _ => false
  end.

(** The exchange [e] is a ping that is answered, and [x] is its latency. *)
Definition answers_ping (e : exchange) (x : float) : Prop :=
  exists d n t,
    received e = Done (Text (JObj d))
    /\ is_str (dict_get d "type" (JStr "ping")) "ping" = true
    /\ as_number (dict_get d "timestamp" (JNum (time_default e))) = Some n
    /\ to_float n = Some t
    /\ sent e = Done tt
    /\ x = ((time_current e - t) * F 1000)%float.

(** What the handler sends and prints for the pings [pings] of latencies
    [xs]. *)
Definition replies (c : nat) (pings : list exchange) (xs : list float)
  : list effect :=
  flat_map (fun p =>
              [Send c (Pong (time_current (fst p)) (snd p)
                            (server_time (fst p)));
               Log (request_done (snd p))])
           (combine pings xs).

(** A turn of the accept loop during which nobody stops the server and no
    [KeyboardInterrupt] arrives. *)
Definition undisturbed (ev : accept_event) : bool :=
  negb (stop_called ev)
  && match accepted ev with
     | Interrupt => false
     | _ => true
     end.

(** What the accept loop does in an undisturbed turn. *)
Definition served (ev : accept_event) : list effect :=
  match accepted ev with
  | Connection c => [Log (client_connected c); Spawn c]
  | AcceptFails => [Log (accept_error socket_error)]
  | Interrupt => []
  end.

(** The listening socket is absent or closed. *)
Definition not_listening (self : server) : Prop :=
  match server_socket self with
  | Some sock => closed sock = true
  | None => True
  end.

(** The pauses in an output. *)
Definition pauses (out : list run_effect) : nat :=
  length (filter (fun eff => match eff with Sleep _ => true | _ => false end)
                 out).

(** The test results in an output, each with its number. *)
Fixpoint results (out : list run_effect) : list (nat * json) :=
  match out with
  | [] => []
  | Say (test_result number latency) :: rest =>
      (number, latency) :: results rest
  | _ :: rest => results rest
  end.

(** The requests in an output. *)
Definition requests (out : list run_effect) : nat :=
  length (filter (fun eff =>
                    match eff with
                    | Client (TCPClient.Send _) => true
                    | _ => false
                    end)
                 out).

(** The number of times that [close] has run in an output. *)
Definition closes (out : list run_effect) : nat :=
  length (filter (fun eff =>
                    match eff with
                    | Client (TCPClient.Log TCPClient.connection_closed) =>
                        true
                    | _ => false
                    end)
                 out).

(** A turn in which the peer stays silent: [recv] does not return. *)
Definition silent (r : round) : bool :=
  match r with
  | Exchange env _ =>
      match TCPClient.received env with
      | None => true
      | Some _ => false
      end
  | Interrupted => false
  end.


(** How a run ended, the client it leaves and what it did. *)
Definition ending_of (res : ending * TCPClient.client * list run_effect)
  : ending := fst (fst res).
Definition client_after (res : ending * TCPClient.client * list run_effect)
  : TCPClient.client := snd (fst res).
Definition said (res : ending * TCPClient.client * list run_effect)
  : list run_effect := snd res.


(** What the loop of [monte_carlo_search] keeps, for a function [compute]
    in the place of [compute_best_scale_and_error]: after the points
    [seen], [best_error] is not NaN and no point seen has an error below
    it; the best point, if there is one, is a point seen, with the scale
    and the error that [compute] gives for it, and that error is below
    [inf]; if there is none, [best_error] is still [inf]. *)
Definition best_of
           (compute : float -> float -> list monte_carlo.AnchorPoint
                      -> answer (float * float))
           (anchors : list monte_carlo.AnchorPoint)
           (seen : list (float * float)) (b : monte_carlo.best) : Prop :=
  is_nan (monte_carlo.best_error b) = false
  /\ Forall (fun xy =>
               forall k err,
                 compute (fst xy) (snd xy) anchors = Gives (k, err) ->
                 (err <? monte_carlo.best_error b)%float = false)
            seen
  /\ match monte_carlo.best_point b with
     | Some (px, py, k) =>
         In (px, py) seen
         /\ compute px py anchors = Gives (k, monte_carlo.best_error b)
         /\ (monte_carlo.best_error b <? Inf)%float = true
     | None => monte_carlo.best_error b = Inf
     end.
(** * Properties *)

(** ** The order of the floats *)

Lemma SFcompare_rank (x y : float) :
  is_nan x = false -> is_nan y = false ->
  SFcompare x y = Some (lex (rank x) (rank y)).
Proof.
  destruct x as [[]|[]| |[] mx ex], y as [[]|[]| |[] my ey];
    try discriminate; intros _ _; try reflexivity; cbn [SFcompare rank lex].
  cbn [Z.compare]. rewrite Z.compare_opp, (Z.compare_antisym ey ex).
  destruct (ey ?= ex)%Z; reflexivity.
Qed.

Lemma lex_spec (a b : Z * Z * Z) :
  match lex a b with
  | Lt => lex_le a b /\ ~ lex_le b a
  | Eq => lex_le a b /\ lex_le b a
  | Gt => lex_le b a /\ ~ lex_le a b
  end.
Proof.
  destruct a as [[a1 a2] a3], b as [[b1 b2] b3]. unfold lex, lex_le.
  destruct (Z.compare_spec a1 b1); [|lia|lia].
  destruct (Z.compare_spec a2 b2); [|lia|lia].
  destruct (Z.compare_spec a3 b3); lia.
Qed.

Lemma fleb_rank (x y : float) :
  is_nan x = false -> is_nan y = false ->
  ((x <=? y)%float = true <-> lex_le (rank x) (rank y)).
Proof.
  intros Hx Hy. unfold fleb, SFleb. rewrite (SFcompare_rank x y Hx Hy).
  pose proof (lex_spec (rank x) (rank y)) as H.
  destruct (lex (rank x) (rank y)); intuition discriminate.
Qed.

Lemma fltb_rank (x y : float) :
  is_nan x = false -> is_nan y = false ->
  ((x <? y)%float = false <-> lex_le (rank y) (rank x)).
Proof.
  intros Hx Hy. unfold fltb, SFltb. rewrite (SFcompare_rank x y Hx Hy).
  pose proof (lex_spec (rank x) (rank y)) as H.
  destruct (lex (rank x) (rank y)); intuition discriminate.
Qed.

(** A comparison that holds has no NaN on either side. *)
Lemma fltb_not_nan (x y : float) :
  (x <? y)%float = true -> is_nan x = false /\ is_nan y = false.
Proof. destruct x as [| | |], y as [| | |]; cbn; intuition discriminate. Qed.

Lemma fleb_not_nan (x y : float) :
  (x <=? y)%float = true -> is_nan x = false /\ is_nan y = false.
Proof. destruct x as [| | |], y as [| | |]; cbn; intuition discriminate. Qed.

Lemma fleb_refl (x : float) : is_nan x = false -> (x <=? x)%float = true.
Proof.
  intro H. apply fleb_rank; [exact H|exact H|].
  destruct (rank x) as [[a b] c]. unfold lex_le. lia.
Qed.

Lemma fleb_trans (x y z : float) :
  (x <=? y)%float = true -> (y <=? z)%float = true -> (x <=? z)%float = true.
Proof.
  intros Hxy Hyz.
  destruct (fleb_not_nan _ _ Hxy) as [Hx Hy].
  destruct (fleb_not_nan _ _ Hyz) as [_ Hz].
  apply fleb_rank in Hxy; [|assumption|assumption].
  apply fleb_rank in Hyz; [|assumption|assumption].
  apply fleb_rank; [assumption|assumption|].
  destruct (rank x) as [[a1 a2] a3], (rank y) as [[b1 b2] b3],
    (rank z) as [[c1 c2] c3]. unfold lex_le in *. lia.
Qed.

(** [not (x < y)] is [y <= x] when neither is NaN. *)
Lemma fltb_false (x y : float) :
  is_nan x = false -> is_nan y = false ->
  (x <? y)%float = false -> (y <=? x)%float = true.
Proof.
  intros Hx Hy H. apply fleb_rank; [assumption|assumption|].
  now apply fltb_rank.
Qed.

Lemma fltb_true (x y : float) :
  (x <? y)%float = true -> (x <=? y)%float = true.
Proof.
  unfold fltb, fleb, SFltb, SFleb. now destruct (SFcompare x y) as [[]|].
Qed.

Lemma fleb_fltb (x y : float) :
  (x <=? y)%float = true -> (y <? x)%float = false.
Proof.
  intro H. destruct (fleb_not_nan _ _ H) as [Hx Hy].
  apply fltb_rank; [assumption|assumption|]. now apply fleb_rank.
Qed.

(** Nothing but [inf] is above [inf]. *)
Lemma above_Inf (x : float) : (Inf <=? x)%float = true -> x = Inf.
Proof. destruct x as [[]|[]| |[] m e]; cbn; try discriminate; reflexivity. Qed.

(** NaN is contagious in a sum. *)
Lemma fadd_NaN_l (x : float) : (NaN + x)%float = NaN.
Proof. reflexivity. Qed.

Lemma fadd_NaN_r (x : float) : (x + NaN)%float = NaN.
Proof. now destruct x. Qed.

(** ** [update_stats] on its own *)

Section UpdateStats.

Variables (s : Stats) (x : float).

Lemma update_total_requests :
  total_requests (update_stats s x) = (total_requests s + 1)%nat.
Proof. by_cases_of_update. Qed.

Lemma update_total_latency :
  total_latency (update_stats s x) = (total_latency s + x)%float.
Proof. by_cases_of_update. Qed.

Lemma update_latencies :
  latencies (update_stats s x) = latencies s ++ [x].
Proof. by_cases_of_update. Qed.

Lemma update_min_latency :
  min_latency (update_stats s x)
  = if (x <? min_latency s)%float then x else min_latency s.
Proof. by_cases_of_update. Qed.

Lemma update_max_latency :
  max_latency (update_stats s x)
  = if (max_latency s <? x)%float then x else max_latency s.
Proof. by_cases_of_update. Qed.

End UpdateStats.

(** The new minimum is below the old one and below the new sample. *)
Lemma update_min_below (s : Stats) (x y : float) :
  is_nan (min_latency s) = false ->
  ((min_latency s <=? y)%float = true \/ (y = x /\ is_nan x = false)) ->
  (min_latency (update_stats s x) <=? y)%float = true.
Proof.
  intro Hmin. rewrite update_min_latency.
  destruct (x <? min_latency s)%float eqn:E.
  - intros [H|[-> Hx]].
    + apply fleb_trans with (min_latency s); [now apply fltb_true|exact H].
    + now apply fleb_refl.
  - intros [H|[-> Hx]]; [exact H|]. now apply fltb_false.
Qed.

(** The new maximum is above the old one and above the new sample. *)
Lemma update_max_above (s : Stats) (x y : float) :
  is_nan (max_latency s) = false ->
  ((y <=? max_latency s)%float = true \/ (y = x /\ is_nan x = false)) ->
  (y <=? max_latency (update_stats s x))%float = true.
Proof.
  intro Hmax. rewrite update_max_latency.
  destruct (max_latency s <? x)%float eqn:E.
  - intros [H|[-> Hx]].
    + apply fleb_trans with (max_latency s); [exact H|now apply fltb_true].
    + now apply fleb_refl.
  - intros [H|[-> Hx]]; [exact H|]. now apply fltb_false.
Qed.

(** Neither extreme ever becomes NaN. *)
Lemma update_extremes_not_nan (s : Stats) (x : float) :
  is_nan (min_latency s) = false -> is_nan (max_latency s) = false ->
  is_nan (min_latency (update_stats s x)) = false
  /\ is_nan (max_latency (update_stats s x)) = false.
Proof.
  intros Hmin Hmax. rewrite update_min_latency, update_max_latency. split.
  - destruct (x <? min_latency s)%float eqn:E; [|exact Hmin].
    now destruct (fltb_not_nan _ _ E).
  - destruct (max_latency s <? x)%float eqn:E; [|exact Hmax].
    now destruct (fltb_not_nan _ _ E).
Qed.

Lemma update_bounded (s : Stats) (x : float) :
  bounded s -> bounded (update_stats s x).
Proof.
  unfold bounded, between. intros (Hmin & Hmax & B).
  destruct (update_extremes_not_nan s x Hmin Hmax) as [Hmin' Hmax'].
  split; [exact Hmin'|]. split; [exact Hmax'|].
  rewrite update_latencies. apply Forall_app. split.
  - eapply Forall_impl; [|exact B]. cbn. intros y Hy Hnan.
    destruct (Hy Hnan) as [Hlow Hhigh]. split.
    + apply update_min_below; [exact Hmin|now left].
    + apply update_max_above; [exact Hmax|now left].
  - constructor; [|constructor]. intro Hnan. split.
    + apply update_min_below; [exact Hmin|now right].
    + apply update_max_above; [exact Hmax|now right].
Qed.

(** ** Sequences of [update_stats] calls *)

Lemma record_all_snoc (s : Stats) (L : list float) (x : float) :
  record_all s (L ++ [x]) = update_stats (record_all s L) x.
Proof. unfold record_all. now rewrite fold_left_app. Qed.

Lemma record_all_app (s : Stats) (L1 L2 : list float) :
  record_all (record_all s L1) L2 = record_all s (L1 ++ L2).
Proof. unfold record_all. now rewrite fold_left_app. Qed.

Lemma record_all_total_requests (s : Stats) (L : list float) :
  total_requests (record_all s L) = (total_requests s + length L)%nat.
Proof.
  revert s. induction L as [|x L IH]; intro s; cbn.
  - lia.
  - unfold record_all in IH. rewrite IH, update_total_requests. lia.
Qed.

Lemma record_all_latencies (s : Stats) (L : list float) :
  latencies (record_all s L) = latencies s ++ L.
Proof.
  revert s. induction L as [|x L IH]; intro s; cbn.
  - now rewrite app_nil_r.
  - unfold record_all in IH. rewrite IH, update_latencies, <- app_assoc.
    reflexivity.
Qed.

Lemma record_all_bounded (s : Stats) (L : list float) :
  bounded s -> bounded (record_all s L).
Proof.
  revert s. induction L as [|x L IH]; intros s B; cbn.
  - exact B.
  - apply IH, update_bounded, B.
Qed.

Lemma initial_stats_bounded : bounded initial_stats.
Proof. repeat split. constructor. Qed.

(** C8, as the code has it: after each call of a sequence of
    [update_stats] calls on a new [stats] dictionary, that is after every
    prefix of the sequence, [total_requests] is the length of [latencies],
    [latencies] is the sequence of the samples recorded so far, and as soon
    as [total_requests > 0] every recorded sample [sample] that is not NaN
    satisfies [min_latency <= sample <= max_latency]; negative samples and
    infinite ones included, and whatever NaN samples are recorded with
    them. *)
Theorem update_stats_invariant (L : list float) (n : nat) :
  let s := record_all initial_stats (firstn n L) in
  total_requests s = length (latencies s)
  /\ latencies s = firstn n L
  /\ ((0 < total_requests s)%nat ->
      forall sample, In sample (latencies s) ->
        is_nan sample = false ->
        (min_latency s <=? sample)%float = true
        /\ (sample <=? max_latency s)%float = true).
Proof.
  cbv zeta. split; [|split].
  - rewrite record_all_total_requests, record_all_latencies. reflexivity.
  - now rewrite record_all_latencies.
  - intros _ sample Hin Hnan.
    assert (B : bounded (record_all initial_stats (firstn n L)))
      by apply record_all_bounded, initial_stats_bounded.
    destruct B as (_ & _ & B). rewrite Forall_forall in B.
    now apply B.
Qed.

(** The invariant on a sequence with negative samples and a NaN. *)
Lemma update_stats_invariant_witness :
  let s := record_all initial_stats [F 3; F (-5); NaN; F 7; F (-2)] in
  total_requests s = 5%nat
  /\ min_latency s = F (-5)
  /\ max_latency s = F 7
  /\ ((min_latency s <=? F (-2))%float = true
      /\ (F (-2) <=? max_latency s)%float = true).
Proof.
  pose proof (update_stats_invariant [F 3; F (-5); NaN; F 7; F (-2)] 5) as H.
  cbv zeta in H. destruct H as (_ & _ & H).
  split; [reflexivity|]. split; [reflexivity|]. split; [reflexivity|].
  apply H.
  - vm_compute. lia.
  - vm_compute. do 4 right. left. reflexivity.
  - reflexivity.
Defined.

(** C8, refuted: a sample that is NaN is counted and appended, and passes
    neither test of [update_stats]: [min_latency] stays [inf] and
    [max_latency] stays 0, and no comparison of them with the sample holds.
    Such a sample is recorded for the ping [{"timestamp": NaN}], which
    [json.loads] accepts. *)
Lemma nan_sample_is_outside_the_bounds :
  let s := record_all initial_stats [NaN] in
  let ping := mkExchange (Done (Text (JObj [("timestamp"%string, JNum NaN)])))
                         (F 10) (F 10) "2024-01-01T00:00:10" (Done tt) in
  total_requests s = 1%nat
  /\ latencies s = [NaN]
  /\ min_latency s = Inf
  /\ max_latency s = F 0
  /\ (min_latency s <=? NaN)%float = false
  /\ (NaN <=? max_latency s)%float = false
  /\ stats (object_after
              (turn (lib := unasked) 1 ping
                    (set_running true (init "0.0.0.0" 8888%N))))
     = s.
Proof. vm_compute. repeat split. Qed.

(** ** Threads in [update_stats] *)

Lemma step_thread_at (before after : list thread) (t : thread) (s : Stats) :
  step_thread (length before) s (before ++ t :: after)
  = (fst (step s t), before ++ snd (step s t) :: after).
Proof.
  induction before as [|b before IH]; cbn.
  - now destruct (step s t).
  - now rewrite IH.
Qed.

Lemma run_one_thread {lib : library} (n : nat) :
  forall (before after : list thread) (t : thread) (s : Stats)
         (rs : list (answer Report)),
    run (mkSystem s (before ++ t :: after) rs) (repeat (Run (length before)) n)
    = mkSystem (fst (steps n s t)) (before ++ snd (steps n s t) :: after) rs.
Proof.
  induction n as [|n IH]; intros before after t s rs; cbn.
  - reflexivity.
  - rewrite step_thread_at. unfold run in IH. rewrite IH.
    now destruct (step s t).
Qed.

(** Refinement: a thread that is not interrupted does what the function
    [update_stats] does. *)
Lemma uninterrupted_call (s : Stats) (x : float) :
  steps 9 s (calling x) = (update_stats s x, returned x).
Proof.
  unfold update_stats, calling, returned, steps, step.
  cbn [at_pc latency set_total_requests set_total_latency append_latency
       set_min_latency set_max_latency total_requests total_latency
       min_latency max_latency latencies].
  destruct (x <? min_latency s)%float;
    cbn [at_pc latency set_total_requests set_total_latency append_latency
         set_min_latency set_max_latency total_requests total_latency
         min_latency max_latency latencies];
    destruct (max_latency s <? x)%float; reflexivity.
Qed.

Lemma run_app {lib : library} (sys : system) (first second : list action) :
  run sys (first ++ second) = run (run sys first) second.
Proof. unfold run. apply fold_left_app. Qed.

Lemma run_serial {lib : library} (L : list float) :
  forall (before after : list thread) (s : Stats)
         (rs : list (answer Report)),
    run (mkSystem s (before ++ map calling L ++ after) rs)
        (serial (length before) (length L))
    = mkSystem (record_all s L) (before ++ map returned L ++ after) rs.
Proof.
  induction L as [|x L IH]; intros before after s rs.
  - reflexivity.
  - cbn [map length app]. unfold serial. cbn [seq flat_map].
    rewrite run_app. unfold whole_call at 1.
    rewrite run_one_thread, uninterrupted_call. cbn [fst snd].
    replace (before ++ returned x :: map calling L ++ after)
      with ((before ++ [returned x]) ++ map calling L ++ after)
      by now rewrite <- app_assoc.
    replace (S (length before)) with (length (before ++ [returned x]))
      by (rewrite length_app; cbn; lia).
    fold (serial (length (before ++ [returned x])) (length L)).
    rewrite IH, <- app_assoc. reflexivity.
Qed.

(** [get_stats] returns the dictionary as it is, whenever it returns. *)
Lemma get_stats_copied {lib : library} (s : Stats) (r : Report) :
  get_stats s = Gives r -> copied r = s.
Proof.
  unfold get_stats. destruct (latencies s) as [|x l].
  - intro H. injection H as <-. reflexivity.
  - destruct (statistics.mean _); [|discriminate].
    destruct (statistics.median _); [|discriminate].
    destruct (if (1 <? _)%nat then _ else _); [|discriminate].
    intro H. injection H as <-. reflexivity.
Qed.

(** With at most one sample [get_stats] does not ask the library for
    anything that it could refuse. *)
Lemma get_stats_of_few {lib : library} (s : Stats) :
  (length (latencies s) <= 1)%nat -> exists r, get_stats s = Gives r.
Proof.
  unfold get_stats. destruct (latencies s) as [|x [|y l]]; cbn.
  - intros _. eexists. reflexivity.
  - intros _. eexists. reflexivity.
  - lia.
Qed.

(** C1, as the code has it: [update_stats] and [get_stats] take no lock.
    When the calls [update_stats l] of the handlers run one after the
    other, none of them interrupted, every call returns.  At any moment
    between two calls, and after the last one, the shared dictionary holds
    the calls that have returned so far ([L1]; [L2] are those that have not
    begun): [total_requests] is their number and [latencies] their samples.
    A [get_stats] that runs then, uninterrupted, either raises what the
    library raises or returns that very state, in which [min_latency] and
    [max_latency] bound every sample that is not NaN; it returns when there
    is at most one sample. *)
Theorem serial_updates_are_counted {lib : library} (L1 L2 : list float) :
  let sys := run (concurrent_calls initial_stats (L1 ++ L2))
                 (serial 0 (length L1) ++ [Snapshot]) in
  threads sys = map returned L1 ++ map calling L2
  /\ total_requests (shared sys) = length L1
  /\ latencies (shared sys) = L1
  /\ shared sys = record_all initial_stats L1
  /\ reports sys = [get_stats (shared sys)]
  /\ (forall r,
         reports sys = [Gives r] ->
         total_requests (copied r) = length L1
         /\ latencies (copied r) = L1
         /\ forall sample, In sample L1 -> is_nan sample = false ->
              (min_latency (copied r) <=? sample)%float = true
              /\ (sample <=? max_latency (copied r))%float = true)
  /\ ((length L1 <= 1)%nat -> exists r, reports sys = [Gives r]).
Proof.
  cbv zeta. unfold concurrent_calls.
  rewrite map_app, run_app.
  pose proof (run_serial L1 [] (map calling L2) initial_stats []) as H1.
  cbn [app length] in H1. rewrite H1. clear H1.
  cbn [run fold_left act shared threads reports app].
  assert (Hreq : total_requests (record_all initial_stats L1) = length L1)
    by now rewrite record_all_total_requests.
  assert (Hlat : latencies (record_all initial_stats L1) = L1)
    by now rewrite record_all_latencies.
  split; [reflexivity|]. split; [exact Hreq|]. split; [exact Hlat|].
  split; [reflexivity|]. split; [reflexivity|]. split.
  - intros r Hr. injection Hr as Hr. apply get_stats_copied in Hr.
    rewrite Hr. split; [exact Hreq|]. split; [exact Hlat|].
    intros sample Hin Hnan.
    assert (B : bounded (record_all initial_stats L1))
      by apply record_all_bounded, initial_stats_bounded.
    destruct B as (_ & _ & B). rewrite Forall_forall, Hlat in B.
    now apply B.
  - intro Hfew.
    destruct (get_stats_of_few (record_all initial_stats L1)) as [r Hr];
      [now rewrite Hlat|].
    exists r. now rewrite Hr.
Qed.

(** C1, refuted: two handler threads call [update_stats 5] and
    [update_stats 7].  Both read [total_requests = 0] before either writes
    it; the first thread goes on as far as [append].  The [get_stats] that
    runs then reports one request and the sample 5 with [max_latency = 0]
    and [min_latency = inf].  When both calls have returned,
    [total_requests] is 1 for the two samples. *)
Lemma unlocked_updates_interleave :
  let sys := run (lib := unasked)
                 (concurrent_calls initial_stats [F 5; F 7])
                 ([Run 0; Run 1; Run 0; Run 1; Run 0; Run 0; Run 0; Snapshot]
                    ++ repeat (Run 0) 4 ++ repeat (Run 1) 7) in
  threads sys = [returned (F 5); returned (F 7)]
  /\ reports sys
     = [Gives (mkReport (mkStats 1 (F 5) Inf (F 0) [F 5])
                        (JNum (F 5)) (JNum (F 5)) (JInt 0))]
  /\ shared sys = mkStats 1 (F 12) (F 5) (F 7) [F 5; F 7].
Proof. vm_compute. repeat split. Qed.

(** ** One turn of the handler's loop *)

(** A ping: the request is a dict whose type is "ping" (or missing) and whose
    timestamp, or the default for it, is a number that is the float [t] in
    the subtraction. *)
Lemma turn_ping {lib : library} (c : nat) (e : exchange) (self : server)
      (d : list (string * json)) (n : number) (t : float) :
  received e = Done (Text (JObj d)) ->
  is_str (dict_get d "type" (JStr "ping")) "ping" = true ->
  as_number (dict_get d "timestamp" (JNum (time_default e))) = Some n ->
  to_float n = Some t ->
  let latency := ((time_current e - t) * F 1000)%float in
  turn c e self
  = match sent e with
    | Done _ =>
        (Ok true, recorded self latency,
         [Send c (Pong (time_current e) latency (server_time e));
          Log (request_done latency)])
    | Failed => (Raise socket_error, recorded self latency, [])
    end.
Proof.
  intros Hrecv Htype Htime Hfloat. run_method.
  rewrite Hrecv. cbn. rewrite Htype. cbn. rewrite Htime, Hfloat. cbn.
  destruct (sent e) as [[]|]; reflexivity.
Qed.

Lemma dict_get_missing (d : list (string * json)) (key : string)
      (default : json) :
  has_key d key = false -> dict_get d key default = default.
Proof.
  unfold has_key. induction d as [|[k v] d IH]; cbn; [reflexivity|].
  intro H. apply orb_false_iff in H. destruct H as [Hk Hd].
  rewrite Hk. apply IH, Hd.
Qed.

(** The object after a ping, field by field. *)
Lemma recorded_fields (self : server) (x : float) :
  total_requests (stats (recorded self x))
  = (total_requests (stats self) + 1)%nat
  /\ latencies (stats (recorded self x)) = latencies (stats self) ++ [x]
  /\ total_latency (stats (recorded self x))
     = (total_latency (stats self) + x)%float
  /\ host (recorded self x) = host self
  /\ port (recorded self x) = port self
  /\ server_socket (recorded self x) = server_socket self
  /\ running (recorded self x) = running self.
Proof.
  unfold recorded. cbn [set_stats stats host port server_socket running].
  rewrite update_total_requests, update_latencies, update_total_latency.
  repeat split.
Qed.

(** C5, as the code has it: a ping whose timestamp is a float (NaN and the
    infinities included), a bool, or an int that converts to float, and that
    the handler receives at server time [time_current e], is recorded as
    [(time_current e - t) * 1000], exactly: [self.stats] afterwards is
    [update_stats] of that value on [self.stats] before, so the value is the
    last of [latencies], [total_requests] has grown by one, and nothing
    else of the object has changed.  When the reply can be sent, it is the
    pong with that same value.  The value is what the float operations
    give, negative when the timestamp is ahead of the server's clock: it is
    neither tested nor changed. *)
Theorem ping_latency_is_recorded_and_returned
        {lib : library} (c : nat) (e : exchange) (self : server)
        (d : list (string * json)) (n : number) (t : float) :
  received e = Done (Text (JObj d)) ->
  is_str (dict_get d "type" (JStr "ping")) "ping" = true ->
  as_number (dict_get d "timestamp" (JNum (time_default e))) = Some n ->
  to_float n = Some t ->
  let latency := ((time_current e - t) * F 1000)%float in
  let after := object_after (turn c e self) in
  stats after = update_stats (stats self) latency
  /\ latencies (stats after) = latencies (stats self) ++ [latency]
  /\ total_requests (stats after) = (total_requests (stats self) + 1)%nat
  /\ total_latency (stats after)
     = (total_latency (stats self) + latency)%float
  /\ (host after = host self /\ port after = port self
      /\ server_socket after = server_socket self
      /\ running after = running self)
  /\ (sent e = Done tt ->
      turn c e self
      = (Ok true, after,
         [Send c (Pong (time_current e) latency (server_time e));
          Log (request_done latency)])).
Proof.
  intros Hrecv Htype Htime Hfloat. cbv zeta.
  rewrite (turn_ping c e self d n t Hrecv Htype Htime Hfloat).
  assert (Hafter :
            object_after
              (match sent e with
               | Done _ =>
                   (Ok true,
                    recorded self ((time_current e - t) * F 1000)%float,
                    [Send c (Pong (time_current e)
                                  ((time_current e - t) * F 1000)%float
                                  (server_time e));
                     Log (request_done
                            ((time_current e - t) * F 1000)%float)])
               | Failed =>
                   (Raise socket_error,
                    recorded self ((time_current e - t) * F 1000)%float, [])
               end)
            = recorded self ((time_current e - t) * F 1000)%float)
    by now destruct (sent e).
  rewrite Hafter.
  destruct (recorded_fields self ((time_current e - t) * F 1000)%float)
    as (H1 & H2 & H3 & H4 & H5 & H6 & H7).
  split; [reflexivity|]. split; [exact H2|]. split; [exact H1|].
  split; [exact H3|]. split; [now repeat split|].
  intro Hsent. now rewrite Hsent.
Qed.

(** A ping stamped 2 s after the server's clock: the latency is -2000. *)
Lemma ping_latency_witness :
  let e := mkExchange
             (Done (Text (JObj [("type"%string, JStr "ping");
                                ("timestamp"%string, JNum (F 12))])))
             (F 10) (F 10) "2024-01-01T00:00:10" (Done tt) in
  let self := set_running true (init "0.0.0.0" 8888%N) in
  turn (lib := unasked) 1 e self
  = (Ok true,
     mkServer "0.0.0.0" 8888%N None true
              (mkStats 1 (F (-2000)) (F (-2000)) (F 0) [F (-2000)]),
     [Send 1 (Pong (F 10) (F (-2000)) "2024-01-01T00:00:10");
      Log (request_done (F (-2000)))]).
Proof.
  cbv zeta.
  pose proof (ping_latency_is_recorded_and_returned
                (lib := unasked) 1
                (mkExchange
                   (Done (Text (JObj [("type"%string, JStr "ping");
                                      ("timestamp"%string, JNum (F 12))])))
                   (F 10) (F 10) "2024-01-01T00:00:10" (Done tt))
                (set_running true (init "0.0.0.0" 8888%N))
                [("type"%string, JStr "ping");
                 ("timestamp"%string, JNum (F 12))]
                (Float (F 12)) (F 12) eq_refl eq_refl eq_refl eq_refl) as H.
  cbv zeta in H. destruct H as (_ & _ & _ & _ & _ & H).
  rewrite (H eq_refl). vm_compute. reflexivity.
Defined.

(** C9: decoding a request record is permissive.  A dict without the key
    "type" is handled as the same dict with type "ping"; a dict without the
    key "timestamp" is handled as the same dict with the server's clock,
    read when the request is decoded, as its timestamp; and a dict with
    neither key is answered with a pong, the handler going on with its loop:
    no decode error arises. *)
Theorem decoding_is_permissive
        {lib : library} (c : nat) (e : exchange) (self : server)
        (d : list (string * json)) :
  received e = Done (Text (JObj d)) ->
  (has_key d "type" = false ->
   turn c e self
   = turn c (with_request e (JObj (("type"%string, JStr "ping") :: d))) self)
  /\ (has_key d "timestamp" = false ->
      turn c e self
      = turn c (with_request
                  e (JObj (("timestamp"%string, JNum (time_default e)) :: d)))
             self)
  /\ (has_key d "type" = false -> has_key d "timestamp" = false ->
      sent e = Done tt ->
      let latency := ((time_current e - time_default e) * F 1000)%float in
      turn c e self
      = (Ok true, recorded self latency,
         [Send c (Pong (time_current e) latency (server_time e));
          Log (request_done latency)])).
Proof.
  intro Hrecv. split; [|split].
  - intro Htype. run_method. rewrite Hrecv. cbn.
    now rewrite (dict_get_missing d "type" _ Htype).
  - intro Htime. run_method. rewrite Hrecv. cbn.
    now rewrite (dict_get_missing d "timestamp" _ Htime).
  - intros Htype Htime Hsent. cbv zeta.
    rewrite (turn_ping c e self d (Float (time_default e)) (time_default e)
                       Hrecv).
    + now rewrite Hsent.
    + now rewrite (dict_get_missing d "type" _ Htype).
    + now rewrite (dict_get_missing d "timestamp" _ Htime).
    + reflexivity.
Qed.

(** The empty record [{}], received when the server's clock reads 10 and
    handled when it reads 11: a ping of 1000 ms. *)
Lemma decoding_is_permissive_witness :
  let e := mkExchange (Done (Text (JObj []))) (F 10) (F 11)
                      "2024-01-01T00:00:11" (Done tt) in
  let self := set_running true (init "0.0.0.0" 8888%N) in
  turn (lib := unasked) 1 e self
  = (Ok true, recorded self (F 1000),
     [Send 1 (Pong (F 11) (F 1000) "2024-01-01T00:00:11");
      Log (request_done (F 1000))]).
Proof.
  cbv zeta.
  pose proof (decoding_is_permissive
                (lib := unasked) 1
                (mkExchange (Done (Text (JObj []))) (F 10) (F 11)
                            "2024-01-01T00:00:11" (Done tt))
                (set_running true (init "0.0.0.0" 8888%N))
                [] eq_refl) as H.
  destruct H as (_ & _ & H).
  rewrite (H eq_refl eq_refl eq_refl). vm_compute. reflexivity.
Defined.

(** C10: a stats request that the handler processes while [self.stats] is
    as [__init__] left it is answered with the initial values themselves:
    [total_requests = 0], [min_latency = inf] and [max_latency = 0]. *)
Theorem stats_query_before_any_sample
        {lib : library} (c : nat) (e : exchange) (self : server)
        (d : list (string * json)) :
  stats self = initial_stats ->
  received e = Done (Text (JObj d)) ->
  dict_get d "type" (JStr "ping") = JStr "stats" ->
  sent e = Done tt ->
  turn c e self = (Ok true, self, [Send c (StatsResponse empty_report)])
  /\ total_requests (copied empty_report) = 0%nat
  /\ min_latency (copied empty_report) = Inf
  /\ max_latency (copied empty_report) = F 0.
Proof.
  intros Hstats Hrecv Htype Hsent.
  split; [|repeat split].
  run_method. rewrite Hrecv. cbn. rewrite Htype. cbn.
  rewrite Hsent, Hstats. reflexivity.
Qed.

Lemma stats_query_witness :
  let e := mkExchange (Done (Text (JObj [("type"%string, JStr "stats")])))
                      (F 10) (F 11) "2024-01-01T00:00:11" (Done tt) in
  let self := set_running true (init "0.0.0.0" 8888%N) in
  turn (lib := unasked) 1 e self
  = (Ok true, self,
     [Send 1 (StatsResponse
                (mkReport (mkStats 0 (F 0) Inf (F 0) [])
                          (JInt 0) (JInt 0) (JInt 0)))]).
Proof.
  cbv zeta.
  exact (proj1 (stats_query_before_any_sample
                  (lib := unasked) 1
                  (mkExchange
                     (Done (Text (JObj [("type"%string, JStr "stats")])))
                     (F 10) (F 11) "2024-01-01T00:00:11" (Done tt))
                  (set_running true (init "0.0.0.0" 8888%N))
                  [("type"%string, JStr "stats")]
                  eq_refl eq_refl eq_refl eq_refl)).
Defined.

(** ** The handler's loop *)

(** Text that is not JSON: the handler prints its warning and goes on with
    the rest of the connection from the same state. *)
Lemma invalid_json_is_skipped
      {lib : library} (c : nat) (e : exchange) (rest : list event)
      (self : server) :
  running self = true ->
  received e = Done InvalidJson ->
  serve c (Round e :: rest) self
  = (fst (fst (serve c rest self)),
     snd (fst (serve c rest self)),
     Log invalid_json :: snd (serve c rest self)).
Proof.
  intros Hrun Hrecv. cbn [serve]. run_method.
  rewrite Hrun, Hrecv. cbn.
  destruct (serve c rest self) as [[r s'] out]. reflexivity.
Qed.

(** The scenario of a malformed payload on a running server: text that is
    not JSON, then a valid ping.  The warning is printed, the ping is
    answered and the handler waits for the next message. *)
Example invalid_json_then_ping :
  let self := set_running true (init "0.0.0.0" 8888%N) in
  handle_client (lib := unasked)
    1
    [Round (mkExchange (Done InvalidJson) (F 10) (F 10) "2024-01-01T00:00:10"
                       (Done tt));
     Round (mkExchange
              (Done (Text (JObj [("type"%string, JStr "ping");
                                 ("timestamp"%string, JNum (F 9))])))
              (F 11) (F 11) "2024-01-01T00:00:11" (Done tt))]
    self
  = (Pending, recorded self (F 2000),
     [Log invalid_json;
      Send 1 (Pong (F 11) (F 2000) "2024-01-01T00:00:11");
      Log (request_done (F 2000))]).
Proof. vm_compute. reflexivity. Qed.

(** C6, where the code departs from it: bytes that are not UTF-8 make
    [data.decode] raise [UnicodeDecodeError], which the inner [except
    json.JSONDecodeError] does not catch.  The handler's loop ends, the
    connection is closed, and whatever the peer sends next, [rest], is never
    read. *)
Theorem undecodable_bytes_close_the_connection
        {lib : library} (c : nat) (e : exchange) (rest : list event)
        (self : server) :
  running self = true ->
  received e = Done InvalidUtf8 ->
  handle_client c (Round e :: rest) self
  = (Ok tt, self,
     [Log (handler_error UnicodeDecodeError);
      CloseClient c;
      Log (client_disconnected c)]).
Proof.
  intros Hrun Hrecv. unfold handle_client. cbn [serve]. run_method.
  rewrite Hrun, Hrecv. reflexivity.
Qed.

(** The bytes [b'\xff'] followed by a valid ping: the ping is not answered. *)
Lemma undecodable_bytes_witness :
  let self := set_running true (init "0.0.0.0" 8888%N) in
  handle_client (lib := unasked)
    1
    [Round (mkExchange (Done InvalidUtf8) (F 10) (F 10) "2024-01-01T00:00:10"
                       (Done tt));
     Round (mkExchange
              (Done (Text (JObj [("type"%string, JStr "ping");
                                 ("timestamp"%string, JNum (F 9))])))
              (F 11) (F 11) "2024-01-01T00:00:11" (Done tt))]
    self
  = (Ok tt, self,
     [Log (handler_error UnicodeDecodeError);
      CloseClient 1;
      Log (client_disconnected 1)]).
Proof.
  cbv zeta.
  exact (undecodable_bytes_close_the_connection
           (lib := unasked) 1
           (mkExchange (Done InvalidUtf8) (F 10) (F 10) "2024-01-01T00:00:10"
                       (Done tt))
           [Round (mkExchange
                     (Done (Text (JObj [("type"%string, JStr "ping");
                                        ("timestamp"%string, JNum (F 9))])))
                     (F 11) (F 11) "2024-01-01T00:00:11" (Done tt))]
           (set_running true (init "0.0.0.0" 8888%N))
           eq_refl eq_refl).
Defined.

(** C4, as the code has it: [stop] does not interrupt a handler, but the
    handler's loop tests [self.running].  Once another thread has called
    [stop], the handler leaves its loop at the next test and closes the
    connection without reading again, whatever the peer has sent ([e],
    [rest]); and a turn that was under way when [stop] was called ends as it
    would have ended without it. *)
Theorem handler_leaves_its_loop_after_stop
        {lib : library} (c : nat) (e : exchange) (rest : list event)
        (self : server) :
  handle_client c (Stop :: Round e :: rest) self
  = (Ok tt, stopped self,
     [Log server_stopped; CloseClient c; Log (client_disconnected c)])
  /\ (forall (before : exchange) (after : server) (out : list effect),
         running self = true ->
         turn c before self = (Ok true, after, out) ->
         handle_client c (Round before :: Stop :: Round e :: rest) self
         = (Ok tt, stopped after,
            out ++ [Log server_stopped; CloseClient c;
                    Log (client_disconnected c)])).
Proof.
  split.
  - unfold handle_client, stopped. cbn [serve].
    unfold try_except, try_finally, bind, read, ret, emit, modify, stop.
    cbn. destruct (server_socket self); reflexivity.
  - intros before after out Hrun Hturn.
    unfold handle_client, stopped. cbn [serve].
    unfold try_except, try_finally, bind, read, ret, emit, modify, stop.
    rewrite Hrun, Hturn. cbn.
    destruct (server_socket after); cbn; rewrite ?app_nil_r, <- ?app_assoc;
      reflexivity.
Qed.

(** C4, refuted: the peer sends a ping, another thread calls [stop], and
    the peer sends a second ping.  The peer has not disconnected and no call
    has failed, but the handler has returned: the second ping is never read
    and the connection is closed. *)
Lemma stop_ends_the_handler :
  let ping t now :=
    Round (mkExchange
             (Done (Text (JObj [("type"%string, JStr "ping");
                                ("timestamp"%string, JNum (F t))])))
             (F now) (F now) "2024-01-01T00:00:10" (Done tt)) in
  let self := set_running true (init "0.0.0.0" 8888%N) in
  handle_client (lib := unasked) 1 [ping 9 10; Stop; ping 19 20]%Z self
  = (Ok tt,
     set_running false (recorded self (F 1000)),
     [Send 1 (Pong (F 10) (F 1000) "2024-01-01T00:00:10");
      Log (request_done (F 1000));
      Log server_stopped;
      CloseClient 1;
      Log (client_disconnected 1)]).
Proof. vm_compute. reflexivity. Qed.

(** The second part of the theorem on the same connection. *)
Lemma handler_leaves_its_loop_witness :
  let ping t now :=
    mkExchange
      (Done (Text (JObj [("type"%string, JStr "ping");
                         ("timestamp"%string, JNum (F t))])))
      (F now) (F now) "2024-01-01T00:00:10" (Done tt) in
  let self := set_running true (init "0.0.0.0" 8888%N) in
  handle_client (lib := unasked)
                1 [Round (ping 9 10); Stop; Round (ping 19 20)]%Z self
  = (Ok tt, stopped (recorded self ((F 10 - F 9) * F 1000)%float),
     [Send 1 (Pong (F 10) ((F 10 - F 9) * F 1000)%float
                   "2024-01-01T00:00:10");
      Log (request_done ((F 10 - F 9) * F 1000)%float)]
       ++ [Log server_stopped; CloseClient 1; Log (client_disconnected 1)]).
Proof.
  cbv zeta.
  refine (proj2 (handler_leaves_its_loop_after_stop
                   (lib := unasked) 1
                   (mkExchange
                      (Done (Text (JObj [("type"%string, JStr "ping");
                                         ("timestamp"%string,
                                          JNum (F 19))])))
                      (F 20) (F 20) "2024-01-01T00:00:10" (Done tt))
                   [] (set_running true (init "0.0.0.0" 8888%N)))
                (mkExchange
                   (Done (Text (JObj [("type"%string, JStr "ping");
                                      ("timestamp"%string, JNum (F 9))])))
                   (F 10) (F 10) "2024-01-01T00:00:10" (Done tt))
                _ _ eq_refl _).
  reflexivity.
Defined.

(** C5, refuted: a ping whose timestamp is an int beyond the float range.
    The subtraction raises [OverflowError]: nothing is recorded, no pong is
    sent, and the handler closes the connection without reading the ping
    that follows. *)
Lemma oversized_timestamp_ends_the_connection :
  let ping t :=
    Round (mkExchange
             (Done (Text (JObj [("type"%string, JStr "ping");
                                ("timestamp"%string, t)])))
             (F 10) (F 10) "2024-01-01T00:00:10" (Done tt)) in
  let self := set_running true (init "0.0.0.0" 8888%N) in
  handle_client (lib := unasked) 1
                [ping (JInt (10 ^ 400)); ping (JNum (F 9))] self
  = (Ok tt, self,
     [Log (handler_error OverflowError);
      CloseClient 1;
      Log (client_disconnected 1)]).
Proof. vm_compute. reflexivity. Qed.

(** ** [TCPServer.start] *)

(** C2, as the code has it: when [bind] raises, [start] catches the
    exception itself.  It prints the failure, runs [stop] and returns to its
    caller in the normal way; the accept loop never begins, so no handler is
    started for any connection, whatever the environment holds ready. *)
Theorem bind_failure_is_caught (env : start_env) (self : server) :
  setup_failure env = Some bind_call ->
  start env self
  = (Ok tt, after_bind_failure self,
     [Log (start_failed socket_error); Log server_stopped])
  /\ forall c, ~ In (Spawn c) (snd (start env self)).
Proof.
  intro Hbind.
  assert (E : start env self
              = (Ok tt, after_bind_failure self,
                 [Log (start_failed socket_error); Log server_stopped])).
  { unfold start, setup, on_socket, after_bind_failure.
    rewrite Hbind.
    unfold try_except, try_finally, bind, read, ret, raise, emit, modify,
      stop.
    cbn. reflexivity. }
  split; [exact E|].
  intros c Hin. rewrite E in Hin. cbn in Hin.
  destruct Hin as [H|[H|[]]]; discriminate H.
Qed.

(** C2, refuted: the port is in use, so [bind] raises, and a client is
    waiting.  [start] returns normally, [Ok tt]: no exception reaches the
    caller, and [run_server] ends in the same way. *)
Lemma bind_failure_does_not_propagate :
  let env := mkStartEnv (Some bind_call) [mkAccept false (Connection 1)] in
  start env (init "0.0.0.0" 8888%N)
  = (Ok tt, after_bind_failure (init "0.0.0.0" 8888%N),
     [Log (start_failed socket_error); Log server_stopped])
  /\ fst (fst (run_server "0.0.0.0" 8888%N env)) = Ok tt.
Proof. vm_compute. split; reflexivity. Qed.

Lemma bind_failure_witness :
  start (mkStartEnv (Some bind_call) [mkAccept false (Connection 1)])
        (init "0.0.0.0" 8888%N)
  = (Ok tt, after_bind_failure (init "0.0.0.0" 8888%N),
     [Log (start_failed socket_error); Log server_stopped]).
Proof.
  exact (proj1 (bind_failure_is_caught
                  (mkStartEnv (Some bind_call)
                              [mkAccept false (Connection 1)])
                  (init "0.0.0.0" 8888%N) eq_refl)).
Defined.

(** An exception that [start] does let through: [KeyboardInterrupt] is not
    an [Exception]. *)
Example interrupt_propagates :
  fst (fst (start (mkStartEnv None [mkAccept false (Connection 1);
                                    mkAccept false Interrupt])
                  (init "0.0.0.0" 8888%N)))
  = Raise KeyboardInterrupt.
Proof. reflexivity. Qed.

(** With the socket set up, connections are accepted and handed to
    threads of their own; an [accept] that fails while the server runs is
    printed and the loop goes on. *)
Example accept_loop_runs :
  snd (start (mkStartEnv None [mkAccept false (Connection 1);
                               mkAccept false AcceptFails;
                               mkAccept false (Connection 2)])
             (init "0.0.0.0" 8888%N))
  = [Log server_started; Log (listening_on "0.0.0.0" 8888%N);
     Log waiting_for_clients;
     Log (client_connected 1); Spawn 1;
     Log (accept_error socket_error);
     Log (client_connected 2); Spawn 2].
Proof. reflexivity. Qed.

(** ** The client *)

(** A ping that is answered with a dict. *)
Lemma send_ping_decoded (env : TCPClient.ping_env) (self : TCPClient.client)
      (sock : TCPClient.socket) (d : list (string * json)) :
  TCPClient.client_socket self = Some sock ->
  TCPClient.sent env = Done tt ->
  TCPClient.received env = Some (Done (Text (JObj d))) ->
  TCPClient.send_ping env self
  = (Ok (dict_get d "latency" (round_trip env)),
     with_samples self [dict_get d "latency" (round_trip env)],
     [TCPClient.Send (ping_request env)]).
Proof.
  intros Hsock Hsent Hrecv. run_client_method.
  rewrite Hsock, Hsent, Hrecv. reflexivity.
Qed.

(** C7, as the code has it.  When the request is sent and a response is
    received and decodes to a dict, [send_ping] returns the "latency" entry
    of the response, whatever value it is, or, when the response has no
    such entry, the round trip [(end_time - start_time) * 1000] that it
    measured itself from [start_time] (not from the timestamp that it put
    into the request); it appends that value, and nothing else, to
    [self.latencies] and changes nothing else of the object.  When [send]
    or [recv] raises, [send_ping] returns [None] and leaves the object as it
    was.  In every case [self.latencies] is either unchanged or longer by
    the "latency" value of a response that was received and decoded. *)
Theorem send_ping_measures (env : TCPClient.ping_env)
        (self : TCPClient.client) :
  (forall sock d,
      TCPClient.client_socket self = Some sock ->
      TCPClient.sent env = Done tt ->
      TCPClient.received env = Some (Done (Text (JObj d))) ->
      let latency := dict_get d "latency" (round_trip env) in
      TCPClient.send_ping env self
      = (Ok latency,
         TCPClient.mkClient (TCPClient.host self) (TCPClient.port self)
                            (TCPClient.client_socket self)
                            (TCPClient.latencies self ++ [latency]),
         [TCPClient.Send (ping_request env)])
      /\ (has_key d "latency" = false ->
          latency
          = JNum ((TCPClient.time_end env - TCPClient.time_start env)
                  * F 1000)%float))
  /\ (TCPClient.sent env = Failed
      \/ TCPClient.received env = Some Failed ->
      outcome (TCPClient.send_ping env self) = Ok JNull
      /\ object_after (TCPClient.send_ping env self) = self)
  /\ (TCPClient.latencies (object_after (TCPClient.send_ping env self))
      = TCPClient.latencies self
      \/ exists d,
          TCPClient.sent env = Done tt
          /\ TCPClient.received env = Some (Done (Text (JObj d)))
          /\ outcome (TCPClient.send_ping env self)
             = Ok (dict_get d "latency" (round_trip env))
          /\ TCPClient.latencies (object_after (TCPClient.send_ping env self))
             = TCPClient.latencies self
                 ++ [dict_get d "latency" (round_trip env)]).
Proof.
  split; [|split].
  - intros sock d Hsock Hsent Hrecv. cbv zeta. split.
    + now rewrite (send_ping_decoded env self sock d Hsock Hsent Hrecv).
    + intro Hmissing. now apply dict_get_missing.
  - intro Hfail. unfold outcome, object_after. run_client_method.
    destruct (TCPClient.client_socket self) as [sock|]; cbn;
      [|split; reflexivity].
    destruct (TCPClient.sent env) as [[]|]; cbn; [|split; reflexivity].
    destruct Hfail as [Hfail|Hfail]; [discriminate Hfail|].
    rewrite Hfail. cbn. split; reflexivity.
  - unfold outcome, object_after. run_client_method.
    destruct (TCPClient.client_socket self) as [sock|]; cbn;
      [|left; reflexivity].
    destruct (TCPClient.sent env) as [[]|]; cbn; [|left; reflexivity].
    destruct (TCPClient.received env) as [[[| | | |v]|]|]; cbn;
      try (left; reflexivity).
    destruct v as [|b|z|f|s|l|d]; cbn; try (left; reflexivity).
    right. exists d. repeat split; reflexivity.
Qed.

(** A pong without a "latency" entry: the request is stamped 10, the send
    starts at 11 and the response is there at 14.  The value recorded is
    3000, the time since [start_time]. *)
Lemma send_ping_witness :
  let env := TCPClient.mkPing (F 10) (F 11) (Done tt)
               (Some (Done (Text (JObj [("type"%string, JStr "pong")]))))
               (F 14) in
  let self := TCPClient.mkClient "127.0.0.1" 8888%N
                (Some (TCPClient.mkSocket true false)) [JNum (F 2)] in
  TCPClient.send_ping env self
  = (Ok (JNum (F 3000)),
     TCPClient.mkClient "127.0.0.1" 8888%N
                        (Some (TCPClient.mkSocket true false))
                        [JNum (F 2); JNum (F 3000)],
     [TCPClient.Send (JObj [("type"%string, JStr "ping");
                            ("timestamp"%string, JNum (F 10))])]).
Proof.
  cbv zeta.
  pose proof (proj1 (send_ping_measures
                       (TCPClient.mkPing
                          (F 10) (F 11) (Done tt)
                          (Some (Done (Text (JObj [("type"%string,
                                                    JStr "pong")]))))
                          (F 14))
                       (TCPClient.mkClient
                          "127.0.0.1" 8888%N
                          (Some (TCPClient.mkSocket true false))
                          [JNum (F 2)]))
                    (TCPClient.mkSocket true false)
                    [("type"%string, JStr "pong")]
                    eq_refl eq_refl eq_refl) as H.
  cbv zeta in H. rewrite (proj1 H). vm_compute. reflexivity.
Defined.

(** C7, refuted: the response [{"type": "pong", "latency": null}].
    [send_ping] returns [None], which its caller takes for a failed ping,
    and yet it has appended a sample, which is not a measurement: from then
    on [get_stats] raises [TypeError]. *)
Lemma null_latency_is_recorded :
  let env := TCPClient.mkPing (F 10) (F 11) (Done tt)
               (Some (Done (Text (JObj [("type"%string, JStr "pong");
                                        ("latency"%string, JNull)]))))
               (F 14) in
  let self := TCPClient.mkClient "127.0.0.1" 8888%N
                (Some (TCPClient.mkSocket true false)) [JNum (F 2)] in
  outcome (TCPClient.send_ping env self) = Ok JNull
  /\ TCPClient.latencies (object_after (TCPClient.send_ping env self))
     = [JNum (F 2); JNull]
  /\ outcome (TCPClient.get_stats
                (lib := unasked)
                (object_after (TCPClient.send_ping env self)))
     = Raise TypeError.
Proof. vm_compute. repeat split. Qed.

(** A failed [recv]: nothing is measured and nothing is appended. *)
Example send_ping_fails :
  let self := TCPClient.mkClient "127.0.0.1" 8888%N
                (Some (TCPClient.mkSocket true false)) [JNum (F 2)] in
  TCPClient.send_ping (TCPClient.mkPing (F 10) (F 10) (Done tt) (Some Failed)
                                        (F 15))
                      self
  = (Ok JNull, self,
     [TCPClient.Send (JObj [("type"%string, JStr "ping");
                            ("timestamp"%string, JNum (F 10))]);
      TCPClient.Log (TCPClient.ping_failed socket_error)]).
Proof. reflexivity. Qed.

(** A peer that stays silent: [recv] does not return, and neither does
    [send_ping]. *)
Example send_ping_blocks :
  let self := TCPClient.mkClient "127.0.0.1" 8888%N
                (Some (TCPClient.mkSocket true false)) [] in
  TCPClient.send_ping (TCPClient.mkPing (F 10) (F 10) (Done tt) None (F 15))
                      self
  = (Pending, self,
     [TCPClient.Send (JObj [("type"%string, JStr "ping");
                            ("timestamp"%string, JNum (F 10))])]).
Proof. reflexivity. Qed.

(** ** [get_stats] with no sample and with one *)

(** C3, as the code has it.  On a server that has recorded nothing,
    [get_stats] returns [total_requests = 0] with [avg_latency],
    [median_latency] and [std_latency] all 0, and after one sample it
    returns [std_latency = 0].  On a client that has recorded nothing,
    [get_stats] returns [None]; after one sample that is a number it
    returns a dict with [count = 1] and [std = 0]. *)
Theorem get_stats_with_no_or_one_sample {lib : library} :
  (forall host port,
      exists r,
        get_stats (stats (TCPServer.init host port)) = Gives r
        /\ total_requests (copied r) = 0%nat
        /\ avg_latency r = JInt 0
        /\ median_latency r = JInt 0
        /\ std_latency r = JInt 0)
  /\ (forall host port x,
         exists r,
           get_stats (update_stats (stats (TCPServer.init host port)) x)
           = Gives r
           /\ total_requests (copied r) = 1%nat
           /\ latencies (copied r) = [x]
           /\ std_latency r = JInt 0)
  /\ (forall self,
         TCPClient.latencies self = [] ->
         TCPClient.get_stats self = (Ok None, self, []))
  /\ (forall self v x,
         TCPClient.latencies self = [v] ->
         as_number v = Some x ->
         exists r,
           TCPClient.get_stats self = (Ok (Some r), self, [])
           /\ TCPClient.count r = 1%nat
           /\ TCPClient.std r = JInt 0).
Proof.
  split; [|split; [|split]].
  - intros host port. eexists. cbn. repeat split.
  - intros host port x. cbn [TCPServer.init stats].
    unfold get_stats. rewrite update_latencies.
    cbn [initial_stats latencies app map length Nat.ltb Nat.leb
         statistics.mean statistics.median as_number].
    eexists. split; [reflexivity|]. cbn [copied std_latency].
    rewrite update_total_requests, update_latencies. repeat split.
  - intros self Hempty. run_client_method. now rewrite Hempty.
  - intros self v x Hone Hnum. run_client_method. rewrite Hone.
    unfold all_numbers, is_number. cbn [forallb]. rewrite Hnum.
    cbn [andb length Nat.ltb Nat.leb statistics.mean statistics.median].
    rewrite Hnum. destruct x; eexists; repeat split.
Qed.

(** C3, refuted: a client that has sent no ping.  [get_stats] returns
    [None], not a dict of zeros. *)
Lemma client_get_stats_is_None_without_samples :
  TCPClient.get_stats (lib := unasked) (TCPClient.init "127.0.0.1" 8888%N)
  = (Ok None, TCPClient.init "127.0.0.1" 8888%N, []).
Proof. reflexivity. Qed.

(** The client after one ping of 3 ms. *)
Lemma get_stats_witness :
  exists r,
    TCPClient.get_stats
      (lib := unasked)
      (TCPClient.mkClient "127.0.0.1" 8888%N
                          (Some (TCPClient.mkSocket true false))
                          [JNum (F 3)])
    = (Ok (Some r),
       TCPClient.mkClient "127.0.0.1" 8888%N
                          (Some (TCPClient.mkSocket true false))
                          [JNum (F 3)],
       [])
    /\ TCPClient.count r = 1%nat
    /\ TCPClient.std r = JInt 0.
Proof.
  exact (proj2 (proj2 (proj2 (get_stats_with_no_or_one_sample
                                (lib := unasked))))
               (TCPClient.mkClient "127.0.0.1" 8888%N
                                   (Some (TCPClient.mkSocket true false))
                                   [JNum (F 3)])
               (JNum (F 3)) (Float (F 3)) eq_refl eq_refl).
Defined.

(** * Further properties *)

(** ** The statistics dictionary *)

Lemma record_all_total_latency (s : Stats) (L : list float) :
  total_latency (record_all s L) = fold_left fadd L (total_latency s).
Proof.
  revert s. induction L as [|x L IH]; intro s; [reflexivity|].
  cbn [record_all fold_left]. unfold record_all in IH.
  now rewrite IH, update_total_latency.
Qed.

(** A sum that has met a NaN is NaN. *)
Lemma sum_from_NaN (L : list float) : fold_left fadd L NaN = NaN.
Proof. induction L as [|x L IH]; [reflexivity|exact IH]. Qed.

Lemma sum_with_NaN (L : list float) :
  forall start x,
    In x L -> is_nan x = true -> fold_left fadd L start = NaN.
Proof.
  induction L as [|y L IH]; intros start x Hin Hnan; [destruct Hin|].
  cbn [fold_left]. destruct Hin as [->|Hin].
  - destruct x; try discriminate Hnan.
    fold NaN. rewrite fadd_NaN_r. apply sum_from_NaN.
  - now apply (IH _ x).
Qed.

(** X1: after any sequence of [update_stats] calls on a new dictionary,
    [total_latency] is the float sum of the samples in [latencies], added
    one by one from 0 in the order of their arrival, each addition rounded;
    and one NaN sample makes it NaN whatever is recorded afterwards. *)
Theorem total_latency_is_the_sum (L : list float) :
  let s := record_all initial_stats L in
  total_latency s = fold_left fadd (latencies s) (F 0)
  /\ (forall x, In x (latencies s) -> is_nan x = true ->
        total_latency s = NaN).
Proof.
  cbv zeta. rewrite record_all_total_latency, record_all_latencies.
  cbn [initial_stats total_latency latencies app]. split; [reflexivity|].
  intros x Hin Hnan. now apply (sum_with_NaN L (F 0) x).
Qed.

(** The sum is not the exact one: of 1e16, 1 and -1e16 it is 0. *)
Example total_latency_is_rounded :
  total_latency (record_all initial_stats [F (10 ^ 16); F 1; F (- 10 ^ 16)])
  = F 0.
Proof. vm_compute. reflexivity. Qed.

Lemma record_all_extremes (first : Stats) (L : list float) :
  is_nan (max_latency first) = false ->
  extremes_from first (record_all first L) L.
Proof.
  intro Hnan. induction L as [|x L IH] using rev_ind.
  - repeat split; [now left | now apply fleb_refl | now left].
  - rewrite record_all_snoc. destruct IH as (Hmax & Hge & Hmin).
    unfold extremes_from.
    rewrite update_max_latency, update_min_latency.
    split; [|split].
    + destruct (_ <? x)%float.
      * right. apply in_or_app. right. now left.
      * destruct Hmax as [H|H]; [now left|].
        right. apply in_or_app. now left.
    + destruct (_ <? x)%float eqn:E; [|exact Hge].
      apply fleb_trans with (max_latency (record_all first L));
        [exact Hge|now apply fltb_true].
    + destruct (x <? _)%float.
      * right. apply in_or_app. right. now left.
      * destruct Hmin as [H|H]; [now left|].
        right. apply in_or_app. now left.
Qed.

Lemma record_all_max_stays (s : Stats) (L : list float) :
  Forall (fun x => (max_latency s <? x)%float = false) L ->
  max_latency (record_all s L) = max_latency s.
Proof.
  induction L as [|x L IH] using rev_ind; [reflexivity|]. intro H.
  apply Forall_app in H. destruct H as [HL Hx].
  rewrite record_all_snoc, update_max_latency, (IH HL).
  inversion Hx as [|? ? Hle _]; subst. now rewrite Hle.
Qed.

(** X2: on a dictionary that started new, [max_latency] is one of the
    samples or still the 0 it started with; it is never below 0, and when
    no sample is above 0 it stays 0, whatever the samples are.
    [min_latency] is one of the samples or still the [inf] it started
    with, and it is one of the samples as soon as one of them is not
    NaN. *)
Theorem extremes_are_samples_or_zero (L : list float) :
  let s := record_all initial_stats L in
  (F 0 <=? max_latency s)%float = true
  /\ (max_latency s = F 0 \/ In (max_latency s) L)
  /\ (min_latency s = Inf \/ In (min_latency s) L)
  /\ ((exists x, In x L /\ is_nan x = false) -> In (min_latency s) L)
  /\ (Forall (fun x => (F 0 <? x)%float = false) L -> max_latency s = F 0).
Proof.
  cbv zeta.
  destruct (record_all_extremes initial_stats L eq_refl)
    as (Hmax & Hge & Hmin).
  split; [exact Hge|]. split; [exact Hmax|]. split; [exact Hmin|]. split.
  - intros (x & Hin & Hnan). destruct Hmin as [H|H]; [|exact H].
    assert (B : bounded (record_all initial_stats L))
      by apply record_all_bounded, initial_stats_bounded.
    destruct B as (_ & _ & B).
    rewrite Forall_forall, record_all_latencies in B.
    destruct (B x Hin Hnan) as [Hlow _].
    cbn [initial_stats min_latency] in H. rewrite H in Hlow |- *.
    apply above_Inf in Hlow. now subst x.
  - intro H. now apply (record_all_max_stays initial_stats L).
Qed.

(** Three samples below zero: the least is reported, the greatest is not. *)
Lemma extremes_witness :
  let s := record_all initial_stats [F (-3); F (-8); F (-5)] in
  In (min_latency s) [F (-3); F (-8); F (-5)]
  /\ max_latency s = F 0.
Proof.
  cbv zeta.
  pose proof (extremes_are_samples_or_zero [F (-3); F (-8); F (-5)]) as H.
  cbv zeta in H. destruct H as (_ & _ & _ & Hmin & Hmax).
  split.
  - apply Hmin. exists (F (-3)). split; [now left|reflexivity].
  - apply Hmax. repeat constructor.
Defined.

(** ** Every schedule of the handler threads *)

(** A step of a thread keeps its sample, and either leaves [latencies] alone
    or is the thread's [append]. *)
Lemma step_latencies (s : Stats) (t : thread) :
  latency (snd (step s t)) = latency t
  /\ ((latencies (fst (step s t)) = latencies s
       /\ appended (snd (step s t)) = appended t)
      \/ (latencies (fst (step s t)) = latencies s ++ [latency t]
          /\ appended t = false
          /\ appended (snd (step s t)) = true)).
Proof.
  unfold step, appended. destruct t as [x p]. cbn [at_pc latency].
  destruct p; cbn [fst snd at_pc latency latencies set_total_requests
                   set_total_latency append_latency set_min_latency
                   set_max_latency];
    split; try reflexivity; try (left; split; reflexivity).
  - right. repeat split.
  - left. split; [reflexivity|]. now destruct (_ <? _)%float.
  - left. split; [reflexivity|]. now destruct (_ <? _)%float.
Qed.

(** A step of a thread changes [total_requests] only when it writes what it
    has read, plus one. *)
Lemma step_total_requests (s : Stats) (t : thread) :
  match at_pc t with
  | ReadRequests =>
      fst (step s t) = s
      /\ at_pc (snd (step s t)) = WriteRequests (total_requests s)
  | WriteRequests seen =>
      total_requests (fst (step s t)) = (seen + 1)%nat
      /\ counted (snd (step s t)) = true
  | _ =>
      total_requests (fst (step s t)) = total_requests s
      /\ counted (snd (step s t)) = true
  end.
Proof.
  unfold step, counted. destruct t as [x p]. cbn [at_pc latency].
  destruct p; cbn [fst snd at_pc latency total_requests set_total_requests
                   set_total_latency append_latency set_min_latency
                   set_max_latency];
    split; try reflexivity.
  - now destruct (_ <? _)%float.
  - now destruct (_ <? _)%float.
Qed.

(** Thread [i] does not exist, or it is the one that moves. *)
Lemma step_thread_cases (i : nat) (s : Stats) (ts : list thread) :
  step_thread i s ts = (s, ts)
  \/ exists before t after,
      ts = before ++ t :: after
      /\ step_thread i s ts
         = (fst (step s t), before ++ snd (step s t) :: after).
Proof.
  revert i. induction ts as [|t ts IH]; intro i.
  - left. now destruct i.
  - destruct i as [|i].
    + right. exists [], t, ts. split; [reflexivity|].
      cbn. now destruct (step s t).
    + destruct (IH i) as [E|(before & u & after & Hts & E)].
      * left. cbn. now rewrite E.
      * right. exists (t :: before), u, after. split.
        -- now rewrite Hts.
        -- cbn. now rewrite E.
Qed.

Lemma samples_appended_app (before after : list thread) (t : thread) :
  samples_appended (before ++ t :: after)
  = samples_appended before
      ++ (if appended t then [latency t] else [])
      ++ samples_appended after.
Proof.
  unfold samples_appended. rewrite filter_app, map_app. cbn.
  now destruct (appended t).
Qed.

Lemma writers_app (before after : list thread) (t : thread) :
  writers (before ++ t :: after)
  = (writers before + (if counted t then 1 else 0) + writers after)%nat.
Proof.
  unfold writers. rewrite filter_app, length_app. cbn.
  destruct (counted t); cbn; lia.
Qed.

Lemma act_keeps_samples {lib : library} (L : list float) (sys : system)
      (a : action) :
  samples_kept L sys -> samples_kept L (act sys a).
Proof.
  intros [Hmap Hperm]. destruct a as [i|]; [|exact (conj Hmap Hperm)].
  unfold samples_kept, act.
  destruct (step_thread_cases i (shared sys) (threads sys))
    as [E|(before & t & after & Hts & E)]; rewrite E;
    cbn [shared threads reports].
  - exact (conj Hmap Hperm).
  - destruct (step_latencies (shared sys) t) as [Hlat Hcases].
    rewrite Hts in Hmap, Hperm. rewrite samples_appended_app in Hperm.
    split.
    + rewrite <- Hmap, !map_app. cbn [map]. now rewrite Hlat.
    + rewrite samples_appended_app, Hlat.
      destruct Hcases as [[El Ea]|(El & Ea & Ea')]; rewrite El.
      * now rewrite Ea.
      * rewrite Ea', Ea in *. cbn in *.
        apply Permutation_trans with (latency t :: latencies (shared sys)).
        -- apply Permutation_sym, Permutation_cons_append.
        -- now apply Permutation_cons_app.
Qed.

Lemma run_keeps_samples {lib : library} (L : list float)
      (schedule : list action) :
  forall sys, samples_kept L sys -> samples_kept L (run sys schedule).
Proof.
  induction schedule as [|a schedule IH]; intros sys H; [exact H|].
  apply IH, act_keeps_samples, H.
Qed.

Lemma all_appended (ts : list thread) :
  forallb has_returned ts = true -> samples_appended ts = map latency ts.
Proof.
  unfold samples_appended. induction ts as [|t ts IH]; [reflexivity|].
  cbn. intro H. apply andb_true_iff in H. destruct H as [Ht Hts].
  unfold has_returned in Ht. unfold appended at 1.
  destruct (at_pc t); try discriminate. cbn. now rewrite IH.
Qed.

(** X3: the handler threads may interleave in any way, the list of samples
    loses none of them: under every schedule of the calls [update_stats l],
    for [l] in [L], on a new dictionary, [latencies] holds at every moment
    the samples of the threads that have passed their [append], in some
    order, and when all calls have returned it is a permutation of [L]. *)
Theorem no_sample_is_lost {lib : library} (L : list float)
        (schedule : list action) :
  let sys := run (concurrent_calls initial_stats L) schedule in
  Permutation (latencies (shared sys)) (samples_appended (threads sys))
  /\ (forallb has_returned (threads sys) = true ->
      Permutation (latencies (shared sys)) L).
Proof.
  cbv zeta.
  assert (H : samples_kept L (run (concurrent_calls initial_stats L)
                                  schedule)).
  { apply run_keeps_samples. split.
    - cbn. rewrite map_map. cbn. apply map_id.
    - cbn. unfold samples_appended.
      replace (filter appended (map calling L)) with (@nil thread);
        [constructor|].
      induction L as [|x L IH]; [reflexivity|exact IH]. }
  destruct H as [Hmap Hperm]. split; [exact Hperm|].
  intro Hall. rewrite (all_appended _ Hall), Hmap in Hperm. exact Hperm.
Qed.

(** Two calls that interleave so that one count is lost: both samples are
    there. *)
Lemma no_sample_is_lost_witness :
  let sys := run (lib := unasked)
                 (concurrent_calls initial_stats [F 5; F 7])
                 ([Run 0; Run 1; Run 0; Run 1]
                    ++ repeat (Run 1) 7 ++ repeat (Run 0) 7) in
  total_requests (shared sys) = 1%nat
  /\ Permutation (latencies (shared sys)) [F 5; F 7].
Proof.
  cbv zeta. split; [reflexivity|].
  exact (proj2 (no_sample_is_lost
                  (lib := unasked)
                  [F 5; F 7]
                  ([Run 0; Run 1; Run 0; Run 1]
                     ++ repeat (Run 1) 7 ++ repeat (Run 0) 7))
               eq_refl).
Defined.

Lemma has_seen_at_most_mono (n m : nat) (t : thread) :
  (n <= m)%nat -> has_seen_at_most n t -> has_seen_at_most m t.
Proof. intros Hnm H seen E. specialize (H seen E). lia. Qed.

Lemma counted_has_seen (n : nat) (t : thread) :
  counted t = true -> has_seen_at_most n t.
Proof.
  unfold counted. intros H seen E. rewrite E in H. discriminate H.
Qed.

Lemma Forall_has_seen_mono (n m : nat) (ts : list thread) :
  (n <= m)%nat ->
  Forall (has_seen_at_most n) ts -> Forall (has_seen_at_most m) ts.
Proof.
  intros Hnm H. eapply Forall_impl; [|exact H].
  intros t Ht. now apply (has_seen_at_most_mono n m).
Qed.

Lemma act_keeps_counter {lib : library} (sys : system) (a : action) :
  counter_bounded sys -> counter_bounded (act sys a).
Proof.
  intros (Hle & Hpos & Hall). destruct a as [i|];
    [|exact (conj Hle (conj Hpos Hall))].
  unfold counter_bounded, act.
  destruct (step_thread_cases i (shared sys) (threads sys))
    as [E|(before & t & after & Hts & E)]; rewrite E;
    cbn [shared threads reports].
  - exact (conj Hle (conj Hpos Hall)).
  - rewrite Hts in Hle, Hpos, Hall. rewrite writers_app in Hle, Hpos, Hall.
    rewrite writers_app.
    apply Forall_app in Hall. destruct Hall as [Hbefore Hrest].
    inversion Hrest as [|? ? Ht Hafter]; subst.
    pose proof (step_total_requests (shared sys) t) as Hstep.
    destruct (at_pc t) as [|seen| | | | | | | |] eqn:Epc.
    1: { (* the read *)
      destruct Hstep as [Hs Hpc]. rewrite Hs.
      assert (Ec : counted t = false) by (unfold counted; now rewrite Epc).
      assert (Ec' : counted (snd (step (shared sys) t)) = false)
        by (unfold counted; now rewrite Hpc).
      rewrite Ec in *. rewrite Ec'.
      split; [exact Hle|]. split; [exact Hpos|].
      apply Forall_app. split; [exact Hbefore|].
      constructor; [|exact Hafter].
      intros seen Eseen. rewrite Hpc in Eseen.
      injection Eseen as <-. exact Hle. }
    1: { (* the write *)
      destruct Hstep as [Htotal Ec'].
      assert (Ec : counted t = false) by (unfold counted; now rewrite Epc).
      specialize (Ht seen Epc).
      rewrite Ec in *. rewrite Ec', Htotal.
      split; [lia|]. split; [lia|].
      apply Forall_app. split.
      - eapply Forall_has_seen_mono; [|exact Hbefore]. lia.
      - constructor.
        + now apply counted_has_seen.
        + eapply Forall_has_seen_mono; [|exact Hafter]. lia. }
    all: destruct Hstep as [Htotal Ec'];
      assert (Ec : counted t = true) by (unfold counted; now rewrite Epc);
      rewrite Ec in *; rewrite Ec', Htotal;
      (split; [exact Hle|]); (split; [exact Hpos|]);
      apply Forall_app; (split; [exact Hbefore|]);
      (constructor; [now apply counted_has_seen|exact Hafter]).
Qed.

Lemma run_keeps_counter {lib : library} (schedule : list action) :
  forall sys, counter_bounded sys -> counter_bounded (run sys schedule).
Proof.
  induction schedule as [|a schedule IH]; intros sys H; [exact H|].
  apply IH, act_keeps_counter, H.
Qed.

Lemma writers_of_new_calls (L : list float) :
  writers (map calling L) = 0%nat.
Proof. induction L as [|x L IH]; [reflexivity|exact IH]. Qed.

Lemma all_are_writers (ts : list thread) :
  forallb has_returned ts = true -> writers ts = length ts.
Proof.
  unfold writers. induction ts as [|t ts IH]; [reflexivity|].
  cbn. intro H. apply andb_true_iff in H. destruct H as [Ht Hts].
  unfold has_returned in Ht. unfold counted at 1.
  destruct (at_pc t); try discriminate. cbn. now rewrite IH.
Qed.

Lemma run_keeps_the_threads {lib : library} (schedule : list action) :
  forall sys, length (threads (run sys schedule)) = length (threads sys).
Proof.
  induction schedule as [|a schedule IH]; intro sys; [reflexivity|].
  cbn [run fold_left]. unfold run in IH. rewrite IH.
  destruct a as [i|]; [|reflexivity]. unfold act.
  destruct (step_thread_cases i (shared sys) (threads sys))
    as [E|(before & t & after & Hts & E)]; rewrite E;
    cbn [threads]; [reflexivity|].
  rewrite Hts, !length_app. reflexivity.
Qed.

(** X4: the counter may lose calls, it never counts too many: under every
    schedule of the calls [update_stats l], for [l] in [L], on a new
    dictionary, [total_requests] is at most the number of threads that have
    written it, and when all calls have returned it is at most [len(L)],
    and at least 1 if there was a call at all. *)
Theorem counter_never_overshoots {lib : library} (L : list float)
        (schedule : list action) :
  let sys := run (concurrent_calls initial_stats L) schedule in
  (total_requests (shared sys) <= writers (threads sys))%nat
  /\ (forallb has_returned (threads sys) = true ->
      (total_requests (shared sys) <= length L)%nat
      /\ (L <> [] -> (1 <= total_requests (shared sys))%nat)).
Proof.
  cbv zeta.
  assert (H : counter_bounded (run (concurrent_calls initial_stats L)
                                   schedule)).
  { apply run_keeps_counter. unfold counter_bounded, concurrent_calls.
    cbn [shared threads initial_stats total_requests].
    rewrite writers_of_new_calls. split; [lia|]. split; [lia|].
    induction L as [|x L IH]; constructor; [|exact IH].
    intros seen E. discriminate E. }
  destruct H as (Hle & Hpos & _). split; [exact Hle|].
  intro Hall. rewrite (all_are_writers _ Hall) in Hle, Hpos.
  rewrite run_keeps_the_threads in Hle, Hpos. cbn in Hle, Hpos.
  rewrite length_map in Hle, Hpos. split; [exact Hle|].
  intro Hne. apply Hpos. destruct L; [congruence|cbn; lia].
Qed.

(** Three calls of which two counts are lost. *)
Lemma counter_witness :
  let sys := run (lib := unasked)
                 (concurrent_calls initial_stats [F 5; F 7; F 9])
                 ([Run 0; Run 1; Run 2]
                    ++ repeat (Run 0) 8 ++ repeat (Run 1) 8
                    ++ repeat (Run 2) 8) in
  total_requests (shared sys) = 1%nat
  /\ (total_requests (shared sys) <= 3)%nat.
Proof.
  cbv zeta. split; [reflexivity|].
  exact (proj1 (proj2 (counter_never_overshoots
                         (lib := unasked)
                         [F 5; F 7; F 9]
                         ([Run 0; Run 1; Run 2]
                            ++ repeat (Run 0) 8 ++ repeat (Run 1) 8
                            ++ repeat (Run 2) 8))
                      eq_refl)).
Defined.

(** ** The handler, whatever the peer sends *)

Lemma stop_runs (self : server) :
  stop self = (Ok tt, stopped self, [Log server_stopped]).
Proof.
  unfold stopped, stop, bind, modify, read, ret, emit. cbn.
  destruct (server_socket self); reflexivity.
Qed.

Lemma stopped_fields (self : server) :
  stats (stopped self) = stats self
  /\ host (stopped self) = host self
  /\ port (stopped self) = port self
  /\ running (stopped self) = false.
Proof.
  unfold stopped, stop, bind, modify, read, ret, emit. cbn.
  destruct (server_socket self); repeat split.
Qed.

(** What [statistics] raises is what the library raises, or the
    [TypeError] of a value that is not a number. *)
Lemma mean_raises {lib : library} (data : list json) (e : exn) :
  statistics.mean data = Throws e -> raised_by_statistics e = true.
Proof.
  unfold statistics.mean. intro H.
  assert (Hlib : lib_mean data = Throws e -> raised_by_statistics e = true)
    by (intro E; apply (lib_raises data); now left).
  destruct data as [|x [|y rest]]; try (apply Hlib, H).
  destruct (as_number x) as [[z|f]|]; try discriminate H.
  injection H as <-. reflexivity.
Qed.

Lemma median_raises {lib : library} (data : list json) (e : exn) :
  statistics.median data = Throws e -> raised_by_statistics e = true.
Proof.
  unfold statistics.median. intro H.
  assert (Hlib : lib_median data = Throws e -> raised_by_statistics e = true)
    by (intro E; apply (lib_raises data); right; now left).
  destruct data as [|x [|y rest]]; try (apply Hlib, H).
  discriminate H.
Qed.

Lemma stdev_raises {lib : library} (data : list json) (e : exn) :
  statistics.stdev data = Throws e -> raised_by_statistics e = true.
Proof.
  unfold statistics.stdev. intro H. apply (lib_raises data). right. now right.
Qed.

Lemma get_stats_raises {lib : library} (s : Stats) (e : exn) :
  get_stats s = Throws e -> raised_by_statistics e = true.
Proof.
  unfold get_stats. destruct (latencies s) as [|x l]; [discriminate|].
  destruct (statistics.mean _) eqn:Hmean.
  2: { intro H. injection H as <-. exact (mean_raises _ _ Hmean). }
  destruct (statistics.median _) eqn:Hmedian.
  2: { intro H. injection H as <-. exact (median_raises _ _ Hmedian). }
  destruct (1 <? _)%nat.
  - destruct (statistics.stdev _) eqn:Hstdev; [discriminate|].
    intro H. injection H as <-. exact (stdev_raises _ _ Hstdev).
  - discriminate.
Qed.

Lemma raised_by_statistics_is_Exception (e : exn) :
  raised_by_statistics e = true ->
  is_Exception e = true /\ e <> JSONDecodeError.
Proof. destruct e; cbn; intro H; try discriminate H; now split. Qed.

(** A stats request: what [get_stats] returns is sent, and what it raises
    leaves the turn, since it is no [JSONDecodeError]. *)
Lemma turn_stats {lib : library} (c : nat) (e : exchange) (self : server)
      (d : list (string * json)) :
  received e = Done (Text (JObj d)) ->
  is_str (dict_get d "type" (JStr "ping")) "ping" = false ->
  is_str (dict_get d "type" (JStr "ping")) "stats" = true ->
  turn c e self
  = match get_stats (stats self) with
    | Gives report =>
        match sent e with
        | Done _ => (Ok true, self, [Send c (StatsResponse report)])
        | Failed => (Raise socket_error, self, [])
        end
    | Throws x => (Raise x, self, [])
    end.
Proof.
  intros Hrecv Hping Hstats. run_method.
  rewrite Hrecv. cbn. rewrite Hping, Hstats. cbn.
  destruct (get_stats (stats self)) as [report|x] eqn:Hget; cbn.
  - destruct (sent e) as [[]|]; reflexivity.
  - destruct (raised_by_statistics_is_Exception
                x (get_stats_raises _ _ Hget)) as [_ Hx].
    destruct x; try reflexivity. now destruct Hx.
Qed.

(** One turn records at most one sample, does not end in
    [KeyboardInterrupt] and only prints and sends. *)
Lemma turn_shape {lib : library} (c : nat) (e : exchange) (self : server) :
  (object_after (turn c e self) = self
   \/ exists x, object_after (turn c e self) = recorded self x)
  /\ match outcome (turn c e self) with
     | Ok _ => True
     | Raise x => is_Exception x = true
     | Pending => False
     end
  /\ Forall in_the_loop (output (turn c e self)).
Proof.
  destruct (received e) as [[| | | |v]|] eqn:Hrecv.
  1-4, 6: unfold object_after, outcome, output; run_method; rewrite Hrecv;
    cbn; (split; [left; reflexivity|]);
    (split; [reflexivity|repeat constructor]).
  destruct v as [| | | | | |d].
  1-6: unfold object_after, outcome, output; run_method; rewrite Hrecv;
    cbn; (split; [left; reflexivity|]);
    (split; [reflexivity|repeat constructor]).
  destruct (is_str (dict_get d "type" (JStr "ping")) "ping") eqn:Hping.
  - destruct (as_number (dict_get d "timestamp" (JNum (time_default e))))
      as [n|] eqn:Htime.
    + destruct (to_float n) as [t|] eqn:Hfloat.
      * rewrite (turn_ping c e self d n t Hrecv Hping Htime Hfloat).
        cbv zeta. unfold object_after, outcome, output.
        destruct (sent e) as [[]|]; cbn.
        all: split; [right; eexists; reflexivity|].
        all: split; [reflexivity|repeat constructor].
      * unfold object_after, outcome, output. run_method. rewrite Hrecv.
        cbn. rewrite Hping. cbn. rewrite Htime, Hfloat. cbn.
        split; [left; reflexivity|].
        split; [reflexivity|repeat constructor].
    + unfold object_after, outcome, output. run_method. rewrite Hrecv.
      cbn. rewrite Hping. cbn. rewrite Htime. cbn.
      split; [left; reflexivity|].
      split; [reflexivity|repeat constructor].
  - destruct (is_str (dict_get d "type" (JStr "ping")) "stats") eqn:Hstats.
    + rewrite (turn_stats c e self d Hrecv Hping Hstats).
      unfold object_after, outcome, output.
      destruct (get_stats (stats self)) as [report|x] eqn:Hget.
      * destruct (sent e) as [[]|]; cbn.
        all: split; [left; reflexivity|].
        all: split; [reflexivity|repeat constructor].
      * cbn. split; [left; reflexivity|].
        split; [|constructor].
        apply (raised_by_statistics_is_Exception
                 x (get_stats_raises _ _ Hget)).
    + unfold object_after, outcome, output. run_method. rewrite Hrecv.
      cbn. rewrite Hping, Hstats. cbn.
      split; [left; reflexivity|].
      split; [reflexivity|repeat constructor].
Qed.

Lemma serve_round {lib : library} (c : nat) (e : exchange)
      (rest : list event) (self : server) :
  serve c (Round e :: rest) self
  = if running self
    then match turn c e self with
         | (Ok true, s1, out1) =>
             (outcome (serve c rest s1), object_after (serve c rest s1),
              out1 ++ output (serve c rest s1))
         | (Ok false, s1, out1) => (Ok tt, s1, out1 ++ [])
         | (Raise x, s1, out1) => (Raise x, s1, out1)
         | (Pending, s1, out1) => (Pending, s1, out1)
         end
    else (Ok tt, self, []).
Proof.
  cbn [serve]. unfold bind at 1. unfold read at 1.
  destruct (running self); [|reflexivity].
  unfold bind at 1.
  destruct (turn c e self) as [[[[|]|x|] s1] out1]; try reflexivity.
  - unfold outcome, object_after, output.
    destruct (serve c rest s1) as [[r s2] out2]. reflexivity.
Qed.

Lemma serve_stop {lib : library} (c : nat) (rest : list event)
      (self : server) :
  serve c (Stop :: rest) self
  = (outcome (serve c rest (stopped self)),
     object_after (serve c rest (stopped self)),
     Log server_stopped :: output (serve c rest (stopped self))).
Proof.
  cbn [serve]. unfold bind at 1. rewrite stop_runs.
  unfold outcome, object_after, output.
  destruct (serve c rest (stopped self)) as [[r s2] out2]. reflexivity.
Qed.

(** The loop of the handler, for every behaviour of the peer and of the
    thread that stops the server. *)
Lemma serve_shape {lib : library} (c : nat) (events : list event) :
  forall self,
    (exists added,
        same_stats_but added self (object_after (serve c events self))
        /\ (length added <= length events)%nat)
    /\ no_interrupt (outcome (serve c events self))
    /\ Forall in_the_loop (output (serve c events self)).
Proof.
  induction events as [|[|e] rest IH]; intro self.
  - cbn [serve]. unfold bind, read, pending, ret, object_after, outcome,
      output.
    destruct (running self); cbn.
    all: split; [exists []; repeat split; cbn; lia|].
    all: split; [exact I|constructor].
  - rewrite serve_stop. unfold object_after at 1, outcome at 1, output at 1.
    cbn [fst snd].
    destruct (IH (stopped self)) as ((added & (Hs & Hh & Hp) & Hlen) & Hno
                                     & Hout).
    destruct (stopped_fields self) as (Es & Eh & Ep & _).
    split; [|split; [exact Hno|constructor; [exact I|exact Hout]]].
    exists added. split; [|cbn; lia].
    unfold same_stats_but. rewrite Hs, Hh, Hp, Es, Eh, Ep. repeat split.
  - rewrite serve_round.
    destruct (running self).
    2: { unfold object_after, outcome, output. cbn.
         split; [exists []; repeat split; cbn; lia|].
         split; [exact I|constructor]. }
    destruct (turn_shape c e self) as (Hobj & Hres & Hout).
    unfold object_after, outcome, output in Hobj, Hres, Hout.
    destruct (turn c e self) as [[r s1] out1]. cbn [fst snd] in *.
    assert (Hs1 : exists one, same_stats_but one self s1
                              /\ (length one <= 1)%nat).
    { destruct Hobj as [->|[x ->]].
      - exists []. repeat split. cbn. lia.
      - exists [x]. repeat split. cbn. lia. }
    destruct Hs1 as (one & (Hs & Hh & Hp) & Hone).
    destruct r as [[|]|x|].
    + destruct (IH s1) as ((added & (Hs' & Hh' & Hp') & Hlen) & Hno & Hout').
      unfold object_after at 1, outcome at 1, output at 1. cbn [fst snd].
      split; [|split; [exact Hno|now apply Forall_app]].
      exists (one ++ added). split.
      * unfold same_stats_but.
        rewrite Hs', Hh', Hp', Hs, Hh, Hp, record_all_app. repeat split.
      * rewrite length_app. cbn. lia.
    + unfold object_after, outcome, output. cbn [fst snd].
      split; [|split; [exact I|now rewrite app_nil_r]].
      exists one. split; [repeat split; assumption|cbn; lia].
    + unfold object_after, outcome, output. cbn [fst snd].
      split; [|split; [exact Hres|exact Hout]].
      exists one. split; [repeat split; assumption|cbn; lia].
    + destruct Hres.
Qed.

(** [handle_client] in terms of its loop. *)
Lemma handle_client_serve {lib : library} (c : nat) (events : list event)
      (self : server) :
  handle_client c events self
  = match serve c events self with
    | (Ok _, after, out) =>
        (Ok tt, after,
         out ++ [CloseClient c; Log (client_disconnected c)])
    | (Raise x, after, out) =>
        if is_Exception x
        then (Ok tt, after,
              (out ++ [Log (handler_error x)])
                ++ [CloseClient c; Log (client_disconnected c)])
        else (Raise x, after,
              out ++ [CloseClient c; Log (client_disconnected c)])
    | (Pending, after, out) => (Pending, after, out)
    end.
Proof.
  unfold handle_client, try_finally, try_except, bind, emit.
  destruct (serve c events self) as [[[[]|x|] after] out]; cbn;
    try reflexivity.
  destruct (is_Exception x); reflexivity.
Qed.

(** X5: a handler never raises, and it closes its connection exactly once:
    for every behaviour of the peer, [handle_client] either is still
    waiting in [recv], and then it has not closed the connection, or it has
    returned, and then the last things it did were to close the connection
    and to print the disconnection, everything before being lines and
    responses. *)
Theorem handler_closes_the_connection_once
        {lib : library} (c : nat) (events : list event) (self : server) :
  let res := handle_client c events self in
  (outcome res = Pending /\ Forall in_the_loop (output res))
  \/ (outcome res = Ok tt
      /\ exists before,
          output res
          = before ++ [CloseClient c; Log (client_disconnected c)]
          /\ Forall in_the_loop before).
Proof.
  cbv zeta. rewrite handle_client_serve.
  destruct (serve_shape c events self) as (_ & Hno & Hout).
  unfold outcome, output in *.
  destruct (serve c events self) as [[[[]|x|] after] out]; cbn in *.
  - right. split; [reflexivity|]. now exists out.
  - rewrite Hno. cbn. right. split; [reflexivity|].
    exists (out ++ [Log (handler_error x)]). split; [reflexivity|].
    apply Forall_app. split; [exact Hout|]. repeat constructor.
  - left. now split.
Qed.

Lemma handle_client_object {lib : library} (c : nat) (events : list event)
      (self : server) :
  object_after (handle_client c events self)
  = object_after (serve c events self).
Proof.
  rewrite handle_client_serve. unfold object_after.
  destruct (serve c events self) as [[[[]|x|] after] out]; cbn;
    try reflexivity.
  destruct (is_Exception x); reflexivity.
Qed.

(** X6: whatever the peer sends and however the connection ends, the
    handler changes [self.stats] only by [update_stats]: the dictionary
    afterwards is the one before with some samples recorded, at most one
    for each turn of the loop; [latencies] has grown by exactly these
    samples and [total_requests] by their number.  So [total_requests =
    len(latencies)] holds afterwards if it held before, and so do the
    bounds on the samples that are not NaN: a NaN sample (the timestamp
    [NaN]) is counted and appended and leaves [min_latency] and
    [max_latency], which are never NaN, as they are. *)
Theorem handler_only_records_samples
        {lib : library} (c : nat) (events : list event) (self : server) :
  let after := object_after (handle_client c events self) in
  (exists added,
      stats after = record_all (stats self) added
      /\ latencies (stats after) = latencies (stats self) ++ added
      /\ total_requests (stats after)
         = (total_requests (stats self) + length added)%nat
      /\ (length added <= length events)%nat)
  /\ (total_requests (stats self) = length (latencies (stats self)) ->
      total_requests (stats after) = length (latencies (stats after)))
  /\ (bounded (stats self) -> bounded (stats after)).
Proof.
  cbv zeta. rewrite handle_client_object.
  destruct (serve_shape c events self)
    as ((added & (Hs & _ & _) & Hlen) & _ & _).
  rewrite Hs. split; [|split].
  - exists added. split; [reflexivity|].
    split; [apply record_all_latencies|].
    split; [apply record_all_total_requests|exact Hlen].
  - intro H.
    rewrite record_all_total_requests, record_all_latencies, length_app.
    lia.
  - apply record_all_bounded.
Qed.

(** The invariant carried across a connection with a ping, a stats
    request, text that is not JSON and a ping whose timestamp is NaN. *)
Lemma handler_only_records_samples_witness :
  let self := set_running true (init "0.0.0.0" 8888%N) in
  let events :=
    [Round (mkExchange
              (Done (Text (JObj [("type"%string, JStr "ping");
                                 ("timestamp"%string, JNum (F 9))])))
              (F 10) (F 10) "2024-01-01T00:00:10" (Done tt));
     Round (mkExchange
              (Done (Text (JObj [("type"%string, JStr "stats")])))
              (F 11) (F 11) "2024-01-01T00:00:11" (Done tt));
     Round (mkExchange (Done InvalidJson) (F 12) (F 12)
                       "2024-01-01T00:00:12" (Done tt));
     Round (mkExchange
              (Done (Text (JObj [("type"%string, JStr "ping");
                                 ("timestamp"%string, JNum NaN)])))
              (F 13) (F 13) "2024-01-01T00:00:13" (Done tt))] in
  let after :=
    object_after (handle_client (lib := unasked) 1 events self) in
  stats after = mkStats 2 NaN (F 1000) (F 1000) [F 1000; NaN]
  /\ total_requests (stats after) = length (latencies (stats after))
  /\ bounded (stats after).
Proof.
  cbv zeta. split; [vm_compute; reflexivity|].
  split.
  - exact (proj1 (proj2 (handler_only_records_samples
                           (lib := unasked) 1 _
                           (set_running true (init "0.0.0.0" 8888%N))))
                 eq_refl).
  - exact (proj2 (proj2 (handler_only_records_samples
                           (lib := unasked) 1 _
                           (set_running true (init "0.0.0.0" 8888%N))))
                 initial_stats_bounded).
Defined.

(** A turn that raises ends the handler: the exception is printed, the
    connection is closed and the rest of the events is not looked at. *)
Lemma handle_client_raises {lib : library} (c : nat) (e : exchange)
      (rest : list event) (self after : server) (x : exn)
      (out : list effect) :
  running self = true ->
  turn c e self = (Raise x, after, out) ->
  is_Exception x = true ->
  handle_client c (Round e :: rest) self
  = (Ok tt, after,
     (out ++ [Log (handler_error x)])
       ++ [CloseClient c; Log (client_disconnected c)]).
Proof.
  intros Hrun Hturn Hx.
  rewrite handle_client_serve, serve_round, Hrun, Hturn, Hx. reflexivity.
Qed.

(** X7: a request whose type is neither "ping" nor "stats" is dropped
    without a word: nothing is sent, nothing is printed, nothing is
    recorded, and the handler goes on to its next [recv]. *)
Theorem unknown_request_type_is_ignored
        {lib : library} (c : nat) (e : exchange) (self : server)
        (d : list (string * json)) :
  received e = Done (Text (JObj d)) ->
  is_str (dict_get d "type" (JStr "ping")) "ping" = false ->
  is_str (dict_get d "type" (JStr "ping")) "stats" = false ->
  turn c e self = (Ok true, self, []).
Proof.
  intros Hrecv Hping Hstats. run_method.
  rewrite Hrecv. cbn. rewrite Hping, Hstats. reflexivity.
Qed.

(** The request [{"type": "pong"}]. *)
Lemma unknown_request_type_witness :
  let self := set_running true (init "0.0.0.0" 8888%N) in
  turn (lib := unasked) 1
       (mkExchange (Done (Text (JObj [("type"%string, JStr "pong")])))
                   (F 10) (F 10) "2024-01-01T00:00:10" (Done tt))
       self
  = (Ok true, self, []).
Proof.
  cbv zeta.
  exact (unknown_request_type_is_ignored
           (lib := unasked) 1
           (mkExchange (Done (Text (JObj [("type"%string, JStr "pong")])))
                       (F 10) (F 10) "2024-01-01T00:00:10" (Done tt))
           (set_running true (init "0.0.0.0" 8888%N))
           [("type"%string, JStr "pong")] eq_refl eq_refl eq_refl).
Defined.

(** X8: JSON of the wrong shape ends the connection.  A payload that
    decodes to a value that is not a dict (a list, a number, a string,
    [null]) raises [AttributeError] at [request.get], and a ping whose
    timestamp is not a number raises [TypeError] at the subtraction; neither
    is caught by the inner [except], so the handler prints the error and
    closes the connection, with [self.stats] as it was. *)
Theorem json_of_the_wrong_shape_ends_the_connection
        {lib : library} (c : nat) (e : exchange) (rest : list event)
        (self : server) :
  running self = true ->
  (forall v,
      received e = Done (Text v) ->
      is_dict v = false ->
      handle_client c (Round e :: rest) self
      = (Ok tt, self,
         [Log (handler_error AttributeError);
          CloseClient c; Log (client_disconnected c)]))
  /\ (forall d,
         received e = Done (Text (JObj d)) ->
         is_str (dict_get d "type" (JStr "ping")) "ping" = true ->
         as_number (dict_get d "timestamp" (JNum (time_default e))) = None ->
         handle_client c (Round e :: rest) self
         = (Ok tt, self,
            [Log (handler_error TypeError);
             CloseClient c; Log (client_disconnected c)])).
Proof.
  intro Hrun. split.
  - intros v Hrecv Hv.
    apply (handle_client_raises c e rest self self AttributeError []);
      [exact Hrun| |reflexivity].
    run_method. rewrite Hrecv. destruct v; try discriminate Hv; reflexivity.
  - intros d Hrecv Htype Htime.
    apply (handle_client_raises c e rest self self TypeError []);
      [exact Hrun| |reflexivity].
    run_method. rewrite Hrecv. cbn. rewrite Htype. cbn. rewrite Htime.
    reflexivity.
Qed.

(** The payloads [[1, 2]] and [{"timestamp": "now"}]. *)
Lemma json_of_the_wrong_shape_witness :
  let self := set_running true (init "0.0.0.0" 8888%N) in
  handle_client (lib := unasked)
    1 [Round (mkExchange (Done (Text (JArr [JInt 1; JInt 2])))
                         (F 10) (F 10) "2024-01-01T00:00:10" (Done tt))] self
  = (Ok tt, self,
     [Log (handler_error AttributeError);
      CloseClient 1; Log (client_disconnected 1)])
  /\ handle_client (lib := unasked)
       1 [Round (mkExchange
                   (Done (Text (JObj [("timestamp"%string, JStr "now")])))
                   (F 10) (F 10) "2024-01-01T00:00:10" (Done tt))] self
     = (Ok tt, self,
        [Log (handler_error TypeError);
         CloseClient 1; Log (client_disconnected 1)]).
Proof.
  cbv zeta. split.
  - exact (proj1 (json_of_the_wrong_shape_ends_the_connection
                    (lib := unasked) 1
                    (mkExchange (Done (Text (JArr [JInt 1; JInt 2])))
                                (F 10) (F 10) "2024-01-01T00:00:10" (Done tt))
                    [] (set_running true (init "0.0.0.0" 8888%N)) eq_refl)
                 (JArr [JInt 1; JInt 2]) eq_refl eq_refl).
  - exact (proj2 (json_of_the_wrong_shape_ends_the_connection
                    (lib := unasked) 1
                    (mkExchange
                       (Done (Text (JObj [("timestamp"%string,
                                           JStr "now")])))
                       (F 10) (F 10) "2024-01-01T00:00:10" (Done tt))
                    [] (set_running true (init "0.0.0.0" 8888%N)) eq_refl)
                 [("timestamp"%string, JStr "now")]
                 eq_refl eq_refl eq_refl).
Defined.

(** X9: the sample of a ping is recorded before the reply is sent.  For a
    ping whose timestamp is a number that is the float [t] in the
    subtraction (a float, a bool, or an int that converts to float): when
    [send] fails, the handler prints the error and closes the connection,
    and the sample [(current_time - t) * 1000] stays in [self.stats]: it is
    the last of [latencies], and [total_requests] has grown by one. *)
Theorem sample_is_recorded_when_the_reply_fails
        {lib : library} (c : nat) (e : exchange) (rest : list event)
        (self : server) (d : list (string * json)) (n : number) (t : float) :
  running self = true ->
  received e = Done (Text (JObj d)) ->
  is_str (dict_get d "type" (JStr "ping")) "ping" = true ->
  as_number (dict_get d "timestamp" (JNum (time_default e))) = Some n ->
  to_float n = Some t ->
  sent e = Failed ->
  let latency := ((time_current e - t) * F 1000)%float in
  let res := handle_client c (Round e :: rest) self in
  outcome res = Ok tt
  /\ output res
     = [Log (handler_error socket_error);
        CloseClient c; Log (client_disconnected c)]
  /\ stats (object_after res) = update_stats (stats self) latency
  /\ latencies (stats (object_after res))
     = latencies (stats self) ++ [latency]
  /\ total_requests (stats (object_after res))
     = (total_requests (stats self) + 1)%nat
  /\ running (object_after res) = true.
Proof.
  intros Hrun Hrecv Htype Htime Hfloat Hsent. cbv zeta.
  rewrite (handle_client_raises
             c e rest self
             (recorded self ((time_current e - t) * F 1000)%float)
             socket_error [] Hrun).
  - unfold outcome, output, object_after. cbn [fst snd app].
    destruct (recorded_fields self ((time_current e - t) * F 1000)%float)
      as (H1 & H2 & _ & _ & _ & _ & H7).
    split; [reflexivity|]. split; [reflexivity|]. split; [reflexivity|].
    split; [exact H2|]. split; [exact H1|]. now rewrite H7.
  - rewrite (turn_ping c e self d n t Hrecv Htype Htime Hfloat). cbv zeta.
    now rewrite Hsent.
  - reflexivity.
Qed.

Lemma reply_fails_witness :
  let self := set_running true (init "0.0.0.0" 8888%N) in
  let res :=
    handle_client (lib := unasked)
      1 [Round (mkExchange
                  (Done (Text (JObj [("timestamp"%string, JInt 9)])))
                  (F 10) (F 10) "2024-01-01T00:00:10" Failed)] self in
  outcome res = Ok tt
  /\ output res
     = [Log (handler_error socket_error);
        CloseClient 1; Log (client_disconnected 1)]
  /\ stats (object_after res)
     = update_stats initial_stats ((F 10 - F 9) * F 1000)%float
  /\ latencies (stats (object_after res)) = [] ++ [F 1000]
  /\ total_requests (stats (object_after res)) = 1%nat
  /\ running (object_after res) = true.
Proof.
  cbv zeta.
  exact (sample_is_recorded_when_the_reply_fails
           (lib := unasked) 1
           (mkExchange (Done (Text (JObj [("timestamp"%string, JInt 9)])))
                       (F 10) (F 10) "2024-01-01T00:00:10" Failed)
           [] (set_running true (init "0.0.0.0" 8888%N))
           [("timestamp"%string, JInt 9)] (Int 9) (F 9)
           eq_refl eq_refl eq_refl eq_refl eq_refl eq_refl).
Defined.

(** X10: the two ways in which the peer ends a connection.  An empty read
    is the peer's disconnection: the handler leaves its loop and closes the
    connection without printing an error.  A [recv] that raises is printed
    as an error before the connection is closed.  In both cases
    [self.stats] is as it was. *)
Theorem end_of_connection
        {lib : library} (c : nat) (e : exchange) (rest : list event)
        (self : server) :
  running self = true ->
  (received e = Done Empty ->
   handle_client c (Round e :: rest) self
   = (Ok tt, self, [CloseClient c; Log (client_disconnected c)]))
  /\ (received e = Failed ->
      handle_client c (Round e :: rest) self
      = (Ok tt, self,
         [Log (handler_error socket_error);
          CloseClient c; Log (client_disconnected c)])).
Proof.
  intro Hrun. split; intro Hrecv.
  - rewrite handle_client_serve, serve_round, Hrun.
    run_method. rewrite Hrecv. reflexivity.
  - apply (handle_client_raises c e rest self self socket_error []);
      [exact Hrun| |reflexivity].
    run_method. now rewrite Hrecv.
Qed.

Lemma end_of_connection_witness :
  let self := set_running true (init "0.0.0.0" 8888%N) in
  handle_client (lib := unasked)
    1 [Round (mkExchange (Done Empty) (F 10) (F 10) "2024-01-01T00:00:10"
                         (Done tt));
       Round (mkExchange
                (Done (Text (JObj [("timestamp"%string, JNum (F 9))])))
                (F 10) (F 10) "2024-01-01T00:00:10" (Done tt))]
    self
  = (Ok tt, self, [CloseClient 1; Log (client_disconnected 1)]).
Proof.
  cbv zeta.
  exact (proj1 (end_of_connection
                  (lib := unasked) 1
                  (mkExchange (Done Empty) (F 10) (F 10)
                              "2024-01-01T00:00:10" (Done tt))
                  [Round (mkExchange
                            (Done (Text (JObj [("timestamp"%string,
                                                JNum (F 9))])))
                            (F 10) (F 10) "2024-01-01T00:00:10" (Done tt))]
                  (set_running true (init "0.0.0.0" 8888%N)) eq_refl)
               eq_refl).
Defined.

(** A run of answered pings at the head of a connection. *)
Lemma serve_pings {lib : library} (c : nat) (rest : list event)
      (pings : list exchange) (xs : list float) :
  Forall2 answers_ping pings xs ->
  forall self,
    running self = true ->
    serve c (map Round pings ++ rest) self
    = (outcome (serve c rest (set_stats (record_all (stats self) xs) self)),
       object_after
         (serve c rest (set_stats (record_all (stats self) xs) self)),
       replies c pings xs
         ++ output (serve c rest
                          (set_stats (record_all (stats self) xs) self))).
Proof.
  induction 1 as [|e x pings xs
                    (d & n & t & Hrecv & Htype & Htime & Hfloat & Hsent & Hx)
                    _ IH]; intros self Hrun.
  - cbn [map app record_all fold_left replies combine flat_map].
    replace (set_stats (stats self) self) with self by now destruct self.
    unfold outcome, object_after, output.
    now destruct (serve c rest self) as [[r s] out].
  - cbn [map app]. rewrite serve_round, Hrun.
    rewrite (turn_ping c e self d n t Hrecv Htype Htime Hfloat). cbv zeta.
    rewrite Hsent, <- Hx. rewrite (IH (recorded self x) Hrun).
    unfold outcome, object_after, output. cbn [fst snd].
    reflexivity.
Qed.

(** X11: pings and a stats request on one connection.  After the pings
    [pings], all answered (their timestamps numbers that convert to float),
    with latencies [xs], the dictionary is the one in which exactly [xs]
    have been recorded: [total_requests] has grown by the number of pings
    and [latencies] by [xs].  A stats request on the same connection calls
    [get_stats] on it.  When [get_stats] returns, its report, which holds
    that dictionary, is sent and the handler waits for the next message.
    When [get_stats] raises (as [statistics.stdev] does with
    [OverflowError] on samples whose variance leaves the float range),
    nothing is sent: the handler prints the error and closes the
    connection. *)
Theorem pings_then_stats
        {lib : library} (c : nat) (pings : list exchange) (xs : list float)
        (query : exchange) (d : list (string * json)) (self : server) :
  running self = true ->
  Forall2 answers_ping pings xs ->
  received query = Done (Text (JObj d)) ->
  dict_get d "type" (JStr "ping") = JStr "stats" ->
  sent query = Done tt ->
  let recorded_stats := record_all (stats self) xs in
  total_requests recorded_stats
  = (total_requests (stats self) + length pings)%nat
  /\ latencies recorded_stats = latencies (stats self) ++ xs
  /\ (forall report,
         get_stats recorded_stats = Gives report ->
         handle_client c (map Round pings ++ [Round query]) self
         = (Pending, set_stats recorded_stats self,
            replies c pings xs ++ [Send c (StatsResponse report)])
         /\ copied report = recorded_stats)
  /\ (forall x,
         get_stats recorded_stats = Throws x ->
         handle_client c (map Round pings ++ [Round query]) self
         = (Ok tt, set_stats recorded_stats self,
            replies c pings xs
              ++ [Log (handler_error x);
                  CloseClient c; Log (client_disconnected c)])).
Proof.
  intros Hrun Hpings Hrecv Htype Hsent. cbv zeta.
  assert (Hturn :
            turn c query (set_stats (record_all (stats self) xs) self)
            = match get_stats (record_all (stats self) xs) with
              | Gives report =>
                  (Ok true, set_stats (record_all (stats self) xs) self,
                   [Send c (StatsResponse report)])
              | Throws x =>
                  (Raise x, set_stats (record_all (stats self) xs) self, [])
              end).
  { rewrite (turn_stats c query _ d Hrecv); [|now rewrite Htype..].
    cbn [set_stats stats]. now rewrite Hsent. }
  split; [|split; [|split]].
  - rewrite record_all_total_requests. now rewrite (Forall2_length Hpings).
  - apply record_all_latencies.
  - intros report Hget. split; [|exact (get_stats_copied _ _ Hget)].
    rewrite handle_client_serve, (serve_pings c _ pings xs Hpings self Hrun).
    rewrite serve_round.
    cbn [set_stats running]. rewrite Hrun, Hturn, Hget.
    unfold outcome, object_after, output. cbn. rewrite Hrun. cbn.
    reflexivity.
  - intros x Hget.
    destruct (raised_by_statistics_is_Exception
                x (get_stats_raises _ _ Hget)) as [Hx _].
    rewrite handle_client_serve, (serve_pings c _ pings xs Hpings self Hrun).
    rewrite serve_round.
    cbn [set_stats running]. rewrite Hrun, Hturn, Hget.
    unfold outcome, object_after, output. cbn [fst snd]. rewrite Hx.
    rewrite app_nil_r, <- app_assoc. reflexivity.
Qed.

(** Two pings and a stats request; the library computes the mean, the
    median and the standard deviation of 1000.0 and 2000.0. *)
Lemma pings_then_stats_witness :
  let ping t now :=
    mkExchange (Done (Text (JObj [("type"%string, JStr "ping");
                                  ("timestamp"%string, JNum (F t))])))
               (F now) (F now) "2024-01-01T00:00:10" (Done tt) in
  let query :=
    mkExchange (Done (Text (JObj [("type"%string, JStr "stats")])))
               (F 30) (F 30) "2024-01-01T00:00:30" (Done tt) in
  let self := set_running true (init "0.0.0.0" 8888%N) in
  let xs := [F 1000; F 2000] in
  let std := JNum (S754_finite false 6219777023950950 (-43)) in
  handle_client (lib := answering (JNum (F 1500)) (JNum (F 1500)) std)
                1 (map Round [ping 9 10; ping 18 20]%Z ++ [Round query]) self
  = (Pending, set_stats (record_all (stats self) xs) self,
     replies 1 [ping 9 10; ping 18 20]%Z xs
       ++ [Send 1 (StatsResponse
                     (mkReport (mkStats 2 (F 3000) (F 1000) (F 2000) xs)
                               (JNum (F 1500)) (JNum (F 1500)) std))]).
Proof.
  cbv zeta.
  assert (H : Forall2
                answers_ping
                [mkExchange
                   (Done (Text (JObj [("type"%string, JStr "ping");
                                      ("timestamp"%string, JNum (F 9))])))
                   (F 10) (F 10) "2024-01-01T00:00:10" (Done tt);
                 mkExchange
                   (Done (Text (JObj [("type"%string, JStr "ping");
                                      ("timestamp"%string, JNum (F 18))])))
                   (F 20) (F 20) "2024-01-01T00:00:10" (Done tt)]
                [F 1000; F 2000]).
  { constructor; [|constructor; [|constructor]].
    - exists [("type"%string, JStr "ping");
              ("timestamp"%string, JNum (F 9))], (Float (F 9)), (F 9).
      repeat split.
    - exists [("type"%string, JStr "ping");
              ("timestamp"%string, JNum (F 18))], (Float (F 18)), (F 18).
      repeat split. }
  exact (proj1 (proj1 (proj2 (proj2
                  (pings_then_stats
                     (lib := answering (JNum (F 1500)) (JNum (F 1500))
                                       (JNum (S754_finite
                                                false 6219777023950950
                                                (-43))))
                     1 _ _
                     (mkExchange
                        (Done (Text (JObj [("type"%string, JStr "stats")])))
                        (F 30) (F 30) "2024-01-01T00:00:30" (Done tt))
                     [("type"%string, JStr "stats")]
                     (set_running true (init "0.0.0.0" 8888%N))
                     eq_refl H eq_refl eq_refl eq_refl)))
                 _ eq_refl)).
Defined.

(** The same connection when the samples are 1.5e308 and -1.5e308 and
    [statistics.stdev] raises [OverflowError]: the stats request closes the
    connection. *)
Example stats_request_fails :
  let ping t :=
    mkExchange (Done (Text (JObj [("type"%string, JStr "ping");
                                  ("timestamp"%string, JInt t)])))
               (F 0) (F 0) "2024-01-01T00:00:10" (Done tt) in
  let query :=
    mkExchange (Done (Text (JObj [("type"%string, JStr "stats")])))
               (F 30) (F 30) "2024-01-01T00:00:30" (Done tt) in
  let self := set_running true (init "0.0.0.0" 8888%N) in
  let high := ((F 0 - F (- 15 * 10 ^ 304)) * F 1000)%float in
  let low := ((F 0 - F (15 * 10 ^ 304)) * F 1000)%float in
  handle_client (lib := overflowing (JNum (F 0)) (JNum (F 0)))
                1 [Round (ping (- 15 * 10 ^ 304));
                   Round (ping (15 * 10 ^ 304)); Round query]%Z self
  = (Ok tt, set_stats (record_all initial_stats [high; low]) self,
     [Send 1 (Pong (F 0) high "2024-01-01T00:00:10");
      Log (request_done high);
      Send 1 (Pong (F 0) low "2024-01-01T00:00:10");
      Log (request_done low);
      Log (handler_error OverflowError);
      CloseClient 1; Log (client_disconnected 1)])
  /\ is_nan high = false /\ (high <? Inf)%float = true
  /\ low = SFopp high.
Proof. vm_compute. repeat split; reflexivity. Qed.

(** ** Starting and stopping the server *)

(** After [stop] the server does not run and has no open socket. *)
Lemma stopped_spec (self : server) :
  running (stopped self) = false /\ not_listening (stopped self).
Proof. destruct self as [h p [sock|] r st]; split; reflexivity. Qed.

(** X12: [stop] can be repeated, as it is when [run_server] handles an
    interrupt after the [finally] clause of [start] has run: after [stop]
    the server does not run and its socket, if it has one, is closed, the
    statistics are untouched, and a second [stop] returns with the object
    unchanged. *)
Theorem stop_is_idempotent (self : server) :
  running (stopped self) = false
  /\ not_listening (stopped self)
  /\ stats (stopped self) = stats self
  /\ stop (stopped self) = (Ok tt, stopped self, [Log server_stopped]).
Proof.
  destruct (stopped_spec self) as [Hrun Hsock].
  split; [exact Hrun|]. split; [exact Hsock|]. split.
  - now destruct (stopped_fields self).
  - rewrite stop_runs.
    assert (E : stopped (stopped self) = stopped self)
      by (destruct self as [h p [sock|] r st]; reflexivity).
    now rewrite E.
Qed.

(** X13: while nobody stops the server, the accept loop goes on for ever:
    every connection that [accept] returns is handed to one new handler
    thread, in the order of arrival, an [accept] that fails is printed and
    does not end the loop, and the object is not changed. *)
Theorem accept_loop_serves_every_connection
        (events : list accept_event) (self : server) :
  running self = true ->
  forallb undisturbed events = true ->
  accept_loop events self = (Pending, self, flat_map served events).
Proof.
  intros Hrun. induction events as [|ev events IH]; intro Hall.
  - cbn. unfold bind, read, pending. now rewrite Hrun.
  - cbn [forallb] in Hall. apply andb_true_iff in Hall.
    destruct Hall as [Hev Hall]. specialize (IH Hall).
    unfold undisturbed in Hev. apply andb_true_iff in Hev.
    destruct Hev as [Hstop Hacc]. apply negb_true_iff in Hstop.
    cbn [accept_loop flat_map]. unfold served at 1.
    unfold bind, read, try_except, ret, raise, emit.
    rewrite Hrun, Hstop.
    destruct (accepted ev) as [c| |]; [| |discriminate Hacc]; cbn.
    + now rewrite IH.
    + rewrite Hrun. cbn. now rewrite IH.
Qed.

Lemma accept_loop_witness :
  let self := set_running true (init "0.0.0.0" 8888%N) in
  accept_loop [mkAccept false (Connection 1); mkAccept false AcceptFails;
               mkAccept false (Connection 2)] self
  = (Pending, self,
     [Log (client_connected 1); Spawn 1;
      Log (accept_error socket_error);
      Log (client_connected 2); Spawn 2]).
Proof.
  cbv zeta.
  exact (accept_loop_serves_every_connection
           [mkAccept false (Connection 1); mkAccept false AcceptFails;
            mkAccept false (Connection 2)]
           (set_running true (init "0.0.0.0" 8888%N)) eq_refl eq_refl).
Defined.

(** [try ... except Exception] lets only [KeyboardInterrupt] through. *)
Lemma except_Exception (m : method unit) (h : exn -> line) (self : server) :
  let res := try_except m is_Exception (fun e => emit (Log (h e))) self in
  outcome res = Ok tt \/ outcome res = Pending
  \/ outcome res = Raise KeyboardInterrupt.
Proof.
  cbv zeta. unfold try_except, emit, outcome.
  destruct (m self) as [[[[]|x|] s] out]; cbn; auto.
  destruct x; cbn; auto.
Qed.

(** [start] is its body, with the exceptions caught, followed by [stop]. *)
Lemma start_cases (env : start_env) (self : server) :
  exists r s out,
    (r = Ok tt \/ r = Pending \/ r = Raise KeyboardInterrupt)
    /\ start env self
       = match r with
         | Pending => (Pending, s, out)
         | _ => (r, stopped s, out ++ [Log server_stopped])
         end.
Proof.
  unfold start.
  match goal with
  | |- context [try_except ?m is_Exception ?h] =>
      pose proof (except_Exception m start_failed self) as Hinner;
      cbv zeta in Hinner;
      change (fun e => emit (Log (start_failed e))) with h in Hinner;
      set (inner := try_except m is_Exception h) in *
  end.
  unfold try_finally, outcome in *.
  destruct (inner self) as [[r s] out]. cbn [fst snd] in *.
  exists r, s, out. split; [exact Hinner|].
  destruct Hinner as [-> | [-> | ->]]; rewrite ?stop_runs; reflexivity.
Qed.

(** X14: however [start] ends, the server is stopped.  [start] returns
    normally, or is still in its loop, or lets a [KeyboardInterrupt]
    through: no other exception reaches the caller.  When it has returned
    or raised, [self.running] is false, the listening socket is closed if
    there is one, and the last line printed is that of [stop]. *)
Theorem start_ends_stopped (env : start_env) (self : server) :
  let res := start env self in
  (outcome res = Pending
   \/ ((outcome res = Ok tt \/ outcome res = Raise KeyboardInterrupt)
       /\ running (object_after res) = false
       /\ not_listening (object_after res)
       /\ exists before, output res = before ++ [Log server_stopped])).
Proof.
  cbv zeta. destruct (start_cases env self) as (r & s & out & Hr & ->).
  destruct (stopped_spec s) as [Hrun Hsock].
  unfold outcome, object_after, output.
  destruct Hr as [-> | [-> | ->]]; cbn [fst snd].
  - right. split; [now left|]. split; [exact Hrun|].
    split; [exact Hsock|]. now exists out.
  - now left.
  - right. split; [now right|]. split; [exact Hrun|].
    split; [exact Hsock|]. now exists out.
Qed.

(** X15: a failure of any of the four calls that set the socket up, not
    only of [bind], is printed and ends [start] with a normal return before
    the server is announced as started: no connection is accepted. *)
Theorem setup_failure_ends_start
        (env : start_env) (self : server) (failing : setup_call) :
  setup_failure env = Some failing ->
  outcome (start env self) = Ok tt
  /\ output (start env self)
     = [Log (start_failed socket_error); Log server_stopped]
  /\ running (object_after (start env self)) = false
  /\ (failing = socket_call ->
      server_socket self = None ->
      server_socket (object_after (start env self)) = None).
Proof.
  intro Hfail. unfold outcome, output, object_after, start, setup, on_socket.
  rewrite Hfail.
  destruct self as [h p [sock|] r st]; destruct failing; cbn;
    repeat split; intros; try discriminate; reflexivity.
Qed.

Lemma setup_failure_witness :
  outcome (start (mkStartEnv (Some listen_call)
                             [mkAccept false (Connection 1)])
                 (init "0.0.0.0" 8888%N))
  = Ok tt
  /\ output (start (mkStartEnv (Some listen_call)
                               [mkAccept false (Connection 1)])
                   (init "0.0.0.0" 8888%N))
     = [Log (start_failed socket_error); Log server_stopped].
Proof.
  pose proof (setup_failure_ends_start
                (mkStartEnv (Some listen_call)
                            [mkAccept false (Connection 1)])
                (init "0.0.0.0" 8888%N) listen_call eq_refl) as H.
  exact (conj (proj1 H) (proj1 (proj2 H))).
Defined.

(** X16: [run_server] never raises.  It returns, or is still accepting;
    a [KeyboardInterrupt] that [start] lets through is caught, and when
    [run_server] has returned the server is stopped. *)
Theorem run_server_returns (host : string) (port : N) (env : start_env) :
  let res := run_server host port env in
  outcome res = Pending
  \/ (outcome res = Ok tt
      /\ running (object_after res) = false
      /\ not_listening (object_after res)).
Proof.
  cbv zeta. unfold run_server.
  destruct (start_cases env (init host port)) as (r & s & out & Hr & E).
  unfold try_except, outcome, object_after. rewrite E.
  destruct (stopped_spec s) as [Hrun Hsock].
  destruct (stopped_spec (stopped s)) as [Hrun' Hsock'].
  destruct Hr as [-> | [-> | ->]]; cbn [fst snd is_Exception].
  - right. now repeat split.
  - now left.
  - right.
    assert (E' : (emit (Log interrupted) ;; stop) (stopped s)
                 = (Ok tt, stopped (stopped s),
                    [Log interrupted; Log server_stopped]))
      by (unfold bind, emit; now rewrite stop_runs).
    rewrite E'. cbn [fst snd]. now repeat split.
Qed.


(** ** The client *)

(** X17: "not connected" is said only of a client that has no socket.
    [connect] stores the new socket before it connects it, so after a
    [connect] that failed the client has a socket: [connect] returns
    [False], and a [send_ping] that follows does not print "not connected"
    but tries to send, and reports the failure of the send.  On a client
    that never called [connect], [send_ping] sends nothing.  In all these
    cases [send_ping] returns [None] and records nothing. *)
Theorem ping_without_connection
        (self : TCPClient.client) (env : TCPClient.ping_env) :
  TCPClient.client_socket self = None ->
  TCPClient.sent env = Failed ->
  let unconnected :=
    TCPClient.set_client_socket (Some (TCPClient.mkSocket false false))
                                self in
  TCPClient.send_ping env self
  = (Ok JNull, self, [TCPClient.Log TCPClient.not_connected])
  /\ TCPClient.connect (Done tt) Failed self
     = (Ok false, unconnected,
        [TCPClient.Log (TCPClient.connect_failed socket_error)])
  /\ TCPClient.send_ping env unconnected
     = (Ok JNull, unconnected,
        [TCPClient.Log (TCPClient.ping_failed socket_error)]).
Proof.
  intros Hnone Hsent. cbv zeta. split; [|split].
  - run_client_method. now rewrite Hnone.
  - reflexivity.
  - run_client_method. cbn. now rewrite Hsent.
Qed.

Lemma ping_without_connection_witness :
  TCPClient.send_ping
    (TCPClient.mkPing (F 10) (F 10) Failed (Some Failed) (F 11))
    (TCPClient.init "127.0.0.1" 8888%N)
  = (Ok JNull, TCPClient.init "127.0.0.1" 8888%N,
     [TCPClient.Log TCPClient.not_connected]).
Proof.
  exact (proj1 (ping_without_connection
                  (TCPClient.init "127.0.0.1" 8888%N)
                  (TCPClient.mkPing (F 10) (F 10) Failed (Some Failed)
                                    (F 11))
                  eq_refl eq_refl)).
Defined.

(** [get_stats] on a client that has samples, call by call. *)
Lemma client_get_stats_cases {lib : library} (self : TCPClient.client)
      (first : json) (rest : list json) :
  TCPClient.latencies self = first :: rest ->
  let data := first :: rest in
  TCPClient.get_stats self
  = if all_numbers data
    then match statistics.mean data with
         | Throws e => (Raise e, self, [])
         | Gives average =>
             match statistics.median data with
             | Throws e => (Raise e, self, [])
             | Gives middle =>
                 match (if (1 <? length data)%nat
                        then statistics.stdev data
                        else Gives (JInt 0)) with
                 | Throws e => (Raise e, self, [])
                 | Gives deviation =>
                     (Ok (Some (TCPClient.mkSummary
                                  (length data)
                                  (TCPClient.min_of first rest)
                                  (TCPClient.max_of first rest)
                                  average middle deviation)),
                      self, [])
                 end
             end
         end
    else (Raise TypeError, self, []).
Proof.
  intro Hlat. cbv zeta. run_client_method. rewrite Hlat.
  destruct (all_numbers (first :: rest)); [|reflexivity].
  destruct (statistics.mean _) as [average|e]; [|reflexivity].
  destruct (statistics.median _) as [middle|e]; [|reflexivity].
  destruct (1 <? _)%nat; [|reflexivity].
  destruct (statistics.stdev _) as [deviation|e]; reflexivity.
Qed.

Lemma all_numbers_of_floats (qs : list float) :
  all_numbers (map JNum qs) = true.
Proof. unfold all_numbers. induction qs; cbn; auto. Qed.

(** [min] and [max] of floats are floats. *)
Lemma min_of_floats (rest : list float) :
  forall first,
    TCPClient.min_of (JNum first) (map JNum rest)
    = JNum (fold_left (fun least x => if (x <? least)%float then x else least)
                      rest first).
Proof.
  unfold TCPClient.min_of.
  induction rest as [|x rest IH]; intro first; cbn [map fold_left];
    [reflexivity|].
  unfold value_ltb at 2. cbn [as_number number_ltb].
  destruct (x <? first)%float; apply IH.
Qed.

Lemma max_of_floats (rest : list float) :
  forall first,
    TCPClient.max_of (JNum first) (map JNum rest)
    = JNum (fold_left
              (fun greatest x => if (greatest <? x)%float then x else greatest)
              rest first).
Proof.
  unfold TCPClient.max_of.
  induction rest as [|x rest IH]; intro first; cbn [map fold_left];
    [reflexivity|].
  unfold value_ltb at 2. cbn [as_number number_ltb].
  destruct (first <? x)%float; apply IH.
Qed.

(** [min] returns an element that is below all the others, when none of
    them is NaN. *)
Lemma min_of_spec (rest : list float) :
  forall first,
    Forall (fun x => is_nan x = false) (first :: rest) ->
    let least :=
      fold_left (fun least x => if (x <? least)%float then x else least)
                rest first in
    In least (first :: rest)
    /\ Forall (fun x => (least <=? x)%float = true) (first :: rest).
Proof.
  induction rest as [|x rest IH]; intros first Hnan; cbn [fold_left].
  - inversion Hnan; subst. cbv zeta. split; [now left|].
    constructor; [now apply fleb_refl|constructor].
  - inversion Hnan as [|? ? Hfirst Hrest]; subst.
    inversion Hrest as [|? ? Hx Hrest']; subst.
    cbv zeta.
    destruct (x <? first)%float eqn:E.
    + destruct (IH x Hrest) as [Hin Hall]. cbv zeta in Hin, Hall.
      inversion Hall as [|? ? Hle Hothers]; subst.
      split.
      * destruct Hin as [<-|Hin]; [right; now left|right; now right].
      * constructor; [|exact Hall].
        eapply fleb_trans; [exact Hle|]. now apply fltb_true.
    + destruct (IH first (Forall_cons _ Hfirst Hrest')) as [Hin Hall].
      cbv zeta in Hin, Hall.
      inversion Hall as [|? ? Hle Hothers]; subst.
      split.
      * destruct Hin as [<-|Hin]; [now left|right; now right].
      * constructor; [exact Hle|]. constructor; [|exact Hothers].
        eapply fleb_trans; [exact Hle|]. now apply fltb_false.
Qed.

(** [max] returns an element that is above all the others, when none of
    them is NaN. *)
Lemma max_of_spec (rest : list float) :
  forall first,
    Forall (fun x => is_nan x = false) (first :: rest) ->
    let greatest :=
      fold_left
        (fun greatest x => if (greatest <? x)%float then x else greatest)
        rest first in
    In greatest (first :: rest)
    /\ Forall (fun x => (x <=? greatest)%float = true) (first :: rest).
Proof.
  induction rest as [|x rest IH]; intros first Hnan; cbn [fold_left].
  - inversion Hnan; subst. cbv zeta. split; [now left|].
    constructor; [now apply fleb_refl|constructor].
  - inversion Hnan as [|? ? Hfirst Hrest]; subst.
    inversion Hrest as [|? ? Hx Hrest']; subst.
    cbv zeta.
    destruct (first <? x)%float eqn:E.
    + destruct (IH x Hrest) as [Hin Hall]. cbv zeta in Hin, Hall.
      inversion Hall as [|? ? Hle Hothers]; subst.
      split.
      * destruct Hin as [<-|Hin]; [right; now left|right; now right].
      * constructor; [|exact Hall].
        eapply fleb_trans; [|exact Hle]. now apply fltb_true.
    + destruct (IH first (Forall_cons _ Hfirst Hrest')) as [Hin Hall].
      cbv zeta in Hin, Hall.
      inversion Hall as [|? ? Hle Hothers]; subst.
      split.
      * destruct Hin as [<-|Hin]; [now left|right; now right].
      * constructor; [exact Hle|]. constructor; [|exact Hothers].
        eapply fleb_trans; [|exact Hle]. now apply fltb_false.
Qed.

(** X18: the summary of a client whose samples are all floats and none of
    them NaN.  [min] and [max] do not raise: they are samples [least] and
    [greatest] with every sample between them; unlike [max_latency] on the
    server, [max] is a sample also when all samples are negative.
    [get_stats] then asks [statistics] for the mean, the median and, with
    more than one sample, the standard deviation.  When the library
    returns all of them, [get_stats] returns the dict with [count] the
    number of samples, [min = least] and [max = greatest]; when the library
    raises (as [stdev] does with [OverflowError] on 1.5e308 and -1.5e308),
    [get_stats] raises the same exception.  The object is not changed and
    nothing is printed. *)
Theorem client_summary_bounds
        {lib : library} (self : TCPClient.client) (qs : list float) :
  qs <> [] ->
  Forall (fun x => is_nan x = false) qs ->
  TCPClient.latencies self = map JNum qs ->
  exists least greatest,
    In least qs
    /\ In greatest qs
    /\ Forall (fun x => (least <=? x)%float = true
                        /\ (x <=? greatest)%float = true) qs
    /\ TCPClient.get_stats self
       = match statistics.mean (map JNum qs) with
         | Throws e => (Raise e, self, [])
         | Gives average =>
             match statistics.median (map JNum qs) with
             | Throws e => (Raise e, self, [])
             | Gives middle =>
                 match (if (1 <? length qs)%nat
                        then statistics.stdev (map JNum qs)
                        else Gives (JInt 0)) with
                 | Throws e => (Raise e, self, [])
                 | Gives deviation =>
                     (Ok (Some (TCPClient.mkSummary
                                  (length qs) (JNum least) (JNum greatest)
                                  average middle deviation)),
                      self, [])
                 end
             end
         end.
Proof.
  intros Hne Hnan Hlat. destruct qs as [|q qs]; [congruence|].
  destruct (min_of_spec qs q Hnan) as [Hmin Hmins].
  destruct (max_of_spec qs q Hnan) as [Hmax Hmaxs].
  cbv zeta in Hmin, Hmins, Hmax, Hmaxs.
  eexists. eexists. split; [exact Hmin|]. split; [exact Hmax|]. split.
  - rewrite Forall_forall in *. intros x Hx. split; auto.
  - rewrite (client_get_stats_cases self (JNum q) (map JNum qs) Hlat).
    cbv zeta. rewrite <- (map_cons JNum q qs), all_numbers_of_floats.
    rewrite min_of_floats, max_of_floats, !length_map.
    destruct (statistics.mean _) as [average|e]; [|reflexivity].
    destruct (statistics.median _) as [middle|e]; [|reflexivity].
    destruct (1 <? _)%nat; [|reflexivity].
    destruct (statistics.stdev _) as [deviation|e]; reflexivity.
Qed.

(** Three negative samples; the library computes their mean, median and
    standard deviation. *)
Lemma client_summary_witness :
  let self :=
    TCPClient.mkClient "127.0.0.1" 8888%N
                       (Some (TCPClient.mkSocket true false))
                       (map JNum [F (-3); F (-8); F (-4)]) in
  let std := JNum (S754_finite false 5957702309312746 (-51)) in
  exists least greatest,
    In least [F (-3); F (-8); F (-4)]
    /\ In greatest [F (-3); F (-8); F (-4)]
    /\ TCPClient.get_stats (lib := answering (JNum (F (-5))) (JNum (F (-4)))
                                             std) self
       = (Ok (Some (TCPClient.mkSummary 3 (JNum least) (JNum greatest)
                                        (JNum (F (-5))) (JNum (F (-4))) std)),
          self, []).
Proof.
  cbv zeta.
  destruct (client_summary_bounds
              (lib := answering (JNum (F (-5))) (JNum (F (-4)))
                                (JNum (S754_finite false 5957702309312746
                                                   (-51))))
              (TCPClient.mkClient "127.0.0.1" 8888%N
                                  (Some (TCPClient.mkSocket true false))
                                  (map JNum [F (-3); F (-8); F (-4)]))
              [F (-3); F (-8); F (-4)]
              ltac:(discriminate)
              ltac:(repeat constructor)
              eq_refl)
    as (least & greatest & H1 & H2 & _ & H3).
  exists least, greatest. auto.
Defined.

(** The extremes of these three samples. *)
Example client_summary_of_negative_samples :
  let self :=
    TCPClient.mkClient "127.0.0.1" 8888%N
                       (Some (TCPClient.mkSocket true false))
                       (map JNum [F (-3); F (-8); F (-4)]) in
  let std := JNum (S754_finite false 5957702309312746 (-51)) in
  outcome (TCPClient.get_stats
             (lib := answering (JNum (F (-5))) (JNum (F (-4))) std) self)
  = Ok (Some (TCPClient.mkSummary 3 (JNum (F (-8))) (JNum (F (-3)))
                                  (JNum (F (-5))) (JNum (F (-4))) std)).
Proof. vm_compute. reflexivity. Qed.

(** With a NaN among the samples, what [min] and [max] return depends on
    where it stands. *)
Example client_summary_with_NaN :
  TCPClient.min_of (JNum NaN) [JNum (F 1)] = JNum NaN
  /\ TCPClient.min_of (JNum (F 1)) [JNum NaN] = JNum (F 1)
  /\ TCPClient.max_of (JNum (F 1)) [JNum NaN; JNum (F 2)] = JNum (F 2)
  /\ TCPClient.max_of (JNum NaN) [JNum (F 1); JNum (F 2)] = JNum NaN.
Proof. vm_compute. repeat split; reflexivity. Qed.

Lemma all_numbers_with_other (values : list json) (v : json) :
  as_number v = None -> all_numbers (values ++ [v]) = false.
Proof.
  intro Hv. unfold all_numbers. rewrite forallb_app. cbn.
  unfold is_number at 2. rewrite Hv. cbn. apply andb_false_r.
Qed.

(** X19: one response can spoil the statistics of the run.  When the
    "latency" entry of a decoded response is not a number, [send_ping]
    appends it as it is and returns it, so for [null] it returns [None]
    although it has appended a sample; [get_stats] raises [TypeError] from
    then on. *)
Theorem bad_latency_spoils_the_statistics
        {lib : library} (env : TCPClient.ping_env) (self : TCPClient.client)
        (sock : TCPClient.socket) (d : list (string * json)) :
  TCPClient.client_socket self = Some sock ->
  TCPClient.sent env = Done tt ->
  TCPClient.received env = Some (Done (Text (JObj d))) ->
  as_number (dict_get d "latency" (round_trip env)) = None ->
  let res := TCPClient.send_ping env self in
  outcome res = Ok (dict_get d "latency" (round_trip env))
  /\ TCPClient.latencies (object_after res)
     = TCPClient.latencies self ++ [dict_get d "latency" (round_trip env)]
  /\ outcome (TCPClient.get_stats (object_after res)) = Raise TypeError.
Proof.
  intros Hsock Hsent Hrecv Hbad. cbv zeta.
  rewrite (send_ping_decoded env self sock d Hsock Hsent Hrecv).
  unfold outcome, object_after. cbn [fst snd].
  split; [reflexivity|]. split; [reflexivity|].
  run_client_method. cbn [with_samples TCPClient.latencies].
  pose proof (all_numbers_with_other (TCPClient.latencies self) _ Hbad) as E.
  destruct (TCPClient.latencies self ++ _) as [|first rest] eqn:L.
  - now destruct (TCPClient.latencies self).
  - now rewrite E.
Qed.

(** The response [{"type": "pong", "latency": null}] after a good sample. *)
Lemma bad_latency_witness :
  let env := TCPClient.mkPing (F 10) (F 10) (Done tt)
               (Some (Done (Text (JObj [("type"%string, JStr "pong");
                                        ("latency"%string, JNull)]))))
               (F 11) in
  let self := TCPClient.mkClient "127.0.0.1" 8888%N
                (Some (TCPClient.mkSocket true false)) [JNum (F 2)] in
  outcome (TCPClient.send_ping env self) = Ok JNull
  /\ outcome (TCPClient.get_stats
                (lib := unasked)
                (object_after (TCPClient.send_ping env self)))
     = Raise TypeError.
Proof.
  cbv zeta.
  pose proof (bad_latency_spoils_the_statistics
                (lib := unasked)
                (TCPClient.mkPing (F 10) (F 10) (Done tt)
                   (Some (Done (Text (JObj [("type"%string, JStr "pong");
                                            ("latency"%string, JNull)]))))
                   (F 11))
                (TCPClient.mkClient "127.0.0.1" 8888%N
                   (Some (TCPClient.mkSocket true false)) [JNum (F 2)])
                (TCPClient.mkSocket true false)
                [("type"%string, JStr "pong"); ("latency"%string, JNull)]
                eq_refl eq_refl eq_refl eq_refl) as H.
  cbv zeta in H. exact (conj (proj1 H) (proj2 (proj2 H))).
Defined.

(** ** A run of the client *)

Lemma pauses_app (a b : list run_effect) :
  pauses (a ++ b) = (pauses a + pauses b)%nat.
Proof. unfold pauses. now rewrite filter_app, length_app. Qed.

Lemma requests_app (a b : list run_effect) :
  requests (a ++ b) = (requests a + requests b)%nat.
Proof. unfold requests. now rewrite filter_app, length_app. Qed.

Lemma closes_app (a b : list run_effect) :
  closes (a ++ b) = (closes a + closes b)%nat.
Proof. unfold closes. now rewrite filter_app, length_app. Qed.

Lemma results_app (a b : list run_effect) :
  results (a ++ b) = results a ++ results b.
Proof.
  induction a as [|eff a IH]; [reflexivity|].
  destruct eff as [e|[]|q]; cbn; rewrite ?IH; reflexivity.
Qed.

Lemma pauses_of_client (out : list TCPClient.effect) :
  pauses (map Client out) = 0%nat.
Proof. induction out as [|e out IH]; [reflexivity|exact IH]. Qed.

Lemma results_of_client (out : list TCPClient.effect) :
  results (map Client out) = [].
Proof. induction out as [|e out IH]; [reflexivity|exact IH]. Qed.

(** The lines of the summary are neither requests nor pauses nor results
    of a test, and [close] is not among them. *)
Lemma summary_counts (s : TCPClient.summary) :
  let out := map Say (fst (print_summary s)) in
  requests out = 0%nat /\ pauses out = 0%nat /\ results out = []
  /\ closes out = 0%nat.
Proof.
  cbv zeta. unfold print_summary, summary_lines. cbn [print_formatted].
  repeat (destruct (formats _); cbn [fst snd map]);
    repeat split; reflexivity.
Qed.

(** [send_ping] comes back with a value unless [recv] does not return; it
    touches nothing of the object but [latencies], which grows by at most
    one sample, and it does not close the socket. *)
Lemma send_ping_shape (env : TCPClient.ping_env) (self : TCPClient.client) :
  exists added,
    ((exists v, outcome (TCPClient.send_ping env self) = Ok v)
     \/ (outcome (TCPClient.send_ping env self) = Pending
         /\ TCPClient.received env = None))
    /\ object_after (TCPClient.send_ping env self) = with_samples self added
    /\ (length added <= 1)%nat
    /\ (requests (map Client (output (TCPClient.send_ping env self))) <= 1)%nat
    /\ closes (map Client (output (TCPClient.send_ping env self))) = 0%nat.
Proof.
  unfold outcome, object_after, output, with_samples. run_client_method.
  destruct self as [h p [sock|] l]; cbn.
  2: { exists []. rewrite app_nil_r. repeat split; cbn; try lia.
       left. now eexists. }
  destruct (TCPClient.sent env) as [[]|]; cbn.
  2: { exists []. rewrite app_nil_r. repeat split; cbn; try lia.
       left. now eexists. }
  destruct (TCPClient.received env) as [[[| | | |v]|]|]; cbn.
  1-4, 6: exists []; rewrite app_nil_r; repeat split; cbn; try lia;
    left; now eexists.
  2: { exists []. rewrite app_nil_r. repeat split; cbn; try lia.
       right. now split. }
  destruct v as [|b|z|q|s|vs|d]; cbn.
  1-6: exists []; rewrite app_nil_r; repeat split; cbn; try lia;
    left; now eexists.
  eexists [_]. repeat split; cbn; try lia. left. now eexists.
Qed.

(** What the loop of [run_client] never does, whatever the environment. *)
Lemma ping_loop_bounds (interval : float) (rounds : list round) :
  forall i self,
    let res := ping_loop i interval rounds self in
    TCPClient.client_socket (snd (fst res)) = TCPClient.client_socket self
    /\ (fst (fst res) = Some Blocked -> existsb silent rounds = true)
    /\ (exists added,
           TCPClient.latencies (snd (fst res))
           = TCPClient.latencies self ++ added
           /\ (length added <= length rounds)%nat)
    /\ (requests (snd res) <= length rounds)%nat
    /\ (pauses (snd res) <= length rounds - 1)%nat
    /\ (length (results (snd res)) <= length rounds)%nat
    /\ closes (snd res) = 0%nat.
Proof.
  induction rounds as [|[env pause|] rounds IH]; intros i self; cbv zeta.
  - cbn. split; [reflexivity|]. split; [discriminate|].
    split; [exists []; now rewrite app_nil_r|]. repeat split; lia.
  - cbn [ping_loop].
    destruct (send_ping_shape env self) as (added & Hv & Hobj & Hlen
                                            & Hreq & Hclose).
    unfold outcome, object_after, output in Hv, Hobj, Hreq, Hclose.
    destruct (TCPClient.send_ping env self) as [[r self1] out1].
    cbn [fst snd] in Hv, Hobj, Hreq, Hclose. subst self1.
    destruct Hv as [[v ->]|[-> Hsilent]].
    2: { cbn [fst snd with_samples TCPClient.client_socket
              TCPClient.latencies existsb silent].
         rewrite Hsilent.
         split; [reflexivity|]. split; [reflexivity|].
         split; [exists added; split; [reflexivity|cbn; lia]|].
         rewrite pauses_of_client, results_of_client, Hclose. cbn.
         repeat split; lia. }
    assert (Hl : forall l, requests [Say l] = 0%nat /\ pauses [Say l] = 0%nat
                           /\ (length (results [Say l]) <= 1)%nat
                           /\ closes [Say l] = 0%nat)
      by (intro l; destruct l; cbn; repeat split; lia).
    destruct (print_latency (i + 1) v) as [l|raised] eqn:Eprint.
    + destruct (Hl l) as (Hl1 & Hl2 & Hl3 & Hl4).
      destruct rounds as [|next rounds].
      * cbn [fst snd with_samples TCPClient.client_socket
             TCPClient.latencies].
        split; [reflexivity|]. split; [discriminate|].
        split; [exists added; split; [reflexivity|cbn; lia]|].
        rewrite !requests_app, !pauses_app, !results_app, !closes_app,
          !length_app.
        rewrite pauses_of_client, results_of_client, Hclose, Hl1, Hl2, Hl4.
        cbn [length]. repeat split; lia.
      * destruct (sleep interval pause) as [[]|raised].
        -- specialize (IH (i + 1)%nat (with_samples self added)).
           cbv zeta in IH.
           destruct (ping_loop (i + 1) interval (next :: rounds) _)
             as [[e self2] out2].
           cbn [fst snd with_samples TCPClient.client_socket
                TCPClient.latencies] in IH |- *.
           destruct IH as (Hsock & Hblocked & (more & Hlat & Hmore) & Hr
                           & Hp & Hres & Hc).
           split; [exact Hsock|].
           split.
           { intro E. change (existsb silent (Exchange env pause
                                                :: next :: rounds))
               with (silent (Exchange env pause)
                     || existsb silent (next :: rounds)).
             rewrite (Hblocked E). apply orb_true_r. }
           split.
           { exists (added ++ more). rewrite Hlat, app_assoc.
             split; [reflexivity|]. rewrite length_app.
             cbn [length] in *. lia. }
           change [Say l; Sleep interval] with ([Say l] ++ [Sleep interval]).
           rewrite !requests_app, !pauses_app, !results_app, !closes_app,
             !length_app.
           rewrite pauses_of_client, results_of_client, Hclose, Hl1, Hl2,
             Hl4, Hc.
           change (requests [Sleep interval]) with 0%nat.
           change (pauses [Sleep interval]) with 1%nat.
           change (closes [Sleep interval]) with 0%nat.
           change (results [Sleep interval]) with (@nil (nat * json)).
           cbn [length app] in *. repeat split; lia.
        -- cbn [fst snd with_samples TCPClient.client_socket
                TCPClient.latencies].
           split; [reflexivity|]. split; [discriminate|].
           split; [exists added; split; [reflexivity|cbn; lia]|].
           rewrite !requests_app, !pauses_app, !results_app, !closes_app,
             !length_app.
           rewrite pauses_of_client, results_of_client, Hclose, Hl1, Hl2,
             Hl4.
           cbn [length]. repeat split; lia.
    + cbn [fst snd with_samples TCPClient.client_socket TCPClient.latencies].
      split; [reflexivity|]. split; [discriminate|].
      split; [exists added; split; [reflexivity|cbn; lia]|].
      rewrite pauses_of_client, results_of_client, Hclose. cbn.
      repeat split; lia.
  - cbn. split; [reflexivity|]. split; [discriminate|].
    split; [exists []; split; [now rewrite app_nil_r|cbn; lia]|].
    repeat split; lia.
Qed.

(** [get_stats] leaves the client as it is and prints nothing; it returns,
    or raises what [statistics] raises. *)
Lemma client_get_stats_shape {lib : library} (self : TCPClient.client) :
  exists r,
    TCPClient.get_stats self = (r, self, [])
    /\ ((exists e, r = Raise e /\ raised_by_statistics e = true)
        \/ exists s, r = Ok s).
Proof.
  destruct (TCPClient.latencies self) as [|v vs] eqn:Hlat.
  - run_client_method. rewrite Hlat.
    eexists. split; [reflexivity|]. right. now eexists.
  - rewrite (client_get_stats_cases self v vs Hlat). cbv zeta.
    destruct (all_numbers (v :: vs)).
    2: { eexists. split; [reflexivity|]. left. now eexists. }
    destruct (statistics.mean (v :: vs)) as [average|e] eqn:Hmean.
    2: { eexists. split; [reflexivity|]. left. eexists.
         split; [reflexivity|]. exact (mean_raises _ _ Hmean). }
    destruct (statistics.median (v :: vs)) as [middle|e] eqn:Hmedian.
    2: { eexists. split; [reflexivity|]. left. eexists.
         split; [reflexivity|]. exact (median_raises _ _ Hmedian). }
    destruct (1 <? _)%nat.
    + destruct (statistics.stdev (v :: vs)) as [deviation|e] eqn:Hstdev.
      * eexists. split; [reflexivity|]. right. now eexists.
      * eexists. split; [reflexivity|]. left. eexists.
        split; [reflexivity|]. exact (stdev_raises _ _ Hstdev).
    + eexists. split; [reflexivity|]. right. now eexists.
Qed.

Lemma close_runs (self : TCPClient.client) (sock : TCPClient.socket) :
  TCPClient.client_socket self = Some sock ->
  TCPClient.close self
  = (Ok tt,
     TCPClient.set_client_socket
       (Some (TCPClient.mkSocket (TCPClient.connected sock) true)) self,
     [TCPClient.Log TCPClient.connection_closed]).
Proof.
  intro Hsock. unfold TCPClient.close, bind, read, modify, emit, ret.
  now rewrite Hsock.
Qed.

(** The body of the [try] keeps the socket of the client, records at most
    one sample for each turn, does not close the connection, and is
    blocked only by a peer that stays silent. *)
Lemma measure_bounds {lib : library} (interval : float) (rounds : list round)
      (self : TCPClient.client) :
  let res := measure interval rounds self in
  TCPClient.client_socket (snd (fst res)) = TCPClient.client_socket self
  /\ (fst (fst res) = Blocked -> existsb silent rounds = true)
  /\ (exists added,
         TCPClient.latencies (snd (fst res))
         = TCPClient.latencies self ++ added
         /\ (length added <= length rounds)%nat)
  /\ (requests (snd res) <= length rounds)%nat
  /\ (pauses (snd res) <= length rounds - 1)%nat
  /\ (length (results (snd res)) <= length rounds)%nat
  /\ closes (snd res) = 0%nat.
Proof.
  cbv zeta. unfold measure.
  pose proof (ping_loop_bounds interval rounds 0 self) as H.
  cbv zeta in H.
  destruct (ping_loop 0 interval rounds self) as [[[e|] self1] out1].
  - cbn [fst snd] in *. destruct H as (H1 & H2 & H3 & H4 & H5 & H6 & H7).
    repeat split; try assumption. intros ->. now apply H2.
  - cbn [fst snd] in H. destruct H as (H1 & _ & H3 & H4 & H5 & H6 & H7).
    destruct (client_get_stats_shape self1) as (r & -> & Hr).
    assert (Hout : forall tail,
               requests tail = 0%nat -> pauses tail = 0%nat ->
               results tail = [] -> closes tail = 0%nat ->
               (requests (out1 ++ [Say separator] ++ tail)
                <= length rounds)%nat
               /\ (pauses (out1 ++ [Say separator] ++ tail)
                   <= length rounds - 1)%nat
               /\ (length (results (out1 ++ [Say separator] ++ tail))
                   <= length rounds)%nat
               /\ closes (out1 ++ [Say separator] ++ tail) = 0%nat).
    { intros tail T1 T2 T3 T4.
      rewrite !requests_app, !pauses_app, !results_app, !closes_app,
        T1, T2, T3, T4, H7.
      cbn. rewrite app_nil_r. lia. }
    destruct Hr as [(e & -> & _)|[[s|] ->]]; cbn [fst snd map app].
    + split; [exact H1|]. split; [discriminate|]. split; [exact H3|].
      now apply (Hout []).
    + destruct (summary_counts s) as (S1 & S2 & S3 & S4).
      cbv zeta in S1, S2, S3, S4.
      destruct (print_summary s) as [printed raised].
      cbn [fst snd] in *.
      split; [exact H1|].
      split; [destruct raised; discriminate|]. split; [exact H3|].
      now apply (Hout (map Say printed)).
    + split; [exact H1|]. split; [discriminate|]. split; [exact H3|].
      now apply (Hout []).
Qed.

(** What leaves the body of the [try] when it is not blocked and the peer
    has not interrupted it is caught only if it is [KeyboardInterrupt]. *)
Lemma run_client_connected {lib : library} (host : string) (port : N)
      (rounds : list round) (interval : float) :
  let client :=
    TCPClient.mkClient host port (Some (TCPClient.mkSocket true false)) [] in
  let banner :=
    [Client (TCPClient.Log (TCPClient.connected_to host port));
     Say (test_started host port);
     Say (test_parameters (length rounds) interval);
     Say separator] in
  run_client host port (Done tt) (Done tt) rounds interval
  = match measure interval rounds client with
    | (Blocked, client1, out1) => (Blocked, client1, banner ++ out1)
    | (Raises KeyboardInterrupt, client1, out1) =>
        (Returns,
         TCPClient.set_client_socket
           (Some (TCPClient.mkSocket true true)) client1,
         banner ++ out1 ++ [Say test_interrupted]
           ++ [Client (TCPClient.Log TCPClient.connection_closed)])
    | (ended, client1, out1) =>
        (ended,
         TCPClient.set_client_socket
           (Some (TCPClient.mkSocket true true)) client1,
         banner ++ out1
           ++ [Client (TCPClient.Log TCPClient.connection_closed)])
    end.
Proof.
  cbv zeta. unfold run_client.
  set (client := TCPClient.mkClient host port
                   (Some (TCPClient.mkSocket true false)) []).
  assert (Econnect : TCPClient.connect (Done tt) (Done tt)
                                       (TCPClient.init host port)
                     = (Ok true, client,
                        [TCPClient.Log (TCPClient.connected_to host port)]))
    by reflexivity.
  rewrite Econnect.
  pose proof (measure_bounds interval rounds client) as H. cbv zeta in H.
  destruct (measure interval rounds client) as [[ended client1] out1].
  cbn [fst snd] in H. destruct H as (Hsock & _).
  destruct ended as [|e|]; [| |reflexivity].
  - rewrite (close_runs client1 (TCPClient.mkSocket true false))
      by (rewrite Hsock; reflexivity).
    reflexivity.
  - rewrite (close_runs client1 (TCPClient.mkSocket true false))
      by (rewrite Hsock; reflexivity).
    destruct e; reflexivity.
Qed.

(** X20: a run that cannot connect does nothing else.  When the socket
    cannot be created or connected, [run_client] prints the failure of
    [connect] and returns: no request is sent, nothing is recorded, and
    [close] is not called, so a socket that was created stays open. *)
Theorem run_client_without_server
        {lib : library} (host : string) (port : N)
        (created connecting : io unit)
        (rounds : list round) (interval : float) :
  created = Failed \/ connecting = Failed ->
  let res := run_client host port created connecting rounds interval in
  ending_of res = Returns
  /\ said res
     = [Client (TCPClient.Log (TCPClient.connect_failed socket_error))]
  /\ TCPClient.latencies (client_after res) = []
  /\ match TCPClient.client_socket (client_after res) with
     | Some sock => TCPClient.closed sock = false
     | None => True
     end.
Proof.
  intros Hfail. cbv zeta. unfold run_client, ending_of, said, client_after.
  destruct created as [[]|]; [destruct connecting as [[]|]|].
  - destruct Hfail as [H|H]; discriminate H.
  - repeat split.
  - repeat split.
Qed.

Lemma run_client_without_server_witness :
  ending_of (run_client (lib := unasked) "127.0.0.1" 8888%N (Done tt) Failed
                        [Exchange (TCPClient.mkPing (F 10) (F 10) (Done tt)
                                                    (Some (Done Empty))
                                                    (F 11))
                                  (Gives tt)]
                        (F 1))
  = Returns.
Proof.
  exact (proj1 (run_client_without_server
                  (lib := unasked) "127.0.0.1" 8888%N (Done tt) Failed
                  [Exchange (TCPClient.mkPing (F 10) (F 10) (Done tt)
                                              (Some (Done Empty)) (F 11))
                            (Gives tt)]
                  (F 1) (or_intror eq_refl))).
Defined.

(** X21: a run that has connected closes its connection unless it is
    blocked, and stays within its count.  [send_ping] sets no timeout, so
    a peer that stays silent leaves [run_client] in [recv] for ever: then
    [close] has not run and the socket is open.  That is the only way in
    which [run_client] does not end: when every [recv] returns,
    [run_client] ends, and whenever it ends, by a return or by an
    exception, [close] has run exactly once, as the last thing done, and
    the socket is closed.  A [KeyboardInterrupt] that arrives between two
    pings or during a pause does not leave [run_client].  In every case no
    more requests are sent, results printed or samples recorded than there
    are turns, and there are fewer pauses than turns. *)
Theorem run_client_closes_and_stays_within_count
        {lib : library} (host : string) (port : N) (rounds : list round)
        (interval : float) :
  let res := run_client host port (Done tt) (Done tt) rounds interval in
  ((ending_of res = Blocked
    /\ existsb silent rounds = true
    /\ TCPClient.client_socket (client_after res)
       = Some (TCPClient.mkSocket true false)
    /\ closes (said res) = 0%nat)
   \/ (ending_of res <> Blocked
       /\ TCPClient.client_socket (client_after res)
          = Some (TCPClient.mkSocket true true)
       /\ closes (said res) = 1%nat
       /\ exists before,
           said res
           = before ++ [Client (TCPClient.Log TCPClient.connection_closed)]))
  /\ (existsb silent rounds = false -> ending_of res <> Blocked)
  /\ ending_of res <> Raises KeyboardInterrupt
  /\ (length (TCPClient.latencies (client_after res)) <= length rounds)%nat
  /\ (requests (said res) <= length rounds)%nat
  /\ (length (results (said res)) <= length rounds)%nat
  /\ (pauses (said res) <= length rounds - 1)%nat.
Proof.
  cbv zeta. rewrite run_client_connected. cbv zeta.
  set (client := TCPClient.mkClient host port
                   (Some (TCPClient.mkSocket true false)) []).
  set (banner := [Client (TCPClient.Log (TCPClient.connected_to host port));
                  Say (test_started host port);
                  Say (test_parameters (length rounds) interval);
                  Say separator]).
  pose proof (measure_bounds interval rounds client) as H. cbv zeta in H.
  destruct (measure interval rounds client) as [[ended client1] out1].
  cbn [fst snd] in H.
  destruct H as (Hsock & Hblocked & (added & Hlat & Hadded) & Hreq & Hp
                 & Hres & Hclose).
  assert (Hbanner : requests banner = 0%nat /\ pauses banner = 0%nat
                    /\ results banner = [] /\ closes banner = 0%nat)
    by (repeat split).
  destruct Hbanner as (B1 & B2 & B3 & B4).
  cbn [TCPClient.latencies client app] in Hlat.
  destruct ended as [|e|].
  - unfold ending_of, said, client_after. cbn [fst snd].
    split.
    { right. split; [discriminate|]. split; [reflexivity|].
      split; [|eexists; rewrite !app_assoc; reflexivity].
      rewrite !closes_app, B4, Hclose. reflexivity. }
    split; [discriminate|]. split; [discriminate|].
    cbn [TCPClient.set_client_socket TCPClient.latencies].
    rewrite !requests_app, !pauses_app, !results_app, !length_app,
      B1, B2, B3, Hlat.
    cbn. repeat split; lia.
  - assert (Hcaught :
              exists tail,
                match e with
                | KeyboardInterrupt =>
                    (Returns,
                     TCPClient.set_client_socket
                       (Some (TCPClient.mkSocket true true)) client1,
                     banner ++ out1 ++ [Say test_interrupted]
                       ++ [Client (TCPClient.Log
                                     TCPClient.connection_closed)])
                | _ =>
                    (Raises e,
                     TCPClient.set_client_socket
                       (Some (TCPClient.mkSocket true true)) client1,
                     banner ++ out1
                       ++ [Client (TCPClient.Log
                                     TCPClient.connection_closed)])
                end
                = (match e with
                   | KeyboardInterrupt => Returns
                   | _ => Raises e
                   end,
                   TCPClient.set_client_socket
                     (Some (TCPClient.mkSocket true true)) client1,
                   banner ++ out1 ++ tail
                     ++ [Client (TCPClient.Log TCPClient.connection_closed)])
                /\ requests tail = 0%nat /\ pauses tail = 0%nat
                /\ results tail = [] /\ closes tail = 0%nat).
    { destruct e; try (exists []; repeat split; reflexivity).
      exists [Say test_interrupted]. repeat split; reflexivity. }
    destruct Hcaught as (tail & E & T1 & T2 & T3 & T4).
    replace (match e with
             | KeyboardInterrupt => _
             | _ => (Raises e, _, _)
             end)
      with (match e with
            | KeyboardInterrupt => Returns
            | _ => Raises e
            end,
            TCPClient.set_client_socket
              (Some (TCPClient.mkSocket true true)) client1,
            banner ++ out1 ++ tail
              ++ [Client (TCPClient.Log TCPClient.connection_closed)])
      by (rewrite <- E; destruct e; reflexivity).
    unfold ending_of, said, client_after. cbn [fst snd].
    split.
    { right. split; [destruct e; discriminate|]. split; [reflexivity|].
      split; [|eexists; rewrite !app_assoc; reflexivity].
      rewrite !closes_app, B4, Hclose, T4. reflexivity. }
    split; [destruct e; discriminate|].
    split; [destruct e; discriminate|].
    cbn [TCPClient.set_client_socket TCPClient.latencies].
    rewrite !requests_app, !pauses_app, !results_app, !length_app,
      B1, B2, B3, T1, T2, T3, Hlat.
    cbn. repeat split; lia.
  - unfold ending_of, said, client_after. cbn [fst snd].
    rewrite Hsock.
    split.
    { left. split; [reflexivity|]. split; [now apply Hblocked|].
      split; [reflexivity|].
      rewrite !closes_app, B4, Hclose. reflexivity. }
    split; [intro E; rewrite (Hblocked eq_refl) in E; discriminate E|].
    split; [discriminate|].
    rewrite !requests_app, !pauses_app, !results_app, !length_app,
      B1, B2, B3, Hlat.
    cbn. repeat split; lia.
Qed.

(** A peer that accepts the connection and never answers: the run is
    blocked in the first [recv], and the socket stays open. *)
Example silent_peer_blocks_run_client :
  run_client (lib := unasked) "127.0.0.1" 8888%N (Done tt) (Done tt)
             [Exchange (TCPClient.mkPing (F 10) (F 10) (Done tt) None (F 11))
                       (Gives tt);
              Exchange (TCPClient.mkPing (F 12) (F 12) (Done tt)
                                         (Some (Done Empty)) (F 13))
                       (Gives tt)]
             (F 1)
  = (Blocked,
     TCPClient.mkClient "127.0.0.1" 8888%N
                        (Some (TCPClient.mkSocket true false)) [],
     [Client (TCPClient.Log (TCPClient.connected_to "127.0.0.1" 8888%N));
      Say (test_started "127.0.0.1" 8888%N);
      Say (test_parameters 2 (F 1));
      Say separator;
      Client (TCPClient.Send
                (JObj [("type"%string, JStr "ping");
                       ("timestamp"%string, JNum (F 10))]))]).
Proof. vm_compute. reflexivity. Qed.

(** The intervals that [time.sleep] refuses. *)
Example refused_intervals :
  sleep_error (F (-1)) = Some ValueError
  /\ sleep_error NaN = Some ValueError
  /\ sleep_error Inf = Some OverflowError
  /\ sleep_error (F (- 10 ^ 300)) = Some OverflowError
  /\ sleep_error (F (10 ^ 10)) = Some OverflowError
  /\ sleep_error (F (-9223372036)) = Some ValueError
  /\ sleep_error (F (-9223372037)) = Some OverflowError
  /\ sleep_error (S754_zero true) = None
  /\ sleep_error (F 1) = None.
Proof. vm_compute. repeat split; reflexivity. Qed.

(** A negative interval: [time.sleep] raises [ValueError] after the first
    ping, the connection is closed and the exception leaves [run_client]. *)
Example negative_interval_ends_the_run :
  let pong :=
    Exchange (TCPClient.mkPing
                (F 10) (F 10) (Done tt)
                (Some (Done (Text (JObj [("type"%string, JStr "pong");
                                         ("latency"%string,
                                          JNum (F 2))]))))
                (F 11))
             (Gives tt) in
  let res := run_client (lib := unasked) "127.0.0.1" 8888%N (Done tt)
                        (Done tt) [pong; pong] (F (-1)) in
  ending_of res = Raises ValueError
  /\ results (said res) = [(1%nat, JNum (F 2))]
  /\ closes (said res) = 1%nat.
Proof. vm_compute. repeat split; reflexivity. Qed.








(** ** The search for the best point *)

(** What is below anything is below [inf]. *)
Lemma fltb_below_Inf (x y : float) :
  (x <? y)%float = true -> (x <? Inf)%float = true.
Proof.
  destruct x as [sx|[]| |sx mx ex]; try reflexivity.
  - now destruct y as [sy|[]| |sy my ey].
  - discriminate.
Qed.

(** An error that is not below the best one stays so when the best one
    goes down. *)
Lemma not_below_smaller (err old new : float) :
  is_nan old = false ->
  (err <? old)%float = false ->
  (new <? old)%float = true ->
  (err <? new)%float = false.
Proof.
  intros Hold Herr Hnew.
  destruct (is_nan err) eqn:Hnan.
  - destruct err; try discriminate Hnan. reflexivity.
  - apply fleb_fltb. eapply fleb_trans.
    + apply fltb_true, Hnew.
    + now apply fltb_false.
Qed.

Section SearchProperties.

Variable compute :
  float -> float -> list monte_carlo.AnchorPoint -> answer (float * float).
Variable anchors : list monte_carlo.AnchorPoint.

Lemma try_point_keeps_best (seen : list (float * float))
      (b b' : monte_carlo.best) (xy : float * float) :
  best_of compute anchors seen b ->
  monte_carlo.try_point compute anchors b xy = Gives b' ->
  best_of compute anchors (seen ++ [xy]) b'.
Proof.
  intros (Hnan & Hall & Hbest). unfold monte_carlo.try_point.
  destruct (compute (fst xy) (snd xy) anchors) as [[k err]|e] eqn:E;
    [|discriminate].
  intro H. injection H as <-.
  destruct (err <? monte_carlo.best_error b)%float eqn:Elt.
  - destruct (fltb_not_nan _ _ Elt) as [Herr _].
    unfold best_of. cbn [monte_carlo.best_error monte_carlo.best_point].
    split; [exact Herr|]. split; [|split; [|split]].
    + apply Forall_app. split.
      * eapply Forall_impl; [|exact Hall]. cbn beta.
        intros p Hp k' err' Ep.
        exact (not_below_smaller _ _ _ Hnan (Hp k' err' Ep) Elt).
      * constructor; [|constructor]. intros k' err' Ep.
        rewrite E in Ep. injection Ep as <- <-.
        apply fleb_fltb, fleb_refl, Herr.
    + apply in_or_app. right. left. now destruct xy.
    + exact E.
    + exact (fltb_below_Inf _ _ Elt).
  - unfold best_of. split; [exact Hnan|]. split.
    + apply Forall_app. split; [exact Hall|].
      constructor; [|constructor]. intros k' err' Ep.
      rewrite E in Ep. injection Ep as <- <-. exact Elt.
    + destruct (monte_carlo.best_point b) as [[[px py] k0]|]; [|exact Hbest].
      destruct Hbest as (Hin & Hc & Hfin).
      split; [apply in_or_app; now left|]. now split.
Qed.

Lemma search_keeps_best (drawn : list (float * float)) :
  forall seen b b',
    best_of compute anchors seen b ->
    monte_carlo.search_loop compute anchors drawn b = Gives b' ->
    best_of compute anchors (seen ++ drawn) b'.
Proof.
  induction drawn as [|xy drawn IH]; intros seen b b' H;
    cbn [monte_carlo.search_loop].
  - intro E. injection E as <-. now rewrite app_nil_r.
  - destruct (monte_carlo.try_point compute anchors b xy) as [b1|e] eqn:E1;
      [|discriminate].
    intro E.
    replace (seen ++ xy :: drawn) with ((seen ++ [xy]) ++ drawn)
      by now rewrite <- app_assoc.
    exact (IH _ _ _ (try_point_keeps_best _ _ _ _ H E1) E).
Qed.

(** The loop raises only what [compute] raises for a point drawn. *)
Lemma search_raises (drawn : list (float * float)) :
  forall b e,
    monte_carlo.search_loop compute anchors drawn b = Throws e ->
    exists xy, In xy drawn /\ compute (fst xy) (snd xy) anchors = Throws e.
Proof.
  induction drawn as [|xy drawn IH]; intros b e;
    cbn [monte_carlo.search_loop]; [discriminate|].
  unfold monte_carlo.try_point at 1.
  destruct (compute (fst xy) (snd xy) anchors) as [[k err]|x] eqn:E.
  - intro H. destruct (IH _ _ H) as (p & Hin & Hp).
    exists p. split; [now right|exact Hp].
  - intro H. injection H as <-. exists xy. split; [now left|exact E].
Qed.

(** X24: [monte_carlo_search] returns a best point among those drawn.
    The loop uses [compute_best_scale_and_error] only through what it
    returns or raises, so this holds for every function [compute] in its
    place.  When the search returns, it returns one of the points drawn,
    with the scale and the error that [compute] gives for it; that error
    is below [inf], and no point drawn has an error below it (the test is
    [err < best_error], which an error that is NaN or [inf] never
    passes).  When the search raises, either [compute] raised that
    exception for a point drawn, or it is the [AssertionError] of the final
    [assert], and then no point drawn has an error below [inf]; that is the
    case when no point is drawn.  So the search returns whenever [compute]
    returns for every point drawn, with an error below [inf] for one of
    them. *)
Theorem search_returns_a_best_point (drawn : list (float * float)) :
  match monte_carlo.monte_carlo_search compute anchors drawn with
  | Gives (px, py, k, err) =>
      In (px, py) drawn
      /\ compute px py anchors = Gives (k, err)
      /\ (err <? Inf)%float = true
      /\ Forall (fun xy =>
                   forall k' err',
                     compute (fst xy) (snd xy) anchors = Gives (k', err') ->
                     (err' <? err)%float = false)
                drawn
  | Throws e =>
      (exists xy,
          In xy drawn /\ compute (fst xy) (snd xy) anchors = Throws e)
      \/ (e = AssertionError
          /\ Forall (fun xy =>
                       forall k' err',
                         compute (fst xy) (snd xy) anchors = Gives (k', err')
                         -> (err' <? Inf)%float = false)
                    drawn)
  end
  /\ (drawn = [] ->
      monte_carlo.monte_carlo_search compute anchors drawn
      = Throws AssertionError)
  /\ (Forall (fun xy =>
                exists k err,
                  compute (fst xy) (snd xy) anchors = Gives (k, err))
             drawn ->
      Exists (fun xy =>
                exists k err,
                  compute (fst xy) (snd xy) anchors = Gives (k, err)
                  /\ (err <? Inf)%float = true)
             drawn ->
      exists result,
        monte_carlo.monte_carlo_search compute anchors drawn = Gives result).
Proof.
  assert (Hfirst : best_of compute anchors [] (monte_carlo.mkBest None Inf))
    by (repeat split; constructor).
  assert (Hmain :
            match monte_carlo.monte_carlo_search compute anchors drawn with
            | Gives (px, py, k, err) =>
                In (px, py) drawn
                /\ compute px py anchors = Gives (k, err)
                /\ (err <? Inf)%float = true
                /\ Forall (fun xy =>
                             forall k' err',
                               compute (fst xy) (snd xy) anchors
                               = Gives (k', err') ->
                               (err' <? err)%float = false)
                          drawn
            | Throws e =>
                (exists xy,
                    In xy drawn
                    /\ compute (fst xy) (snd xy) anchors = Throws e)
                \/ (e = AssertionError
                    /\ Forall (fun xy =>
                                 forall k' err',
                                   compute (fst xy) (snd xy) anchors
                                   = Gives (k', err')
                                   -> (err' <? Inf)%float = false)
                              drawn)
            end).
  { unfold monte_carlo.monte_carlo_search.
    destruct (monte_carlo.search_loop compute anchors drawn
                                      (monte_carlo.mkBest None Inf))
      as [b|e] eqn:E.
    - pose proof (search_keeps_best drawn [] _ b Hfirst E) as (Hnan & Hall & H).
      cbn [app] in Hall, H.
      destruct (monte_carlo.best_point b) as [[[px py] k]|].
      + destruct H as (Hin & Hc & Hfin). now repeat split.
      + right. split; [reflexivity|]. now rewrite <- H.
    - left. exact (search_raises drawn _ e E). }
  split; [exact Hmain|]. split.
  - intros ->. reflexivity.
  - intros Hall Hone.
    destruct (monte_carlo.monte_carlo_search compute anchors drawn)
      as [result|e]; [now exists result|].
    exfalso. destruct Hmain as [(xy & Hin & Hxy)|[_ Hnone]].
    + rewrite Forall_forall in Hall.
      destruct (Hall xy Hin) as (k & err & Hk). congruence.
    + apply Exists_exists in Hone.
      destruct Hone as (xy & Hin & k & err & Hk & Hfin).
      rewrite Forall_forall in Hnone.
      rewrite (Hnone xy Hin k err Hk) in Hfin. discriminate Hfin.
Qed.

End SearchProperties.

(** ** The client that connects for each ping *)

Import simple_tcp_client.

(** The inner [try] neither opens nor closes a socket, records at most one
    sample and prints a result only for a sample that it records. *)
Lemma exchange_shape (i : nat) (env : turn_env) (latencies : list json) :
  exists added,
    snd (fst (exchange i env latencies)) = latencies ++ added
    /\ (printed_results (snd (exchange i env latencies)) <= length added)%nat
    /\ (length added <= 1)%nat
    /\ Forall in_a_turn (snd (exchange i env latencies)).
Proof.
  unfold exchange, after, record_response.
  destruct (connected env) as [[]| | |]; cbn;
    try solve [exists []; rewrite app_nil_r; repeat split; cbn;
               try lia; repeat constructor].
  destruct (sent env) as [[]| | |]; cbn;
    try solve [exists []; rewrite app_nil_r; repeat split; cbn;
               try lia; repeat constructor].
  destruct (received env) as [[| | | |v]| | |]; cbn;
    try solve [exists []; rewrite app_nil_r; repeat split; cbn;
               try lia; repeat constructor].
  destruct v as [|b|z|q|s|vs|d]; cbn;
    try solve [exists []; rewrite app_nil_r; repeat split; cbn;
               try lia; repeat constructor].
  destruct (formats _); cbn;
    solve [eexists [_]; repeat split; cbn; try lia; repeat constructor].
Qed.

Lemma opened_app (a b : list simple_tcp_client.effect) :
  opened (a ++ b) = (opened a + opened b)%nat.
Proof. unfold opened. now rewrite filter_app, length_app. Qed.

Lemma closed_app (a b : list simple_tcp_client.effect) :
  closed (a ++ b) = (closed a + closed b)%nat.
Proof. unfold closed. now rewrite filter_app, length_app. Qed.

Lemma printed_results_app (a b : list simple_tcp_client.effect) :
  printed_results (a ++ b) = (printed_results a + printed_results b)%nat.
Proof. unfold printed_results. now rewrite filter_app, length_app. Qed.

Lemma nothing_opened_in_a_turn (out : list simple_tcp_client.effect) :
  Forall in_a_turn out -> opened out = 0%nat /\ closed out = 0%nat.
Proof.
  induction 1 as [|eff out Heff _ [IHo IHc]]; [split; reflexivity|].
  unfold opened, closed in *. cbn.
  destruct eff as [| |r|[]|]; try destruct Heff; cbn; now split.
Qed.

(** What the statistics print: no socket, no pause, no result of a test,
    and "all failed" only for an empty list. *)
Lemma report_shape (latencies : list json) :
  opened (snd (report latencies)) = 0%nat
  /\ closed (snd (report latencies)) = 0%nat
  /\ printed_results (snd (report latencies)) = 0%nat
  /\ sleeps (snd (report latencies)) = 0%nat
  /\ (In (Say all_failed) (snd (report latencies)) <-> latencies = []).
Proof.
  unfold report. destruct latencies as [|v vs].
  - repeat split. intros _. now left.
  - destruct (all_numbers (v :: vs)).
    2: { repeat split; try discriminate. cbn. intuition discriminate. }
    destruct (formats (TCPClient.min_of v vs)).
    { repeat split; try discriminate. cbn. intuition discriminate. }
    destruct (formats (TCPClient.max_of v vs)).
    { repeat split; try discriminate. cbn. intuition discriminate. }
    destruct (mean_of (v :: vs)).
    + repeat split; try discriminate. cbn. intuition discriminate.
    + repeat split; try discriminate. cbn. intuition discriminate.
Qed.

(** The loop, for every behaviour of the environment. *)
Lemma turns_shape (envs : list turn_env) :
  forall i latencies,
    let res := turns i envs latencies in
    opened (snd res) = closed (snd res)
    /\ (opened (snd res) <= length envs)%nat
    /\ exists added,
        snd (fst res) = latencies ++ added
        /\ (printed_results (snd res) <= length added)%nat
        /\ (length added <= opened (snd res))%nat.
Proof.
  induction envs as [|env envs IH]; intros i latencies; cbv zeta.
  - cbn [turns]. destruct (report_shape latencies) as (Ho & Hc & Hp & _).
    destruct (report latencies) as [ended out]. cbn [fst snd] in *.
    unfold opened, closed, printed_results in *. cbn [filter].
    rewrite Ho, Hc, Hp. split; [reflexivity|]. split; [cbn; lia|].
    exists []. rewrite app_nil_r. repeat split; cbn; lia.
  - cbn [turns]. destruct (created env) as [[]|].
    2: { cbn. split; [reflexivity|]. split; [lia|].
         exists []. rewrite app_nil_r. repeat split; cbn; lia. }
    destruct (exchange_shape i env latencies)
      as (added & Hlat & Hprinted & Hadded & Hin).
    destruct (nothing_opened_in_a_turn _ Hin) as [Ho Hc].
    destruct (exchange i env latencies) as [[[|] latencies1] out].
    + cbn [fst snd] in *. subst latencies1.
      specialize (IH (i + 1)%nat (latencies ++ added)). cbv zeta in IH.
      destruct (turns (i + 1) envs (latencies ++ added))
        as [[ended latencies2] out'].
      cbn [fst snd] in *.
      destruct IH as (Hbal & Hle & more & Hlat2 & Hp2 & Hlen2).
      assert (Hpause : opened match envs with [] => [] | _ :: _ => [Sleep]
                              end = 0%nat
                       /\ closed match envs with [] => [] | _ :: _ => [Sleep]
                                 end = 0%nat
                       /\ printed_results
                            match envs with [] => [] | _ :: _ => [Sleep]
                            end = 0%nat)
        by (destruct envs; repeat split).
      destruct Hpause as (P1 & P2 & P3).
      change (Open :: out ++ [Close] ++ ?p ++ out')
        with ([Open] ++ out ++ [Close] ++ p ++ out').
      rewrite !opened_app, !closed_app, !printed_results_app.
      rewrite Ho, Hc, P1, P2, P3.
      split; [cbn; lia|]. split; [cbn; lia|].
      exists (added ++ more). rewrite Hlat2, app_assoc, length_app.
      repeat split; cbn; lia.
    + cbn [fst snd] in *. subst latencies1.
      change (Open :: out ++ [Close; Say interrupted])
        with ([Open] ++ out ++ [Close; Say interrupted]).
      rewrite !opened_app, !closed_app, !printed_results_app, Ho, Hc.
      split; [reflexivity|]. split; [cbn; lia|].
      exists added. repeat split; cbn; lia.
Qed.

(** X25: the simple client closes every socket that it opens and keeps
    within its count.  Whatever happens in the turns (refused connection,
    timeout, undecodable response, interrupt), as many sockets are closed
    as are created, at most one for each turn; at most one sample is
    recorded for each socket, and no result is printed without a sample. *)
Theorem every_socket_is_closed (host : string) (port : N)
        (envs : list turn_env) :
  let res := test_tcp_latency host port envs in
  opened (snd res) = closed (snd res)
  /\ (opened (snd res) <= length envs)%nat
  /\ (length (snd (fst res)) <= opened (snd res))%nat
  /\ (printed_results (snd res) <= length (snd (fst res)))%nat.
Proof.
  cbv zeta. unfold test_tcp_latency.
  pose proof (turns_shape envs 0 []) as H. cbv zeta in H.
  destruct (turns 0 envs []) as [[ended latencies] out].
  cbn [fst snd] in *.
  destruct H as (Hbal & Hle & added & Hlat & Hp & Hlen).
  cbn [app] in Hlat. subst latencies.
  unfold opened, closed, printed_results in *. cbn [filter].
  repeat split; assumption.
Qed.

Lemma sleeps_app (a b : list simple_tcp_client.effect) :
  sleeps (a ++ b) = (sleeps a + sleeps b)%nat.
Proof. unfold sleeps. now rewrite filter_app, length_app. Qed.

Lemma no_sleep_in_a_turn (out : list simple_tcp_client.effect) :
  Forall in_a_turn out
  -> sleeps out = 0%nat /\ ~ In (Say all_failed) out.
Proof.
  induction 1 as [|eff out Heff _ [IHs IHa]]; [split; [reflexivity|easy]|].
  unfold sleeps in *. cbn.
  destruct eff as [| |r|[]|]; try destruct Heff; cbn; split;
    try assumption; intros [H|H]; try discriminate H; now apply IHa.
Qed.

(** In a calm turn the inner [try] ends in the normal way. *)
Lemma calm_exchange (i : nat) (env : turn_env) (latencies : list json) :
  calm env = true ->
  created env = Done tt /\ fst (fst (exchange i env latencies)) = Goes_on.
Proof.
  unfold calm, exchange, after, record_response.
  destruct (created env) as [[]|]; [|discriminate].
  destruct (connected env) as [[]| | |]; try discriminate; cbn; auto.
  destruct (sent env) as [[]| | |]; try discriminate; cbn; auto.
  destruct (received env) as [[| | | |v]| | |]; try discriminate; cbn; auto.
  destruct v as [|b|z|q|s|vs|d]; cbn; auto.
  destruct (formats _); cbn; auto.
Qed.

(** The sum of floats is a float: no conversion of an int can fail. *)
Lemma sum_from_floats (qs : list float) :
  forall total,
    exists sum, sum_from (Float total) (map JNum qs) = Gives (Float sum).
Proof.
  induction qs as [|q qs IH]; intro total; cbn [map sum_from as_number].
  - now exists total.
  - unfold add. cbn [to_float]. apply IH.
Qed.

Lemma floats_are_floats (values : list json) :
  forallb is_float values = true -> exists qs, values = map JNum qs.
Proof.
  induction values as [|v values IH]; intro Hall; [now exists []|].
  cbn [forallb] in Hall. apply andb_true_iff in Hall.
  destruct Hall as [Hv Hall]. destruct (IH Hall) as (qs & ->).
  destruct v as [|b|z|q|s|vs|d]; try discriminate Hv.
  now exists (q :: qs).
Qed.

(** On floats the statistics are printed to the end. *)
Lemma report_of_floats (latencies : list json) :
  forallb is_float latencies = true -> fst (report latencies) = Returns.
Proof.
  intro Hall. destruct (floats_are_floats latencies Hall) as (qs & ->).
  unfold report. destruct qs as [|q qs]; [reflexivity|].
  rewrite all_numbers_of_floats. cbn [map].
  rewrite min_of_floats, max_of_floats. cbn [formats].
  unfold mean_of. cbn [sum_from as_number].
  assert (E : add (Int 0) (Float q) = Gives (Float (F 0 + q)%float))
    by reflexivity.
  rewrite E.
  destruct (sum_from_floats qs (F 0 + q)%float) as (sum & ->).
  reflexivity.
Qed.

Lemma calm_turns (envs : list turn_env) :
  forallb calm envs = true ->
  forall i latencies,
    let res := turns i envs latencies in
    opened (snd res) = length envs
    /\ sleeps (snd res) = (length envs - 1)%nat
    /\ (In (Say all_failed) (snd res) <-> snd (fst res) = [])
    /\ (forallb is_float (snd (fst res)) = true ->
        fst (fst res) = Returns).
Proof.
  induction envs as [|env envs IH]; intros Hcalm i latencies; cbv zeta.
  - cbn [turns].
    destruct (report_shape latencies) as (Q1 & _ & _ & Q2 & Hfailed).
    pose proof (report_of_floats latencies) as Hfloats.
    destruct (report latencies) as [ended out]. cbn [fst snd] in *.
    unfold opened, sleeps in *. cbn [filter length].
    split; [exact Q1|]. split; [exact Q2|]. split; [|exact Hfloats].
    rewrite <- Hfailed. cbn [In]. intuition discriminate.
  - cbn [forallb] in Hcalm. apply andb_true_iff in Hcalm.
    destruct Hcalm as [Henv Hcalm].
    destruct (calm_exchange i env latencies Henv) as [Hcreated Hgoes].
    cbn [turns]. rewrite Hcreated.
    destruct (exchange_shape i env latencies) as (added & Hlat & _ & _ & Hin).
    destruct (nothing_opened_in_a_turn _ Hin) as [Ho _].
    destruct (no_sleep_in_a_turn _ Hin) as [Hs Hnone].
    destruct (exchange i env latencies) as [[ended latencies1] out].
    cbn [fst snd] in *. subst ended latencies1.
    specialize (IH Hcalm (i + 1)%nat (latencies ++ added)). cbv zeta in IH.
    destruct (turns (i + 1) envs (latencies ++ added))
      as [[ended latencies2] out'].
    cbn [fst snd] in *.
    destruct IH as (Hopen & Hsleep & Hfailed & Hfloats).
    change (Open :: out ++ [Close] ++ ?p ++ out')
      with ([Open] ++ out ++ [Close] ++ p ++ out').
    rewrite !opened_app, !sleeps_app, Ho, Hs, Hopen, Hsleep.
    assert (Hin_rest : forall p,
               (p = [] \/ p = [Sleep]) ->
               In (Say all_failed) ([Open] ++ out ++ [Close] ++ p ++ out')
               <-> In (Say all_failed) out').
    { intros p Hp. rewrite !in_app_iff.
      destruct Hp as [-> | ->]; cbn [In]; intuition (try discriminate). }
    destruct envs as [|env' envs]; cbn [length].
    + rewrite (Hin_rest [] (or_introl eq_refl)).
      repeat split; auto; apply Hfailed.
    + rewrite (Hin_rest [Sleep] (or_intror eq_refl)).
      repeat split; auto; try apply Hfailed; cbn; lia.
Qed.

(** X26: a failed turn does not end the run of the simple client.  When
    every socket can be created and no [KeyboardInterrupt] arrives, all
    [count] turns are made, whatever is refused, times out or cannot be
    decoded: [count] sockets are opened, there are [count - 1] pauses, and
    "all failed" is printed exactly when no sample was recorded.  The
    function returns when every sample recorded is a float; it can raise
    only when the "latency" entry of a response was something else (a
    string, [null], or an int too large to be formatted, which stay in the
    list although their line could not be printed). *)
Theorem failed_turns_do_not_end_the_run (host : string) (port : N)
        (envs : list turn_env) :
  forallb calm envs = true ->
  let res := test_tcp_latency host port envs in
  opened (snd res) = length envs
  /\ sleeps (snd res) = (length envs - 1)%nat
  /\ (In (Say all_failed) (snd res) <-> snd (fst res) = [])
  /\ (forallb is_float (snd (fst res)) = true -> fst (fst res) = Returns).
Proof.
  intro Hcalm. cbv zeta. unfold test_tcp_latency.
  pose proof (calm_turns envs Hcalm 0 []) as H. cbv zeta in H.
  destruct (turns 0 envs []) as [[ended latencies] out].
  cbn [fst snd] in *.
  destruct H as (Hopen & Hsleep & Hfailed & Hfloats).
  unfold opened, sleeps in *. cbn [filter].
  split; [exact Hopen|]. split; [exact Hsleep|]. split; [|exact Hfloats].
  rewrite <- Hfailed. cbn [In]. intuition discriminate.
Qed.

(** Three turns: a timeout, a refused connection and a pong of 2 ms. *)
Lemma failed_turns_witness :
  let envs :=
    [mkTurn (Done tt) (F 10) (Got tt) (F 10) (Got tt) TimedOut (F 15);
     mkTurn (Done tt) (F 20) Errored (F 20) (Got tt) TimedOut (F 20);
     mkTurn (Done tt) (F 30) (Got tt) (F 30) (Got tt)
            (Got (Text (JObj [("latency"%string, JNum (F 2))]))) (F 31)] in
  let res := test_tcp_latency "127.0.0.1" 8888%N envs in
  opened (snd res) = 3%nat
  /\ sleeps (snd res) = 2%nat
  /\ snd (fst res) = [JNum (F 2)]
  /\ fst (fst res) = Returns.
Proof.
  cbv zeta.
  pose proof (failed_turns_do_not_end_the_run
                "127.0.0.1" 8888%N
                [mkTurn (Done tt) (F 10) (Got tt) (F 10) (Got tt) TimedOut
                        (F 15);
                 mkTurn (Done tt) (F 20) Errored (F 20) (Got tt) TimedOut
                        (F 20);
                 mkTurn (Done tt) (F 30) (Got tt) (F 30) (Got tt)
                        (Got (Text (JObj [("latency"%string, JNum (F 2))])))
                        (F 31)]
                eq_refl) as H.
  cbv zeta in H. destruct H as (H1 & H2 & _ & H4).
  split; [exact H1|]. split; [exact H2|]. split; [reflexivity|].
  exact (H4 eq_refl).
Defined.

(** A response whose latency is the int [10 ** 400]: the sample is kept,
    its line is an error, and the statistics raise [OverflowError] at the
    first value that they format. *)
Example oversized_latency_ends_the_report :
  test_tcp_latency
    "127.0.0.1" 8888%N
    [mkTurn (Done tt) (F 30) (Got tt) (F 30) (Got tt)
            (Got (Text (JObj [("latency"%string, JInt (10 ^ 400))]))) (F 31)]
  = (Raises, [JInt (10 ^ 400)],
     [Say (test_started "127.0.0.1" 8888%N 1); Say separator;
      Open;
      Send (JObj [("type"%string, JStr "ping");
                  ("timestamp"%string, JNum (F 30))]);
      Say (test_error 1);
      Close;
      Say separator;
      Say results_header; Say (success_count 1)]).
Proof. vm_compute. reflexivity. Qed.
